(** * Delta ERP: ledger, inventory and invoice numbering

    A shallow embedding of the two record stores of the repository:

    - [MemStorage], the class [MemStorage] of the server's storage module
      (the first document of [unnamed/part_005]), whose collections are
      JavaScript [Map]s keyed by numeric identifiers drawn from
      per-collection counters;
    - [Firebase], the Firestore client that the pages import as
      [lib/firebase] (the document that follows the status badge in
      [client/src/components/ui/status-badge.tsx]), whose collections are
      Firestore collections keyed by document identifiers (strings);

    and of two pages that call the client:

    - [ViewSale], the page of one sale ([client/src/pages/sales/view.tsx]),
      for the handler that adds a payment;
    - [Finances], the finances report ([unnamed/part_009]), for the pie
      chart of payment methods and the table of customer balances.

    Conventions of the embedding.

    - A JavaScript [Map] and a Firestore collection are finite maps ([gmap]),
      enumerated in the order of their keys ([in_key_order]).  A [Map] is
      iterated in insertion order; the class inserts under counters that
      only grow and never sets a key again once it is deleted, so that is
      the order of the numeric identifiers.  A Firestore query without
      [orderBy] returns its documents in the order of their identifiers.
    - A JavaScript number is an IEEE 754 double ([number], the primitive
      binary64 floats): sums, differences and comparisons of amounts are
      those of doubles, rounding included.  Stock levels, quantities,
      counters and time stamps are whole numbers and are kept as integers
      ([Z]).
    - A decimal text column of the relational schema ([numeric]) is
      represented by a number: the one that [Number] reads from the text
      that a caller supplied, and the one whose text [String] wrote where
      the store computed it.  The store reads such a column only through
      [Number], and never one that it wrote itself.
    - An [async] function is a state transformer; every [await] is sequential
      composition (the claims are about non-interleaved calls).  A rejected
      promise is [None].
    - Each call receives the value [now] of [new Date()]; the time stamps
      taken within one call are identified.
    - Firestore generates the identifier of a document added with [addDoc];
      that identifier is an input of the operation. *)

From Stdlib Require Import QArith Floats Uint63.
From stdpp Require Import gmap strings list fin_maps sorting.
From Stdlib Require Import ZArith Ascii String Sorted.
From Stdlib Require Import DecimalString DecimalPos DecimalZ DecimalN.

Local Open Scope Z_scope.

(** ** JavaScript built-ins used by the stores *)

Module Js.

(** A [Date], observed through [getTime], [getFullYear] and [getMonth]
    (the latter counts from 0). *)
Record Date := mkDate { getTime : Z; getFullYear : Z; getMonth : Z }.

(** The resolved value of a promise, as far as the callers distinguish it:
    [Promise<void>] resolves to [undefined], [Promise<boolean>] to a
    boolean. *)
Inductive value :=
| undefined
| boolean (b : bool).

(** [String(n)] for an integer [n]. *)
Definition String_ (n : Z) : string := NilEmpty.string_of_int (Z.to_int n).

Fixpoint repeat (c : ascii) (n : nat) : string :=
  match n with
  | O => EmptyString
  | S n' => String c (repeat c n')
  end.

(** [s.padStart(targetLength, c)]: nothing is added (and nothing removed)
    when [s] is already long enough. *)
Definition padStart (s : string) (targetLength : nat) (c : ascii) : string :=
  repeat c (targetLength - String.length s) +:+ s.

(** The character class [\d]. *)
Definition is_digit (c : ascii) : bool :=
  let n := nat_of_ascii c in (48 <=? n)%nat && (n <=? 57)%nat.

(** The longest run of digits that ends [s]. *)
Fixpoint trailing_digits (s : string) : string :=
  match s with
  | EmptyString => EmptyString
  | String c r =>
      let t := trailing_digits r in
      if (String.length t =? String.length r)%nat && is_digit c
      then String c t else t
  end.

(** [s.match(/\d+$/)]: [None] is [null] (no digit ends [s]), [Some m] is a
    match whose element 0 is [m]. *)
Definition match_digits_at_end (s : string) : option string :=
  match trailing_digits s with
  | EmptyString => None
  | m => Some m
  end.

(** [parseInt(s, 10)] on a string of decimal digits (the only use in the
    source is on a match of [\d+]). *)
Definition parseInt (s : string) : Z :=
  match NilEmpty.uint_of_string s with
  | Some d => Z.of_uint d
  | None => 0
  end.

(** A number: an IEEE 754 double. *)
Definition number : Set := float.

(** The number of a whole number (below 2^63). *)
Definition of_integer (n : Z) : number :=
  if n <? 0 then (- of_uint63 (Uint63.of_Z (- n)))%float
  else of_uint63 (Uint63.of_Z n).

(** [x || 0] on a number: [0], [-0] and [NaN] are falsy. *)
Definition or_zero (x : number) : number :=
  if PrimFloat.is_zero x || PrimFloat.is_nan x then 0%float else x.

(** [xs.reduce((sum, x) => sum + f(x), 0)]: the numbers [f x] added to [0]
    one after the other, from the first element on. *)
Definition sum {A} (f : A → number) (xs : list A) : number :=
  foldl (λ sum x, (sum + f x)%float) 0%float xs.

End Js.

Export Js(Date, mkDate, getTime, getFullYear, getMonth, number).

Bind Scope float_scope with number.

(** ** Iteration order of the collections *)

(** The order of the entries of a collection by their keys. *)
Definition key_le {K A} (le : relation K) : relation (K * A) :=
  λ x y, le x.1 y.1.

#[global] Instance key_le_dec {K A} (le : relation K) `{!RelDecision le} :
  RelDecision (@key_le K A le).
Proof. intros x y. unfold key_le. apply _. Defined.

(** The entries of [m], smaller keys first. *)
Definition in_key_order `{Countable K} {A} (le : relation K)
    `{!RelDecision le} (m : gmap K A) : list (K * A) :=
  merge_sort (key_le le) (map_to_list m).

(** The entry under [k] rewritten to [a'], every other entry kept. *)
Definition rewritten `{EqDecision K} {A} (k : K) (a' : A) (e : K * A)
    : K * A :=
  if decide (e.1 = k) then (k, a') else e.

(** ** Enumerations shared by both stores *)

Inductive CustomerClassification := institution | store | individual.
Inductive ProductCategory := construction | external_facades | decorative.
Inductive PaymentMethod := cash | credit_card | bank_transfer | check.
Inductive InvoiceStatus := pending | paid | partially_paid | overdue | cancelled.

(** [PREFIX-YYYYMM-NNNN] as both stores build it:
    [`${prefix}-${year}${month}-${String(n).padStart(4, '0')}`] with
    [month = String(now.getMonth() + 1).padStart(2, '0')]. *)
Definition documentNumber (prefix : string) (now : Date) (n : Z) : string :=
  let year := getFullYear now in
  let month := Js.padStart (Js.String_ (getMonth now + 1)) 2 "0"%char in
  prefix +:+ "-" +:+ Js.String_ year +:+ month +:+ "-"
    +:+ Js.padStart (Js.String_ n) 4 "0"%char.

(** ** The in-process store ([MemStorage])

    The records follow the relational schema of [shared/schema.ts]; the
    [Insert*] records are the same rows without the columns the store fills
    in.  The [users] table takes no part in the ledger and is left out. *)

Module MemStorage.

Module InsertCustomer.
Record t := mk {
  name : string; phone : string; address : string;
  classification : CustomerClassification; discountPercentage : number }.
End InsertCustomer.

Module Customer.
Record t := mk {
  id : Z; name : string; phone : string; address : string;
  classification : CustomerClassification; discountPercentage : number;
  createdAt : Date; updatedAt : Date }.
End Customer.

Module InsertProduct.
Record t := mk {
  name : string; category : ProductCategory; colorOrBatch : string;
  price : number; stock : Z }.
End InsertProduct.

Module Product.
Record t := mk {
  id : Z; name : string; category : ProductCategory; colorOrBatch : string;
  price : number; stock : Z; createdAt : Date; updatedAt : Date }.
End Product.

Module InsertSale.
Record t := mk {
  invoiceNumber : string; customerId : Z; date : Date; subTotal : number;
  discountAmount : number; totalAmount : number; paymentMethod : PaymentMethod;
  paymentStatus : InvoiceStatus; notes : string; createdBy : string }.
End InsertSale.

Module Sale.
Record t := mk {
  id : Z; invoiceNumber : string; customerId : Z; date : Date;
  subTotal : number; discountAmount : number; totalAmount : number;
  paymentMethod : PaymentMethod; paymentStatus : InvoiceStatus;
  notes : string; createdBy : string; createdAt : Date; updatedAt : Date }.
End Sale.

(** [Partial<Omit<Sale, 'id'>>]: the fields that are present. *)
Module SalePatch.
Record t := mk {
  invoiceNumber : option string; customerId : option Z;
  date : option Date; subTotal : option number; discountAmount : option number;
  totalAmount : option number; paymentMethod : option PaymentMethod;
  paymentStatus : option InvoiceStatus; notes : option string;
  createdBy : option string; createdAt : option Date;
  updatedAt : option Date }.
End SalePatch.

Module InsertSaleItem.
Record t := mk {
  saleId : Z; productId : Z; quantity : Z; unitPrice : number; totalPrice : number }.
End InsertSaleItem.

Module SaleItem.
Record t := mk {
  id : Z; saleId : Z; productId : Z; quantity : Z; unitPrice : number;
  totalPrice : number }.
End SaleItem.

Module InsertReturn.
Record t := mk {
  returnNumber : string; saleId : Z; customerId : Z; date : Date;
  totalAmount : number; reason : string; createdBy : string }.
End InsertReturn.

Module Return.
Record t := mk {
  id : Z; returnNumber : string; saleId : Z; customerId : Z; date : Date;
  totalAmount : number; reason : string; createdBy : string;
  createdAt : Date; updatedAt : Date }.
End Return.

Module InsertReturnItem.
Record t := mk {
  returnId : Z; productId : Z; quantity : Z; unitPrice : number;
  totalPrice : number }.
End InsertReturnItem.

Module ReturnItem.
Record t := mk {
  id : Z; returnId : Z; productId : Z; quantity : Z; unitPrice : number;
  totalPrice : number }.
End ReturnItem.

Module InsertPayment.
Record t := mk {
  saleId : Z; amount : number; paymentMethod : PaymentMethod; date : Date;
  reference : string; createdBy : string }.
End InsertPayment.

Module Payment.
Record t := mk {
  id : Z; saleId : Z; amount : number; paymentMethod : PaymentMethod;
  date : Date; reference : string; createdBy : string; createdAt : Date }.
End Payment.

Module CustomerBalance.
Record t := mk {
  id : Z; customerId : Z; totalSales : number; totalPayments : number;
  totalReturns : number; balance : number; updatedAt : Date }.
End CustomerBalance.

(** The private fields of the class. *)
Record t := mk {
  customersMap : gmap Z Customer.t;
  productsMap : gmap Z Product.t;
  salesMap : gmap Z Sale.t;
  saleItemsMap : gmap Z (list SaleItem.t);
  returnsMap : gmap Z Return.t;
  returnItemsMap : gmap Z (list ReturnItem.t);
  paymentsMap : gmap Z Payment.t;
  customerBalancesMap : gmap Z CustomerBalance.t;
  customerIdCounter : Z;
  productIdCounter : Z;
  saleIdCounter : Z;
  saleItemIdCounter : Z;
  returnIdCounter : Z;
  returnItemIdCounter : Z;
  paymentIdCounter : Z }.

(** [constructor()] *)
Definition constructor : t :=
  {| customersMap := ∅; productsMap := ∅; salesMap := ∅; saleItemsMap := ∅;
     returnsMap := ∅; returnItemsMap := ∅; paymentsMap := ∅;
     customerBalancesMap := ∅;
     customerIdCounter := 1; productIdCounter := 1; saleIdCounter := 1;
     saleItemIdCounter := 1; returnIdCounter := 1; returnItemIdCounter := 1;
     paymentIdCounter := 1 |}.

(** [Array.from(map.values())]: the values in the order of insertion, which
    is the order of the identifiers. *)
Definition values {A} (m : gmap Z A) : list A := (in_key_order Z.le m).*2.

(** *** Customers *)

Definition createCustomer (st : t) (insertCustomer : InsertCustomer.t)
    (now : Date) : t * Customer.t :=
  let id := customerIdCounter st in
  let customer :=
    {| Customer.id := id;
       Customer.name := InsertCustomer.name insertCustomer;
       Customer.phone := InsertCustomer.phone insertCustomer;
       Customer.address := InsertCustomer.address insertCustomer;
       Customer.classification := InsertCustomer.classification insertCustomer;
       Customer.discountPercentage :=
         InsertCustomer.discountPercentage insertCustomer;
       Customer.createdAt := now;
       Customer.updatedAt := now |} in
  ({| customersMap := <[id := customer]> (customersMap st);
      productsMap := productsMap st; salesMap := salesMap st;
      saleItemsMap := saleItemsMap st; returnsMap := returnsMap st;
      returnItemsMap := returnItemsMap st; paymentsMap := paymentsMap st;
      customerBalancesMap := customerBalancesMap st;
      customerIdCounter := id + 1;
      productIdCounter := productIdCounter st;
      saleIdCounter := saleIdCounter st;
      saleItemIdCounter := saleItemIdCounter st;
      returnIdCounter := returnIdCounter st;
      returnItemIdCounter := returnItemIdCounter st;
      paymentIdCounter := paymentIdCounter st |}, customer).

Definition deleteCustomer (st : t) (id : Z) : t * bool :=
  let exists_ := bool_decide (is_Some (customersMap st !! id)) in
  if exists_ then
    ({| customersMap := delete id (customersMap st);
        productsMap := productsMap st; salesMap := salesMap st;
        saleItemsMap := saleItemsMap st; returnsMap := returnsMap st;
        returnItemsMap := returnItemsMap st; paymentsMap := paymentsMap st;
        customerBalancesMap := customerBalancesMap st;
        customerIdCounter := customerIdCounter st;
        productIdCounter := productIdCounter st;
        saleIdCounter := saleIdCounter st;
        saleItemIdCounter := saleItemIdCounter st;
        returnIdCounter := returnIdCounter st;
        returnItemIdCounter := returnItemIdCounter st;
        paymentIdCounter := paymentIdCounter st |}, true)
  else (st, false).

(** *** Products *)

(** [this.productsMap = m] (the other fields are kept). *)
Definition with_productsMap (st : t) (m : gmap Z Product.t) : t :=
  {| customersMap := customersMap st;
     productsMap := m; salesMap := salesMap st;
     saleItemsMap := saleItemsMap st; returnsMap := returnsMap st;
     returnItemsMap := returnItemsMap st; paymentsMap := paymentsMap st;
     customerBalancesMap := customerBalancesMap st;
     customerIdCounter := customerIdCounter st;
     productIdCounter := productIdCounter st;
     saleIdCounter := saleIdCounter st;
     saleItemIdCounter := saleItemIdCounter st;
     returnIdCounter := returnIdCounter st;
     returnItemIdCounter := returnItemIdCounter st;
     paymentIdCounter := paymentIdCounter st |}.

Definition createProduct (st : t) (insertProduct : InsertProduct.t)
    (now : Date) : t * Product.t :=
  let id := productIdCounter st in
  let product :=
    {| Product.id := id;
       Product.name := InsertProduct.name insertProduct;
       Product.category := InsertProduct.category insertProduct;
       Product.colorOrBatch := InsertProduct.colorOrBatch insertProduct;
       Product.price := InsertProduct.price insertProduct;
       Product.stock := InsertProduct.stock insertProduct;
       Product.createdAt := now;
       Product.updatedAt := now |} in
  ({| customersMap := customersMap st;
      productsMap := <[id := product]> (productsMap st);
      salesMap := salesMap st;
      saleItemsMap := saleItemsMap st; returnsMap := returnsMap st;
      returnItemsMap := returnItemsMap st; paymentsMap := paymentsMap st;
      customerBalancesMap := customerBalancesMap st;
      customerIdCounter := customerIdCounter st;
      productIdCounter := id + 1;
      saleIdCounter := saleIdCounter st;
      saleItemIdCounter := saleItemIdCounter st;
      returnIdCounter := returnIdCounter st;
      returnItemIdCounter := returnItemIdCounter st;
      paymentIdCounter := paymentIdCounter st |}, product).

Definition deleteProduct (st : t) (id : Z) : t * bool :=
  let exists_ := bool_decide (is_Some (productsMap st !! id)) in
  if exists_ then (with_productsMap st (delete id (productsMap st)), true)
  else (st, false).

(** [{ ...product, stock, updatedAt }] *)
Definition Product_with_stock (product : Product.t) (stock : Z)
    (updatedAt : Date) : Product.t :=
  {| Product.id := Product.id product;
     Product.name := Product.name product;
     Product.category := Product.category product;
     Product.colorOrBatch := Product.colorOrBatch product;
     Product.price := Product.price product;
     Product.stock := stock;
     Product.createdAt := Product.createdAt product;
     Product.updatedAt := updatedAt |}.

(** *** Payments and customer balances *)

Definition getPaymentsBySale (st : t) (saleId : Z) : list Payment.t :=
  filter (λ payment, Payment.saleId payment = saleId)
         (values (paymentsMap st)).

Definition getCustomerBalance (st : t) (customerId : Z)
    : option CustomerBalance.t :=
  customerBalancesMap st !! customerId.

(** [this.customerBalancesMap = m] (the other fields are kept). *)
Definition with_customerBalancesMap (st : t)
    (m : gmap Z CustomerBalance.t) : t :=
  {| customersMap := customersMap st;
     productsMap := productsMap st; salesMap := salesMap st;
     saleItemsMap := saleItemsMap st; returnsMap := returnsMap st;
     returnItemsMap := returnItemsMap st; paymentsMap := paymentsMap st;
     customerBalancesMap := m;
     customerIdCounter := customerIdCounter st;
     productIdCounter := productIdCounter st;
     saleIdCounter := saleIdCounter st;
     saleItemIdCounter := saleItemIdCounter st;
     returnIdCounter := returnIdCounter st;
     returnItemIdCounter := returnItemIdCounter st;
     paymentIdCounter := paymentIdCounter st |}.

Definition updateCustomerBalance (st : t) (customerId : Z) (now : Date)
    : t * CustomerBalance.t :=
  (* Calculate total sales *)
  let customerSales :=
    filter (λ sale, Sale.customerId sale = customerId)
           (values (salesMap st)) in
  let totalSales :=
    foldl (λ sum sale, sum + Sale.totalAmount sale)%float 0%float
          customerSales in
  (* Calculate total returns *)
  let customerReturns :=
    filter (λ returnItem, Return.customerId returnItem = customerId)
           (values (returnsMap st)) in
  let totalReturns :=
    foldl (λ sum returnItem, sum + Return.totalAmount returnItem)%float
          0%float customerReturns in
  (* Calculate total payments *)
  let totalPayments :=
    foldl (λ totalPayments sale,
             let paymentsForSale := getPaymentsBySale st (Sale.id sale) in
             totalPayments
             + foldl (λ sum payment, sum + Payment.amount payment) 0
                     paymentsForSale)%float
          0%float customerSales in
  (* Calculate balance *)
  let balance := (totalSales - totalPayments - totalReturns)%float in
  (* Create or update balance *)
  let customerBalance :=
    {| CustomerBalance.id := customerId;
       CustomerBalance.customerId := customerId;
       CustomerBalance.totalSales := totalSales;
       CustomerBalance.totalPayments := totalPayments;
       CustomerBalance.totalReturns := totalReturns;
       CustomerBalance.balance := balance;
       CustomerBalance.updatedAt := now |} in
  (with_customerBalancesMap st
     (<[customerId := customerBalance]> (customerBalancesMap st)),
   customerBalance).

(** *** Sales *)

(** [this.salesMap = m] (the other fields are kept). *)
Definition with_salesMap (st : t) (m : gmap Z Sale.t) : t :=
  {| customersMap := customersMap st;
     productsMap := productsMap st; salesMap := m;
     saleItemsMap := saleItemsMap st; returnsMap := returnsMap st;
     returnItemsMap := returnItemsMap st; paymentsMap := paymentsMap st;
     customerBalancesMap := customerBalancesMap st;
     customerIdCounter := customerIdCounter st;
     productIdCounter := productIdCounter st;
     saleIdCounter := saleIdCounter st;
     saleItemIdCounter := saleItemIdCounter st;
     returnIdCounter := returnIdCounter st;
     returnItemIdCounter := returnItemIdCounter st;
     paymentIdCounter := paymentIdCounter st |}.

Definition createSale (st : t) (insertSale : InsertSale.t) (now : Date)
    : t * Sale.t :=
  let id := saleIdCounter st in
  (* Generate invoice number *)
  let invoiceNumber := documentNumber "INV" now id in
  let sale :=
    {| Sale.id := id;
       Sale.invoiceNumber := invoiceNumber;
       Sale.customerId := InsertSale.customerId insertSale;
       Sale.date := InsertSale.date insertSale;
       Sale.subTotal := InsertSale.subTotal insertSale;
       Sale.discountAmount := InsertSale.discountAmount insertSale;
       Sale.totalAmount := InsertSale.totalAmount insertSale;
       Sale.paymentMethod := InsertSale.paymentMethod insertSale;
       Sale.paymentStatus := InsertSale.paymentStatus insertSale;
       Sale.notes := InsertSale.notes insertSale;
       Sale.createdBy := InsertSale.createdBy insertSale;
       Sale.createdAt := now;
       Sale.updatedAt := now |} in
  let st1 :=
    {| customersMap := customersMap st;
       productsMap := productsMap st;
       salesMap := <[id := sale]> (salesMap st);
       saleItemsMap := <[id := []]> (saleItemsMap st);
       returnsMap := returnsMap st;
       returnItemsMap := returnItemsMap st; paymentsMap := paymentsMap st;
       customerBalancesMap := customerBalancesMap st;
       customerIdCounter := customerIdCounter st;
       productIdCounter := productIdCounter st;
       saleIdCounter := id + 1;
       saleItemIdCounter := saleItemIdCounter st;
       returnIdCounter := returnIdCounter st;
       returnItemIdCounter := returnItemIdCounter st;
       paymentIdCounter := paymentIdCounter st |} in
  (* Update customer balance *)
  let '(st2, _) := updateCustomerBalance st1 (Sale.customerId sale) now in
  (st2, sale).

(** [{ ...sale, ...saleData, updatedAt: new Date() }] *)
Definition Sale_merge (sale : Sale.t) (saleData : SalePatch.t)
    (updatedAt : Date) : Sale.t :=
  {| Sale.id := Sale.id sale;
     Sale.invoiceNumber :=
       default (Sale.invoiceNumber sale) (SalePatch.invoiceNumber saleData);
     Sale.customerId :=
       default (Sale.customerId sale) (SalePatch.customerId saleData);
     Sale.date := default (Sale.date sale) (SalePatch.date saleData);
     Sale.subTotal :=
       default (Sale.subTotal sale) (SalePatch.subTotal saleData);
     Sale.discountAmount :=
       default (Sale.discountAmount sale) (SalePatch.discountAmount saleData);
     Sale.totalAmount :=
       default (Sale.totalAmount sale) (SalePatch.totalAmount saleData);
     Sale.paymentMethod :=
       default (Sale.paymentMethod sale) (SalePatch.paymentMethod saleData);
     Sale.paymentStatus :=
       default (Sale.paymentStatus sale) (SalePatch.paymentStatus saleData);
     Sale.notes := default (Sale.notes sale) (SalePatch.notes saleData);
     Sale.createdBy :=
       default (Sale.createdBy sale) (SalePatch.createdBy saleData);
     Sale.createdAt :=
       default (Sale.createdAt sale) (SalePatch.createdAt saleData);
     Sale.updatedAt := updatedAt |}.

Definition updateSale (st : t) (id : Z) (saleData : SalePatch.t)
    (now : Date) : t * option Sale.t :=
  match salesMap st !! id with
  | None => (st, None)
  | Some sale =>
      let updatedSale := Sale_merge sale saleData now in
      let st1 := with_salesMap st (<[id := updatedSale]> (salesMap st)) in
      (* Update customer balance *)
      let '(st2, _) := updateCustomerBalance st1 (Sale.customerId sale) now in
      (st2, Some updatedSale)
  end.

Definition getSaleItems (st : t) (saleId : Z) : list SaleItem.t :=
  default [] (saleItemsMap st !! saleId).

Definition addSaleItem (st : t) (insertSaleItem : InsertSaleItem.t)
    (now : Date) : t * SaleItem.t :=
  let id := saleItemIdCounter st in
  let saleItem :=
    {| SaleItem.id := id;
       SaleItem.saleId := InsertSaleItem.saleId insertSaleItem;
       SaleItem.productId := InsertSaleItem.productId insertSaleItem;
       SaleItem.quantity := InsertSaleItem.quantity insertSaleItem;
       SaleItem.unitPrice := InsertSaleItem.unitPrice insertSaleItem;
       SaleItem.totalPrice := InsertSaleItem.totalPrice insertSaleItem |} in
  let saleItems :=
    default [] (saleItemsMap st !! SaleItem.saleId saleItem) in
  let saleItems := saleItems ++ [saleItem] in
  (* Update product stock *)
  let productsMap' :=
    match productsMap st !! SaleItem.productId saleItem with
    | Some product =>
        let updatedProduct :=
          Product_with_stock product
            (Product.stock product - SaleItem.quantity saleItem) now in
        <[Product.id product := updatedProduct]> (productsMap st)
    | None => productsMap st
    end in
  ({| customersMap := customersMap st;
      productsMap := productsMap';
      salesMap := salesMap st;
      saleItemsMap :=
        <[SaleItem.saleId saleItem := saleItems]> (saleItemsMap st);
      returnsMap := returnsMap st;
      returnItemsMap := returnItemsMap st; paymentsMap := paymentsMap st;
      customerBalancesMap := customerBalancesMap st;
      customerIdCounter := customerIdCounter st;
      productIdCounter := productIdCounter st;
      saleIdCounter := saleIdCounter st;
      saleItemIdCounter := id + 1;
      returnIdCounter := returnIdCounter st;
      returnItemIdCounter := returnItemIdCounter st;
      paymentIdCounter := paymentIdCounter st |}, saleItem).

(** *** Returns *)

Definition createReturn (st : t) (insertReturn : InsertReturn.t)
    (now : Date) : t * Return.t :=
  let id := returnIdCounter st in
  (* Generate return number *)
  let returnNumber := documentNumber "RET" now id in
  let returnItem :=
    {| Return.id := id;
       Return.returnNumber := returnNumber;
       Return.saleId := InsertReturn.saleId insertReturn;
       Return.customerId := InsertReturn.customerId insertReturn;
       Return.date := InsertReturn.date insertReturn;
       Return.totalAmount := InsertReturn.totalAmount insertReturn;
       Return.reason := InsertReturn.reason insertReturn;
       Return.createdBy := InsertReturn.createdBy insertReturn;
       Return.createdAt := now;
       Return.updatedAt := now |} in
  let st1 :=
    {| customersMap := customersMap st;
       productsMap := productsMap st;
       salesMap := salesMap st;
       saleItemsMap := saleItemsMap st;
       returnsMap := <[id := returnItem]> (returnsMap st);
       returnItemsMap := <[id := []]> (returnItemsMap st);
       paymentsMap := paymentsMap st;
       customerBalancesMap := customerBalancesMap st;
       customerIdCounter := customerIdCounter st;
       productIdCounter := productIdCounter st;
       saleIdCounter := saleIdCounter st;
       saleItemIdCounter := saleItemIdCounter st;
       returnIdCounter := id + 1;
       returnItemIdCounter := returnItemIdCounter st;
       paymentIdCounter := paymentIdCounter st |} in
  (* Update customer balance *)
  let '(st2, _) :=
    updateCustomerBalance st1 (Return.customerId returnItem) now in
  (st2, returnItem).

Definition getReturnItems (st : t) (returnId : Z) : list ReturnItem.t :=
  default [] (returnItemsMap st !! returnId).

Definition addReturnItem (st : t) (insertReturnItem : InsertReturnItem.t)
    (now : Date) : t * ReturnItem.t :=
  let id := returnItemIdCounter st in
  let returnItem :=
    {| ReturnItem.id := id;
       ReturnItem.returnId := InsertReturnItem.returnId insertReturnItem;
       ReturnItem.productId := InsertReturnItem.productId insertReturnItem;
       ReturnItem.quantity := InsertReturnItem.quantity insertReturnItem;
       ReturnItem.unitPrice := InsertReturnItem.unitPrice insertReturnItem;
       ReturnItem.totalPrice :=
         InsertReturnItem.totalPrice insertReturnItem |} in
  let returnItems :=
    default [] (returnItemsMap st !! ReturnItem.returnId returnItem) in
  let returnItems := returnItems ++ [returnItem] in
  (* Update product stock *)
  let productsMap' :=
    match productsMap st !! ReturnItem.productId returnItem with
    | Some product =>
        let updatedProduct :=
          Product_with_stock product
            (Product.stock product + ReturnItem.quantity returnItem) now in
        <[Product.id product := updatedProduct]> (productsMap st)
    | None => productsMap st
    end in
  ({| customersMap := customersMap st;
      productsMap := productsMap';
      salesMap := salesMap st;
      saleItemsMap := saleItemsMap st;
      returnsMap := returnsMap st;
      returnItemsMap :=
        <[ReturnItem.returnId returnItem := returnItems]>
          (returnItemsMap st);
      paymentsMap := paymentsMap st;
      customerBalancesMap := customerBalancesMap st;
      customerIdCounter := customerIdCounter st;
      productIdCounter := productIdCounter st;
      saleIdCounter := saleIdCounter st;
      saleItemIdCounter := saleItemIdCounter st;
      returnIdCounter := returnIdCounter st;
      returnItemIdCounter := id + 1;
      paymentIdCounter := paymentIdCounter st |}, returnItem).

(** *** Payment creation *)

(** [{ ...sale, paymentStatus, updatedAt }] *)
Definition Sale_with_paymentStatus (sale : Sale.t)
    (paymentStatus : InvoiceStatus) (updatedAt : Date) : Sale.t :=
  {| Sale.id := Sale.id sale;
     Sale.invoiceNumber := Sale.invoiceNumber sale;
     Sale.customerId := Sale.customerId sale;
     Sale.date := Sale.date sale;
     Sale.subTotal := Sale.subTotal sale;
     Sale.discountAmount := Sale.discountAmount sale;
     Sale.totalAmount := Sale.totalAmount sale;
     Sale.paymentMethod := Sale.paymentMethod sale;
     Sale.paymentStatus := paymentStatus;
     Sale.notes := Sale.notes sale;
     Sale.createdBy := Sale.createdBy sale;
     Sale.createdAt := Sale.createdAt sale;
     Sale.updatedAt := updatedAt |}.

Definition createPayment (st : t) (insertPayment : InsertPayment.t)
    (now : Date) : t * Payment.t :=
  let id := paymentIdCounter st in
  let payment :=
    {| Payment.id := id;
       Payment.saleId := InsertPayment.saleId insertPayment;
       Payment.amount := InsertPayment.amount insertPayment;
       Payment.paymentMethod := InsertPayment.paymentMethod insertPayment;
       Payment.date := InsertPayment.date insertPayment;
       Payment.reference := InsertPayment.reference insertPayment;
       Payment.createdBy := InsertPayment.createdBy insertPayment;
       Payment.createdAt := now |} in
  let st1 :=
    {| customersMap := customersMap st;
       productsMap := productsMap st;
       salesMap := salesMap st;
       saleItemsMap := saleItemsMap st;
       returnsMap := returnsMap st;
       returnItemsMap := returnItemsMap st;
       paymentsMap := <[id := payment]> (paymentsMap st);
       customerBalancesMap := customerBalancesMap st;
       customerIdCounter := customerIdCounter st;
       productIdCounter := productIdCounter st;
       saleIdCounter := saleIdCounter st;
       saleItemIdCounter := saleItemIdCounter st;
       returnIdCounter := returnIdCounter st;
       returnItemIdCounter := returnItemIdCounter st;
       paymentIdCounter := id + 1 |} in
  (* Update sale payment status *)
  match salesMap st1 !! Payment.saleId payment with
  | Some sale =>
      let payments := getPaymentsBySale st1 (Payment.saleId payment) in
      let totalPaid :=
        foldl (λ sum p, sum + Payment.amount p)%float 0%float payments in
      let paymentStatus :=
        if (Sale.totalAmount sale <=? totalPaid)%float then paid
        else if (0 <? totalPaid)%float then partially_paid
        else pending in
      let updatedSale := Sale_with_paymentStatus sale paymentStatus now in
      let st2 :=
        with_salesMap st1 (<[Sale.id sale := updatedSale]> (salesMap st1)) in
      (* Update customer balance *)
      let '(st3, _) :=
        updateCustomerBalance st2 (Sale.customerId sale) now in
      (st3, payment)
  | None => (st1, payment)
  end.

(** *** The remaining operations of the class *)

(** [Partial<Omit<Customer, 'id'>>]: the fields that are present. *)
Module CustomerPatch.
Record t := mk {
  name : option string; phone : option string; address : option string;
  classification : option CustomerClassification;
  discountPercentage : option number;
  createdAt : option Date; updatedAt : option Date }.
End CustomerPatch.

(** [Partial<Omit<Product, 'id'>>]: the fields that are present. *)
Module ProductPatch.
Record t := mk {
  name : option string; category : option ProductCategory;
  colorOrBatch : option string; price : option number; stock : option Z;
  createdAt : option Date; updatedAt : option Date }.
End ProductPatch.

(** The object that [getDashboardStats] returns. *)
Module DashboardStats.
Record t := mk {
  totalSales : number; totalCustomers : nat; totalProducts : nat;
  totalReturns : nat }.
End DashboardStats.

(** [this.customersMap = m] (the other fields are kept). *)
Definition with_customersMap (st : t) (m : gmap Z Customer.t) : t :=
  {| customersMap := m;
     productsMap := productsMap st; salesMap := salesMap st;
     saleItemsMap := saleItemsMap st; returnsMap := returnsMap st;
     returnItemsMap := returnItemsMap st; paymentsMap := paymentsMap st;
     customerBalancesMap := customerBalancesMap st;
     customerIdCounter := customerIdCounter st;
     productIdCounter := productIdCounter st;
     saleIdCounter := saleIdCounter st;
     saleItemIdCounter := saleItemIdCounter st;
     returnIdCounter := returnIdCounter st;
     returnItemIdCounter := returnItemIdCounter st;
     paymentIdCounter := paymentIdCounter st |}.

Definition getAllCustomers (st : t) : list Customer.t :=
  values (customersMap st).

Definition getCustomer (st : t) (id : Z) : option Customer.t :=
  customersMap st !! id.

(** [{ ...customer, ...customerData, updatedAt: new Date() }] *)
Definition Customer_merge (customer : Customer.t)
    (customerData : CustomerPatch.t) (updatedAt : Date) : Customer.t :=
  {| Customer.id := Customer.id customer;
     Customer.name :=
       default (Customer.name customer) (CustomerPatch.name customerData);
     Customer.phone :=
       default (Customer.phone customer) (CustomerPatch.phone customerData);
     Customer.address :=
       default (Customer.address customer)
               (CustomerPatch.address customerData);
     Customer.classification :=
       default (Customer.classification customer)
               (CustomerPatch.classification customerData);
     Customer.discountPercentage :=
       default (Customer.discountPercentage customer)
               (CustomerPatch.discountPercentage customerData);
     Customer.createdAt :=
       default (Customer.createdAt customer)
               (CustomerPatch.createdAt customerData);
     Customer.updatedAt := updatedAt |}.

Definition updateCustomer (st : t) (id : Z) (customerData : CustomerPatch.t)
    (now : Date) : t * option Customer.t :=
  match customersMap st !! id with
  | None => (st, None)
  | Some customer =>
      let updatedCustomer := Customer_merge customer customerData now in
      (with_customersMap st (<[id := updatedCustomer]> (customersMap st)),
       Some updatedCustomer)
  end.

Definition getAllProducts (st : t) : list Product.t :=
  values (productsMap st).

Definition getProduct (st : t) (id : Z) : option Product.t :=
  productsMap st !! id.

(** [{ ...product, ...productData, updatedAt: new Date() }] *)
Definition Product_merge (product : Product.t) (productData : ProductPatch.t)
    (updatedAt : Date) : Product.t :=
  {| Product.id := Product.id product;
     Product.name :=
       default (Product.name product) (ProductPatch.name productData);
     Product.category :=
       default (Product.category product) (ProductPatch.category productData);
     Product.colorOrBatch :=
       default (Product.colorOrBatch product)
               (ProductPatch.colorOrBatch productData);
     Product.price :=
       default (Product.price product) (ProductPatch.price productData);
     Product.stock :=
       default (Product.stock product) (ProductPatch.stock productData);
     Product.createdAt :=
       default (Product.createdAt product)
               (ProductPatch.createdAt productData);
     Product.updatedAt := updatedAt |}.

Definition updateProduct (st : t) (id : Z) (productData : ProductPatch.t)
    (now : Date) : t * option Product.t :=
  match productsMap st !! id with
  | None => (st, None)
  | Some product =>
      let updatedProduct := Product_merge product productData now in
      (with_productsMap st (<[id := updatedProduct]> (productsMap st)),
       Some updatedProduct)
  end.

Definition getAllSales (st : t) : list Sale.t := values (salesMap st).

Definition getSale (st : t) (id : Z) : option Sale.t := salesMap st !! id.

Definition getAllReturns (st : t) : list Return.t := values (returnsMap st).

Definition getReturn (st : t) (id : Z) : option Return.t :=
  returnsMap st !! id.

Definition getAllPayments (st : t) : list Payment.t :=
  values (paymentsMap st).

Definition getPayment (st : t) (id : Z) : option Payment.t :=
  paymentsMap st !! id.

Definition getDashboardStats (st : t) : DashboardStats.t :=
  (* Calculate total sales amount *)
  let totalSales :=
    foldl (λ sum sale, sum + Sale.totalAmount sale)%float 0%float
          (values (salesMap st)) in
  {| DashboardStats.totalSales := totalSales;
     DashboardStats.totalCustomers := size (customersMap st);
     DashboardStats.totalProducts := size (productsMap st);
     DashboardStats.totalReturns := size (returnsMap st) |}.

End MemStorage.

(** ** The document-database client ([firebase.ts])

    A document is stored under its identifier; the records below are the
    document data (the [id] of the TypeScript interfaces is the key of the
    document, and the optional [customer], [product] and [items] fields are
    joined at read time and never stored).  Identifiers are taken to be valid
    path segments, so building a document reference does not throw. *)

Module Firebase.

Module Customer.
Record t := mk {
  name : string; phone : string; address : string;
  classification : CustomerClassification; discountPercentage : number;
  createdAt : Date; updatedAt : Date }.
End Customer.

Module Product.
Record t := mk {
  name : string; category : ProductCategory; colorOrBatch : string;
  price : number; stock : Z; createdAt : Date; updatedAt : Date }.
End Product.

(** [Omit<Customer, 'id' | 'createdAt' | 'updatedAt'>] *)
Module CustomerData.
Record t := mk {
  name : string; phone : string; address : string;
  classification : CustomerClassification; discountPercentage : number }.
End CustomerData.

(** [Omit<Product, 'id' | 'createdAt' | 'updatedAt'>] *)
Module ProductData.
Record t := mk {
  name : string; category : ProductCategory; colorOrBatch : string;
  price : number; stock : Z }.
End ProductData.

(** [Partial<Omit<Product, 'id' | 'createdAt'>>] *)
Module ProductPatch.
Record t := mk {
  name : option string; category : option ProductCategory;
  colorOrBatch : option string; price : option number; stock : option Z;
  updatedAt : option Date }.
End ProductPatch.

(** [Omit<SaleItem, 'id'>] *)
Module SaleItem.
Record t := mk {
  productId : string; quantity : Z; unitPrice : number; totalPrice : number }.
End SaleItem.

(** [Omit<Sale, 'id' | 'items' | 'createdAt' | 'updatedAt'>] *)
Module SaleData.
Record t := mk {
  invoiceNumber : string; customerId : string; date : Date; subTotal : number;
  discountAmount : number; totalAmount : number; paymentMethod : PaymentMethod;
  paymentStatus : InvoiceStatus; notes : string; createdBy : string }.
End SaleData.

Module Sale.
Record t := mk {
  invoiceNumber : string; customerId : string; date : Date; subTotal : number;
  discountAmount : number; totalAmount : number; paymentMethod : PaymentMethod;
  paymentStatus : InvoiceStatus; notes : string; createdBy : string;
  createdAt : Date; updatedAt : Date }.
End Sale.

(** [Partial<Omit<Sale, 'id' | 'items' | 'createdAt'>>] *)
Module SalePatch.
Record t := mk {
  invoiceNumber : option string; customerId : option string;
  date : option Date; subTotal : option number; discountAmount : option number;
  totalAmount : option number; paymentMethod : option PaymentMethod;
  paymentStatus : option InvoiceStatus; notes : option string;
  createdBy : option string; updatedAt : option Date }.
End SalePatch.

(** [Omit<ReturnItem, 'id'>] *)
Module ReturnItem.
Record t := mk {
  productId : string; quantity : Z; unitPrice : number; totalPrice : number }.
End ReturnItem.

(** [Omit<Return, 'id' | 'items' | 'createdAt' | 'updatedAt'>] *)
Module ReturnData.
Record t := mk {
  returnNumber : string; saleId : string; customerId : string;
  date : Date; totalAmount : number; reason : string; createdBy : string }.
End ReturnData.

Module Return.
Record t := mk {
  returnNumber : string; saleId : string; customerId : string;
  date : Date; totalAmount : number; reason : string; createdBy : string;
  createdAt : Date; updatedAt : Date }.
End Return.

(** [Omit<Payment, 'id' | 'createdAt'>] *)
Module PaymentData.
Record t := mk {
  saleId : string; amount : number; paymentMethod : PaymentMethod;
  date : Date; reference : string; createdBy : string }.
End PaymentData.

Module Payment.
Record t := mk {
  saleId : string; amount : number; paymentMethod : PaymentMethod;
  date : Date; reference : string; createdBy : string;
  createdAt : Date }.
End Payment.

Module CustomerBalance.
Record t := mk {
  customerId : string; totalSales : number; totalPayments : number;
  totalReturns : number; balance : number; updatedAt : Date }.
End CustomerBalance.

(** The database [db]: the top-level collections, and the [items]
    sub-collections of [sales] and [returns] keyed by the identifier of
    their parent document. *)
Record t := mk {
  customers : gmap string Customer.t;
  products : gmap string Product.t;
  sales : gmap string Sale.t;
  saleItems : gmap string (gmap string SaleItem.t);
  returns : gmap string Return.t;
  returnItems : gmap string (gmap string ReturnItem.t);
  payments : gmap string Payment.t;
  customerBalances : gmap string CustomerBalance.t }.

(** *** Firestore primitives *)

Definition getDoc {A} (c : gmap string A) (id : string) : option A :=
  c !! id.

(** [getDocs(collection)]: the documents of the snapshot with their
    identifiers, in the order of the identifiers (the order of a query
    that names no other). *)
Definition getDocs {A} (c : gmap string A) : list (string * A) :=
  in_key_order String.le c.

Definition setDoc {A} (c : gmap string A) (id : string) (data : A)
    : gmap string A :=
  <[id := data]> c.

(** [addDoc(collection, data)], [id] being the generated identifier. *)
Definition addDoc {A} (c : gmap string A) (id : string) (data : A)
    : gmap string A :=
  <[id := data]> c.

(** [updateDoc(ref, fields)] rewrites the given fields of an existing
    document and rejects when there is no such document. *)
Definition updateDoc {A} (c : gmap string A) (id : string) (fields : A → A)
    : option (gmap string A) :=
  match c !! id with
  | Some data => Some (<[id := fields data]> c)
  | None => None
  end.

Definition deleteDoc {A} (c : gmap string A) (id : string) : gmap string A :=
  delete id c.

(** [for (const x of xs) { await body(x) }] with a body that may reject. *)
Fixpoint forEach {S A} (body : S → A → option S) (s : S) (xs : list A)
    : option S :=
  match xs with
  | [] => Some s
  | x :: xs' => s' ← body s x; forEach body s' xs'
  end.

(** *** Collection updates *)

Definition with_customers (db : t) (c : gmap string Customer.t) : t :=
  {| customers := c; products := products db; sales := sales db;
     saleItems := saleItems db; returns := returns db;
     returnItems := returnItems db; payments := payments db;
     customerBalances := customerBalances db |}.

Definition with_products (db : t) (c : gmap string Product.t) : t :=
  {| customers := customers db; products := c; sales := sales db;
     saleItems := saleItems db; returns := returns db;
     returnItems := returnItems db; payments := payments db;
     customerBalances := customerBalances db |}.

Definition with_sales (db : t) (c : gmap string Sale.t) : t :=
  {| customers := customers db; products := products db; sales := c;
     saleItems := saleItems db; returns := returns db;
     returnItems := returnItems db; payments := payments db;
     customerBalances := customerBalances db |}.

Definition with_saleItems (db : t) (c : gmap string (gmap string SaleItem.t))
    : t :=
  {| customers := customers db; products := products db; sales := sales db;
     saleItems := c; returns := returns db;
     returnItems := returnItems db; payments := payments db;
     customerBalances := customerBalances db |}.

Definition with_returns (db : t) (c : gmap string Return.t) : t :=
  {| customers := customers db; products := products db; sales := sales db;
     saleItems := saleItems db; returns := c;
     returnItems := returnItems db; payments := payments db;
     customerBalances := customerBalances db |}.

Definition with_returnItems (db : t)
    (c : gmap string (gmap string ReturnItem.t)) : t :=
  {| customers := customers db; products := products db; sales := sales db;
     saleItems := saleItems db; returns := returns db;
     returnItems := c; payments := payments db;
     customerBalances := customerBalances db |}.

Definition with_payments (db : t) (c : gmap string Payment.t) : t :=
  {| customers := customers db; products := products db; sales := sales db;
     saleItems := saleItems db; returns := returns db;
     returnItems := returnItems db; payments := c;
     customerBalances := customerBalances db |}.

Definition with_customerBalances (db : t)
    (c : gmap string CustomerBalance.t) : t :=
  {| customers := customers db; products := products db; sales := sales db;
     saleItems := saleItems db; returns := returns db;
     returnItems := returnItems db; payments := payments db;
     customerBalances := c |}.

(** [collection(db, "sales", id, "items")] *)
Definition saleItemsOf (db : t) (id : string) : gmap string SaleItem.t :=
  default ∅ (saleItems db !! id).

(** [collection(db, "returns", id, "items")] *)
Definition returnItemsOf (db : t) (id : string)
    : gmap string ReturnItem.t :=
  default ∅ (returnItems db !! id).

(** *** Customers and products *)

Definition getCustomer (db : t) (id : string) : option Customer.t :=
  getDoc (customers db) id.

Definition createCustomer (db : t) (newId : string) (data : CustomerData.t)
    (now : Date) : t * string :=
  let customerData :=
    {| Customer.name := CustomerData.name data;
       Customer.phone := CustomerData.phone data;
       Customer.address := CustomerData.address data;
       Customer.classification := CustomerData.classification data;
       Customer.discountPercentage := CustomerData.discountPercentage data;
       Customer.createdAt := now;
       Customer.updatedAt := now |} in
  (with_customers db (addDoc (customers db) newId customerData), newId).

(** [deleteCustomer] resolves to nothing ([Promise<void>]). *)
Definition deleteCustomer (db : t) (id : string) : t * unit :=
  (with_customers db (deleteDoc (customers db) id), tt).

Definition getProduct (db : t) (id : string) : option Product.t :=
  getDoc (products db) id.

Definition createProduct (db : t) (newId : string) (data : ProductData.t)
    (now : Date) : t * string :=
  let productData :=
    {| Product.name := ProductData.name data;
       Product.category := ProductData.category data;
       Product.colorOrBatch := ProductData.colorOrBatch data;
       Product.price := ProductData.price data;
       Product.stock := ProductData.stock data;
       Product.createdAt := now;
       Product.updatedAt := now |} in
  (with_products db (addDoc (products db) newId productData), newId).

(** The fields written by [updateDoc(docRef, { ...data, updatedAt })]. *)
Definition Product_merge (data : ProductPatch.t) (updatedAt : Date)
    (product : Product.t) : Product.t :=
  {| Product.name := default (Product.name product) (ProductPatch.name data);
     Product.category :=
       default (Product.category product) (ProductPatch.category data);
     Product.colorOrBatch :=
       default (Product.colorOrBatch product)
               (ProductPatch.colorOrBatch data);
     Product.price :=
       default (Product.price product) (ProductPatch.price data);
     Product.stock :=
       default (Product.stock product) (ProductPatch.stock data);
     Product.createdAt := Product.createdAt product;
     Product.updatedAt := updatedAt |}.

Definition updateProduct (db : t) (id : string) (data : ProductPatch.t)
    (now : Date) : option t :=
  products' ← updateDoc (products db) id (Product_merge data now);
  Some (with_products db products').

(** [deleteProduct] resolves to nothing ([Promise<void>]). *)
Definition deleteProduct (db : t) (id : string) : t * unit :=
  (with_products db (deleteDoc (products db) id), tt).

(** The object literal [{ stock }]. *)
Definition stock_only (stock : Z) : ProductPatch.t :=
  {| ProductPatch.name := None; ProductPatch.category := None;
     ProductPatch.colorOrBatch := None; ProductPatch.price := None;
     ProductPatch.stock := Some stock; ProductPatch.updatedAt := None |}.

(** *** Payments of a sale and customer balances *)

(** [query(paymentsRef, where("saleId", "==", saleId))] *)
Definition getPaymentsBySale (db : t) (saleId : string)
    : list (string * Payment.t) :=
  filter (λ doc, Payment.saleId doc.2 = saleId) (getDocs (payments db)).

Definition getCustomerBalance (db : t) (customerId : string)
    : option CustomerBalance.t :=
  getDoc (customerBalances db) customerId.

Definition updateCustomerBalance (db : t) (customerId : string)
    (now : Date) : option t :=
  (* Calculate total sales *)
  let salesSnapshot :=
    filter (λ doc, Sale.customerId doc.2 = customerId)
           (getDocs (sales db)) in
  let totalSales :=
    foldl (λ sum doc, sum + Js.or_zero (Sale.totalAmount doc.2))%float
          0%float salesSnapshot in
  (* Calculate total returns *)
  let returnsSnapshot :=
    filter (λ doc, Return.customerId doc.2 = customerId)
           (getDocs (returns db)) in
  let totalReturns :=
    foldl (λ sum doc, sum + Js.or_zero (Return.totalAmount doc.2))%float
          0%float returnsSnapshot in
  (* Calculate total payments *)
  let totalPayments :=
    foldl (λ totalPayments saleDoc,
             let paymentsForSale := getPaymentsBySale db saleDoc.1 in
             totalPayments
             + foldl (λ sum payment, sum + Payment.amount payment.2) 0
                     paymentsForSale)%float
          0%float salesSnapshot in
  (* Calculate balance *)
  let balance := (totalSales - totalPayments - totalReturns)%float in
  (* Update or create the balance document *)
  match getDoc (customerBalances db) customerId with
  | Some _ =>
      balances' ← updateDoc (customerBalances db) customerId
        (λ old,
           {| CustomerBalance.customerId := CustomerBalance.customerId old;
              CustomerBalance.totalSales := totalSales;
              CustomerBalance.totalPayments := totalPayments;
              CustomerBalance.totalReturns := totalReturns;
              CustomerBalance.balance := balance;
              CustomerBalance.updatedAt := now |});
      Some (with_customerBalances db balances')
  | None =>
      Some (with_customerBalances db
              (setDoc (customerBalances db) customerId
                 {| CustomerBalance.customerId := customerId;
                    CustomerBalance.totalSales := totalSales;
                    CustomerBalance.totalPayments := totalPayments;
                    CustomerBalance.totalReturns := totalReturns;
                    CustomerBalance.balance := balance;
                    CustomerBalance.updatedAt := now |}))
  end.

(** *** Sales *)

(** [getSale]: the document of the sale, or [None] for [null].  The joins
    that fill [customer], [items] and the [product] of every item only read
    the database, and no caller below looks at them. *)
Definition getSale (db : t) (id : string) : option Sale.t :=
  getDoc (sales db) id.

(** The order of [orderBy("createdAt", "desc")]: later documents first,
    documents with equal time stamps by descending identifier. *)
Definition before_desc {A} (createdAt : A → Date) (x y : string * A)
    : bool :=
  let tx := getTime (createdAt x.2) in
  let ty := getTime (createdAt y.2) in
  (ty <? tx) || ((tx =? ty) && String.ltb y.1 x.1).

(** The document that comes first in that order among [docs]. *)
Definition firstDesc {A} (createdAt : A → Date) (docs : list (string * A))
    : option (string * A) :=
  foldr (λ x first,
           match first with
           | Some y => if before_desc createdAt y x then Some y else Some x
           | None => Some x
           end)
        None docs.

(** [query(collection, orderBy("createdAt", "desc"), limit(1))]: the first
    document of that order, if the collection has one. *)
Definition latestDoc {A} (createdAt : A → Date) (c : gmap string A)
    : option (string * A) :=
  firstDesc createdAt (getDocs c).

(** The number parsed out of the last document number ([0] when there is
    no digit to parse). *)
Definition lastNumberOf (lastNumber : string) : Z :=
  match Js.match_digits_at_end lastNumber with
  | Some m => Js.parseInt m
  | None => 0
  end.

(** The [lastNumber] of [createSale]. *)
Definition lastInvoiceNumber (db : t) : Z :=
  match latestDoc Sale.createdAt (sales db) with
  | Some doc => lastNumberOf (Sale.invoiceNumber doc.2)
  | None => 0
  end.

(** One round of [for (const item of items)] in [createSale] and
    [updateSale]: the item is added to the [items] of the sale under
    [itemId], then the stock of its product is lowered. *)
Definition addItemToSale (saleId : string) (now : Date) (db : t)
    (it : string * SaleItem.t) : option t :=
  let '(itemId, item) := it in
  let db1 :=
    with_saleItems db
      (<[saleId := addDoc (saleItemsOf db saleId) itemId item]>
         (saleItems db)) in
  (* Update product stock *)
  match getProduct db1 (SaleItem.productId item) with
  | Some product =>
      updateProduct db1 (SaleItem.productId item)
        (stock_only (Product.stock product - SaleItem.quantity item)) now
  | None => Some db1
  end.

Definition createSale (db : t) (newId : string) (data : SaleData.t)
    (items : list (string * SaleItem.t)) (now : Date)
    : option (t * string) :=
  (* Generate invoice number *)
  let lastNumber := lastInvoiceNumber db in
  let saleData :=
    {| Sale.invoiceNumber := documentNumber "INV" now (lastNumber + 1);
       Sale.customerId := SaleData.customerId data;
       Sale.date := SaleData.date data;
       Sale.subTotal := SaleData.subTotal data;
       Sale.discountAmount := SaleData.discountAmount data;
       Sale.totalAmount := SaleData.totalAmount data;
       Sale.paymentMethod := SaleData.paymentMethod data;
       Sale.paymentStatus := SaleData.paymentStatus data;
       Sale.notes := SaleData.notes data;
       Sale.createdBy := SaleData.createdBy data;
       Sale.createdAt := now;
       Sale.updatedAt := now |} in
  (* Create sale document *)
  let db1 := with_sales db (addDoc (sales db) newId saleData) in
  (* Add items to the sale *)
  db2 ← forEach (addItemToSale newId now) db1 items;
  (* Update customer balance *)
  db3 ← updateCustomerBalance db2 (SaleData.customerId data) now;
  Some (db3, newId).

(** The fields written by [updateDoc(docRef, { ...data, updatedAt })]. *)
Definition Sale_merge (data : SalePatch.t) (updatedAt : Date)
    (sale : Sale.t) : Sale.t :=
  {| Sale.invoiceNumber :=
       default (Sale.invoiceNumber sale) (SalePatch.invoiceNumber data);
     Sale.customerId :=
       default (Sale.customerId sale) (SalePatch.customerId data);
     Sale.date := default (Sale.date sale) (SalePatch.date data);
     Sale.subTotal := default (Sale.subTotal sale) (SalePatch.subTotal data);
     Sale.discountAmount :=
       default (Sale.discountAmount sale) (SalePatch.discountAmount data);
     Sale.totalAmount :=
       default (Sale.totalAmount sale) (SalePatch.totalAmount data);
     Sale.paymentMethod :=
       default (Sale.paymentMethod sale) (SalePatch.paymentMethod data);
     Sale.paymentStatus :=
       default (Sale.paymentStatus sale) (SalePatch.paymentStatus data);
     Sale.notes := default (Sale.notes sale) (SalePatch.notes data);
     Sale.createdBy :=
       default (Sale.createdBy sale) (SalePatch.createdBy data);
     Sale.createdAt := Sale.createdAt sale;
     Sale.updatedAt := updatedAt |}.

(** One round of [for (const doc of itemsSnapshot.docs)] in [updateSale]:
    the quantity of the old item goes back to the stock of its product,
    then the item is deleted. *)
Definition removeItemFromSale (saleId : string) (now : Date) (db : t)
    (doc : string * SaleItem.t) : option t :=
  let item := doc.2 in
  (* Return items to inventory *)
  db1 ← match getProduct db (SaleItem.productId item) with
        | Some product =>
            updateProduct db (SaleItem.productId item)
              (stock_only (Product.stock product + SaleItem.quantity item))
              now
        | None => Some db
        end;
  Some (with_saleItems db1
          (<[saleId := deleteDoc (saleItemsOf db1 saleId) doc.1]>
             (saleItems db1))).

(** The block [if (items) { ... }] of [updateSale], for a list [items]. *)
Definition replaceItems (db : t) (id : string)
    (items : list (string * SaleItem.t)) (now : Date) : option t :=
  (* Get existing items to adjust inventory *)
  match getSale db id with
  | Some _ =>
      (* Remove existing items and add new ones *)
      let itemsSnapshot := getDocs (saleItemsOf db id) in
      (* Delete existing items *)
      db1 ← forEach (removeItemFromSale id now) db itemsSnapshot;
      (* Add new items *)
      forEach (addItemToSale id now) db1 items
  | None => Some db
  end.

Definition updateSale (db : t) (id : string) (data : SalePatch.t)
    (items : option (list (string * SaleItem.t))) (now : Date)
    : option t :=
  sales' ← updateDoc (sales db) id (Sale_merge data now);
  let db1 := with_sales db sales' in
  db2 ← match items with
        | Some items => replaceItems db1 id items now
        | None => Some db1
        end;
  (* Update customer balance *)
  match getSale db2 id with
  | Some sale => updateCustomerBalance db2 (Sale.customerId sale) now
  | None => Some db2
  end.

(** *** Returns *)

(** The [lastNumber] of [createReturn]. *)
Definition lastReturnNumber (db : t) : Z :=
  match latestDoc Return.createdAt (returns db) with
  | Some doc => lastNumberOf (Return.returnNumber doc.2)
  | None => 0
  end.

(** One round of [for (const item of items)] in [createReturn]: the item is
    added to the [items] of the return under [itemId], then the stock of
    its product is raised. *)
Definition addItemToReturn (returnId : string) (now : Date) (db : t)
    (it : string * ReturnItem.t) : option t :=
  let '(itemId, item) := it in
  let db1 :=
    with_returnItems db
      (<[returnId := addDoc (returnItemsOf db returnId) itemId item]>
         (returnItems db)) in
  (* Update product stock *)
  match getProduct db1 (ReturnItem.productId item) with
  | Some product =>
      updateProduct db1 (ReturnItem.productId item)
        (stock_only (Product.stock product + ReturnItem.quantity item)) now
  | None => Some db1
  end.

Definition createReturn (db : t) (newId : string) (data : ReturnData.t)
    (items : list (string * ReturnItem.t)) (now : Date)
    : option (t * string) :=
  (* Generate return number *)
  let lastNumber := lastReturnNumber db in
  let returnData :=
    {| Return.returnNumber := documentNumber "RET" now (lastNumber + 1);
       Return.saleId := ReturnData.saleId data;
       Return.customerId := ReturnData.customerId data;
       Return.date := ReturnData.date data;
       Return.totalAmount := ReturnData.totalAmount data;
       Return.reason := ReturnData.reason data;
       Return.createdBy := ReturnData.createdBy data;
       Return.createdAt := now;
       Return.updatedAt := now |} in
  (* Create return document *)
  let db1 := with_returns db (addDoc (returns db) newId returnData) in
  (* Add items to the return *)
  db2 ← forEach (addItemToReturn newId now) db1 items;
  (* Update customer balance *)
  db3 ← updateCustomerBalance db2 (ReturnData.customerId data) now;
  Some (db3, newId).

(** *** Payment creation *)

(** The object literal [{ paymentStatus }]. *)
Definition paymentStatus_only (paymentStatus : InvoiceStatus)
    : SalePatch.t :=
  {| SalePatch.invoiceNumber := None; SalePatch.customerId := None;
     SalePatch.date := None; SalePatch.subTotal := None;
     SalePatch.discountAmount := None; SalePatch.totalAmount := None;
     SalePatch.paymentMethod := None;
     SalePatch.paymentStatus := Some paymentStatus;
     SalePatch.notes := None; SalePatch.createdBy := None;
     SalePatch.updatedAt := None |}.

(** [createPayment] resolves to the identifier of the new document. *)
Definition createPayment (db : t) (newId : string) (data : PaymentData.t)
    (now : Date) : option (t * string) :=
  let paymentData :=
    {| Payment.saleId := PaymentData.saleId data;
       Payment.amount := PaymentData.amount data;
       Payment.paymentMethod := PaymentData.paymentMethod data;
       Payment.date := PaymentData.date data;
       Payment.reference := PaymentData.reference data;
       Payment.createdBy := PaymentData.createdBy data;
       Payment.createdAt := now |} in
  let db1 := with_payments db (addDoc (payments db) newId paymentData) in
  (* Update sale payment status *)
  match getSale db1 (PaymentData.saleId data) with
  | Some sale =>
      let payments := getPaymentsBySale db1 (PaymentData.saleId data) in
      let totalPaid :=
        foldl (λ sum payment, sum + Payment.amount payment.2)%float 0%float
              payments in
      let paymentStatus :=
        if (Sale.totalAmount sale <=? totalPaid)%float then paid
        else if (0 <? totalPaid)%float then partially_paid
        else pending in
      db2 ← updateSale db1 (PaymentData.saleId data)
              (paymentStatus_only paymentStatus) None now;
      (* Update customer balance *)
      db3 ← updateCustomerBalance db2 (Sale.customerId sale) now;
      Some (db3, newId)
  | None => Some (db1, newId)
  end.

(** *** The remaining reads and writes of the client *)

(** [Partial<Omit<Customer, 'id' | 'createdAt'>>] *)
Module CustomerPatch.
Record t := mk {
  name : option string; phone : option string; address : option string;
  classification : option CustomerClassification;
  discountPercentage : option number; updatedAt : option Date }.
End CustomerPatch.

(** An optional field that a read may join in: left [undefined], [null]
    because the document it refers to does not exist, or the document. *)
Inductive joined (A : Type) :=
| not_joined
| missing
| found (a : A).
Arguments not_joined {A}.
Arguments missing {A}.
Arguments found {A} a.

(** [getX(id)] as the value of an optional field. *)
Definition join {A} (o : option A) : joined A :=
  match o with
  | Some a => found a
  | None => missing
  end.

(** [if (s)] on a string: the empty string is falsy. *)
Definition truthy (s : string) : bool := negb (String.eqb s EmptyString).

(** A [SaleItem] as the reads return it. *)
Module SaleItemView.
Record t := mk {
  id : string; item : SaleItem.t; product : joined Product.t }.
End SaleItemView.

(** A [Sale] as the reads return it. *)
Module SaleView.
Record t := mk {
  id : string; doc : Sale.t; customer : joined Customer.t;
  items : list SaleItemView.t }.
End SaleView.

(** A [ReturnItem] as the reads return it. *)
Module ReturnItemView.
Record t := mk {
  id : string; item : ReturnItem.t; product : joined Product.t }.
End ReturnItemView.

(** A [Return] as the reads return it. *)
Module ReturnView.
Record t := mk {
  id : string; doc : Return.t; customer : joined Customer.t;
  items : list ReturnItemView.t }.
End ReturnView.

(** The object that [getDashboardStats] returns. *)
Module DashboardStats.
Record t := mk {
  totalSales : number; totalCustomers : nat; totalProducts : nat;
  totalReturns : nat }.
End DashboardStats.

Definition getCustomers (db : t) : list (string * Customer.t) :=
  getDocs (customers db).

(** The fields written by [updateDoc(docRef, { ...data, updatedAt })]. *)
Definition Customer_merge (data : CustomerPatch.t) (updatedAt : Date)
    (customer : Customer.t) : Customer.t :=
  {| Customer.name :=
       default (Customer.name customer) (CustomerPatch.name data);
     Customer.phone :=
       default (Customer.phone customer) (CustomerPatch.phone data);
     Customer.address :=
       default (Customer.address customer) (CustomerPatch.address data);
     Customer.classification :=
       default (Customer.classification customer)
               (CustomerPatch.classification data);
     Customer.discountPercentage :=
       default (Customer.discountPercentage customer)
               (CustomerPatch.discountPercentage data);
     Customer.createdAt := Customer.createdAt customer;
     Customer.updatedAt := updatedAt |}.

Definition updateCustomer (db : t) (id : string) (data : CustomerPatch.t)
    (now : Date) : option t :=
  customers' ← updateDoc (customers db) id (Customer_merge data now);
  Some (with_customers db customers').

Definition getProducts (db : t) : list (string * Product.t) :=
  getDocs (products db).

(** [getSales]: every sale with its items; nothing is joined. *)
Definition getSales (db : t) : list SaleView.t :=
  (λ doc : string * Sale.t,
     {| SaleView.id := doc.1;
        SaleView.doc := doc.2;
        SaleView.customer := not_joined;
        SaleView.items :=
          (λ item : string * SaleItem.t,
             {| SaleItemView.id := item.1;
                SaleItemView.item := item.2;
                SaleItemView.product := not_joined |})
            <$> getDocs (saleItemsOf db doc.1) |})
    <$> getDocs (sales db).

(** The whole of [getSale]: the document, its customer and its items with
    their products. *)
Definition getSaleJoined (db : t) (id : string) : option SaleView.t :=
  match getDoc (sales db) id with
  | Some data =>
      (* Get customer *)
      let customer :=
        if truthy (Sale.customerId data)
        then join (getCustomer db (Sale.customerId data))
        else not_joined in
      (* Get items *)
      let items :=
        (λ doc : string * SaleItem.t,
           {| SaleItemView.id := doc.1;
              SaleItemView.item := doc.2;
              (* Get product details *)
              SaleItemView.product :=
                if truthy (SaleItem.productId doc.2)
                then join (getProduct db (SaleItem.productId doc.2))
                else not_joined |})
          <$> getDocs (saleItemsOf db id) in
      Some {| SaleView.id := id; SaleView.doc := data;
              SaleView.customer := customer; SaleView.items := items |}
  | None => None
  end.

(** [getReturns]: every return with its items; nothing is joined. *)
Definition getReturns (db : t) : list ReturnView.t :=
  (λ doc : string * Return.t,
     {| ReturnView.id := doc.1;
        ReturnView.doc := doc.2;
        ReturnView.customer := not_joined;
        ReturnView.items :=
          (λ item : string * ReturnItem.t,
             {| ReturnItemView.id := item.1;
                ReturnItemView.item := item.2;
                ReturnItemView.product := not_joined |})
            <$> getDocs (returnItemsOf db doc.1) |})
    <$> getDocs (returns db).

Definition getReturn (db : t) (id : string) : option ReturnView.t :=
  match getDoc (returns db) id with
  | Some data =>
      (* Get customer *)
      let customer :=
        if truthy (Return.customerId data)
        then join (getCustomer db (Return.customerId data))
        else not_joined in
      (* Get items *)
      let items :=
        (λ doc : string * ReturnItem.t,
           {| ReturnItemView.id := doc.1;
              ReturnItemView.item := doc.2;
              (* Get product details *)
              ReturnItemView.product :=
                if truthy (ReturnItem.productId doc.2)
                then join (getProduct db (ReturnItem.productId doc.2))
                else not_joined |})
          <$> getDocs (returnItemsOf db id) in
      Some {| ReturnView.id := id; ReturnView.doc := data;
              ReturnView.customer := customer; ReturnView.items := items |}
  | None => None
  end.

Definition getPayments (db : t) : list (string * Payment.t) :=
  getDocs (payments db).

Definition getDashboardStats (db : t) : DashboardStats.t :=
  (* Get total sales *)
  let totalSales :=
    foldl (λ sum doc, sum + Js.or_zero (Sale.totalAmount doc.2))%float
          0%float (getDocs (sales db)) in
  {| DashboardStats.totalSales := totalSales;
     (* Get total customers *)
     DashboardStats.totalCustomers := size (customers db);
     (* Get total products *)
     DashboardStats.totalProducts := size (products db);
     (* Get total returns *)
     DashboardStats.totalReturns := size (returns db) |}.

End Firebase.

(** ** Vocabulary of the specification *)

(** The sum of [f] over a list. *)
Definition sumZ {A} (f : A → Z) (l : list A) : Z :=
  foldr (λ x acc, f x + acc) 0 l.

(** The number written at the end of a document number. *)
Definition numericSuffix (documentNumber : string) : Z :=
  Js.parseInt (Js.trailing_digits documentNumber).

(** The strings made of decimal digits only. *)
Fixpoint only_digits (s : string) : bool :=
  match s with
  | EmptyString => true
  | String c r => Js.is_digit c && only_digits r
  end.

(** [INV-YYYYMM-NNNN] read strictly: the year and the month of [now], then a
    suffix of exactly four digits. *)
Definition INV_YYYYMM_NNNN (now : Date) (invoiceNumber : string) : Prop :=
  ∃ nnnn : string,
    invoiceNumber
    = "INV-" +:+ Js.String_ (getFullYear now)
        +:+ Js.padStart (Js.String_ (getMonth now + 1)) 2 "0"%char
        +:+ "-" +:+ nnnn
    ∧ String.length nnnn = 4%nat
    ∧ only_digits nnnn = true.

(** What a caller of a [create*] operation gets back: the stored record, or
    only the identifier under which it was stored. *)
Inductive Returned (R : Type) :=
| the_record (r : R)
| the_identifier (id : string).
Arguments the_record {R} r.
Arguments the_identifier {R} id.

(** Amounts taken exactly: a finite double is a rational number. *)
Module Exact.

Definition value (x : number) : option Q :=
  match Prim2SF x with
  | S754_zero _ => Some 0%Q
  | S754_finite s m e => Some (inject_Z (cond_Zopp s (Zpos m)) * Qpower 2 e)%Q
  | S754_infinity _ | S754_nan => None
  end.

(** The sum of the numbers [f x] over [l], when all of them are finite. *)
Definition sum {A} (f : A → number) (l : list A) : option Q :=
  foldr (λ x acc, q ← value (f x); s ← acc; Some (q + s)%Q) (Some 0%Q) l.


End Exact.


(** The same rule with the comparisons that JavaScript makes on numbers
    ([>=] and [>] on doubles; a comparison with [NaN] is false). *)
Definition status_rule_on_doubles (totalPaid totalAmount : number)
    (status : InvoiceStatus) : Prop :=
  ((totalAmount <=? totalPaid)%float = true → status = paid)
  ∧ ((totalAmount <=? totalPaid)%float = false →
     (0 <? totalPaid)%float = true → status = partially_paid)
  ∧ ((totalAmount <=? totalPaid)%float = false →
     (0 <? totalPaid)%float = false → status = pending)
  ∧ status ≠ overdue
  ∧ status ≠ cancelled.

(** What the caller of an operation typed [Promise<boolean>] or
    [Promise<void>] finds when the promise resolves. *)
Definition resolved_boolean (b : bool) : Js.value := Js.boolean b.
Definition resolved_void (_ : unit) : Js.value := Js.undefined.

(** The contract of [delete] in the specification: the record stored under
    [id] is removed, and the result is the boolean that tells whether there
    was one. *)
Definition delete_contract `{Countable K} {A} (before after : gmap K A)
    (id : K) (result : Js.value) : Prop :=
  after = delete id before
  ∧ result = Js.boolean (bool_decide (is_Some (before !! id))).

(** The result of a [create*] operation is the record that the store now
    holds ([stored] is what the store holds for the new record). *)
Definition returns_stored_record {R} (stored : option R)
    (result : Returned R) : Prop :=
  ∃ r, stored = Some r ∧ result = the_record r.

(** The result of a [create*] operation is the identifier under which the
    store now holds the record [r]. *)
Definition returns_identifier_of {R} (collection : gmap string R) (r : R)
    (result : Returned R) : Prop :=
  ∃ id, result = the_identifier id ∧ collection !! id = Some r.

(** [k] is the key of an entry of [m] that satisfies [P]. *)
Definition selected `{Countable K} {A} (P : A → Prop) (m : gmap K A) (k : K)
    : Prop :=
  from_option P False (m !! k).

#[global] Instance selected_dec `{Countable K} {A} (P : A → Prop)
  `{!∀ a, Decision (P a)} (m : gmap K A) (k : K) : Decision (selected P m k).
Proof. unfold selected. destruct (m !! k); simpl; apply _. Defined.

Module MemLedger.
Import MemStorage.

(** The sales of customer [c] are the sales stored with [customerId = c];
    their totals are added up in the order of the sales. *)
Definition totalSalesOf (st : t) (c : Z) : number :=
  Js.sum Sale.totalAmount
         (filter (λ s, Sale.customerId s = c) (values (salesMap st))).

Definition totalReturnsOf (st : t) (c : Z) : number :=
  Js.sum Return.totalAmount
         (filter (λ r, Return.customerId r = c) (values (returnsMap st))).

(** [saleId] is the key of one of the sales of customer [c]. *)
Definition is_sale_of (st : t) (c : Z) (saleId : Z) : Prop :=
  selected (λ s, Sale.customerId s = c) (salesMap st) saleId.

#[global] Instance is_sale_of_dec st c saleId : Decision (is_sale_of st c saleId).
Proof. unfold is_sale_of. apply _. Defined.

(** The payments made on the sales of customer [c]. *)
Definition paymentsOf (st : t) (c : Z) : list Payment.t :=
  filter (λ p, is_sale_of st c (Payment.saleId p)) (values (paymentsMap st)).

(** The payments on the sale stored under [saleId], and the amount paid so
    far on that sale: their amounts added up in the order of the
    payments. *)
Definition paymentsOn (st : t) (saleId : Z) : list Payment.t :=
  filter (λ p, Payment.saleId p = saleId) (values (paymentsMap st)).

Definition paidOn (st : t) (saleId : Z) : number :=
  Js.sum Payment.amount (paymentsOn st saleId).

(** The amount paid by customer [c]: what was paid on each sale of [c],
    added up in the order of the sales. *)
Definition totalPaymentsOf (st : t) (c : Z) : number :=
  Js.sum (λ entry, paidOn st entry.1)
         (filter (λ entry, Sale.customerId entry.2 = c)
                 (in_key_order Z.le (salesMap st))).

(** The stock of the product stored under [productId]. *)
Definition stockOf (st : t) (productId : Z) : option Z :=
  Product.stock <$> productsMap st !! productId.

(** The representation invariant of the store: a sale and a product carry
    the key they are stored under, the keys in use are below the counters
    that generate them, and the counters start from 1. *)
Record invariant (st : t) : Prop := {
  sale_ids : map_Forall (λ k s, Sale.id s = k) (salesMap st);
  product_ids : map_Forall (λ k p, Product.id p = k) (productsMap st);
  payment_keys : map_Forall (λ k _, k < paymentIdCounter st) (paymentsMap st);
  saleIdCounter_pos : 1 ≤ saleIdCounter st;
  paymentIdCounter_pos : 1 ≤ paymentIdCounter st }.

#[global] Instance invariant_dec st : Decision (invariant st).
Proof.
  refine (cast_if (decide (
    map_Forall (λ k s, Sale.id s = k) (salesMap st)
    ∧ map_Forall (λ k p, Product.id p = k) (productsMap st)
    ∧ map_Forall (λ k (_ : Payment.t), k < paymentIdCounter st)
                 (paymentsMap st)
    ∧ 1 ≤ saleIdCounter st ∧ 1 ≤ paymentIdCounter st))).
  - destruct a as (?&?&?&?&?). by constructor.
  - intros []. tauto.
Defined.

(** Consecutive calls of [createSale], and the sales they return. *)
Fixpoint createSales (st : t) (calls : list (InsertSale.t * Date))
    : t * list Sale.t :=
  match calls with
  | [] => (st, [])
  | (insertSale, now) :: calls' =>
      let '(st1, sale) := createSale st insertSale now in
      let '(st2, sales) := createSales st1 calls' in
      (st2, sale :: sales)
  end.

End MemLedger.

Module FirebaseLedger.
Import Firebase.

(** The totals of the sales of customer [c], added up in the order of the
    documents; a total that is [0] or not a number counts as [0]. *)
Definition totalSalesOf (db : t) (c : string) : number :=
  Js.sum (λ doc, Js.or_zero (Sale.totalAmount doc.2))
         (filter (λ doc, Sale.customerId doc.2 = c) (getDocs (sales db))).

Definition totalReturnsOf (db : t) (c : string) : number :=
  Js.sum (λ doc, Js.or_zero (Return.totalAmount doc.2))
         (filter (λ doc, Return.customerId doc.2 = c)
                 (getDocs (returns db))).

(** [saleId] identifies one of the sales of customer [c]. *)
Definition is_sale_of (db : t) (c : string) (saleId : string) : Prop :=
  selected (λ s, Sale.customerId s = c) (sales db) saleId.

#[global] Instance is_sale_of_dec db c saleId : Decision (is_sale_of db c saleId).
Proof. unfold is_sale_of. apply _. Defined.

(** The payments made on the sales of customer [c]. *)
Definition paymentsOf (db : t) (c : string) : list (string * Payment.t) :=
  filter (λ doc, is_sale_of db c (Payment.saleId doc.2))
         (getDocs (payments db)).

(** The amount paid so far on the sale [saleId]: the amounts of its
    payments added up in the order of the documents. *)
Definition paidOn (db : t) (saleId : string) : number :=
  Js.sum (λ doc, Payment.amount doc.2) (getPaymentsBySale db saleId).

(** The amount paid by customer [c]: what was paid on each sale of [c],
    added up in the order of the sales. *)
Definition totalPaymentsOf (db : t) (c : string) : number :=
  Js.sum (λ doc, paidOn db doc.1)
         (filter (λ doc, Sale.customerId doc.2 = c) (getDocs (sales db))).

(** The stock of the product [productId]. *)
Definition stockOf (db : t) (productId : string) : option Z :=
  Product.stock <$> products db !! productId.

(** The total quantity that the line items [items] carry for [productId]. *)
Definition quantityOf (productId : string)
    (items : list (string * SaleItem.t)) : Z :=
  sumZ (λ it, SaleItem.quantity it.2)
       (filter (λ it, SaleItem.productId it.2 = productId) items).

Definition returnedQuantityOf (productId : string)
    (items : list (string * ReturnItem.t)) : Z :=
  sumZ (λ it, ReturnItem.quantity it.2)
       (filter (λ it, ReturnItem.productId it.2 = productId) items).

(** The stored payment, from the arguments of [createPayment]. *)
Definition paymentOf (data : PaymentData.t) (now : Date) : Payment.t :=
  {| Payment.saleId := PaymentData.saleId data;
     Payment.amount := PaymentData.amount data;
     Payment.paymentMethod := PaymentData.paymentMethod data;
     Payment.date := PaymentData.date data;
     Payment.reference := PaymentData.reference data;
     Payment.createdBy := PaymentData.createdBy data;
     Payment.createdAt := now |}.

(** One call of [createSale]: the generated identifier and the arguments. *)
Record CreateSale := {
  newId : string;
  data : SaleData.t;
  items : list (string * SaleItem.t);
  now : Date }.

(** The time stamp of a call of [createSale] is later than the creation time
    of every sale the database holds. *)
Definition later_than_stored (db : t) (call : CreateSale) : Prop :=
  map_Forall (λ _ doc, getTime (Sale.createdAt doc) < getTime (now call))
             (sales db).

Definition earlier (a b : CreateSale) : Prop :=
  getTime (now a) < getTime (now b).

(** The clock moves forward over a sequence of calls: every call is stamped
    later than the calls before it and than every sale stored before the
    first of them. *)
Definition clock_moves_forward (db : t) (calls : list CreateSale) : Prop :=
  Forall (later_than_stored db) calls ∧ StronglySorted earlier calls.

(** Consecutive calls of [createSale], and the invoice numbers stored by
    them. *)
Fixpoint createSales (db : t) (calls : list CreateSale)
    : option (t * list string) :=
  match calls with
  | [] => Some (db, [])
  | call :: calls' =>
      '(db1, id) ← createSale db (newId call) (data call) (items call)
                                (now call);
      let invoiceNumber :=
        from_option Sale.invoiceNumber EmptyString (sales db1 !! id) in
      '(db2, invoiceNumbers) ← createSales db1 calls';
      Some (db2, invoiceNumber :: invoiceNumbers)
  end.

End FirebaseLedger.

(** ** A small store, used to exercise the statements

    Customer 1 bought three tins of product 1 at 10 each (invoice total 30)
    and has paid 10 so far; seven of the ten tins are left in stock. *)

Module MemExample.
Import MemStorage.

Definition jan15 : Date :=
  {| getTime := 1705312800000; getFullYear := 2024; getMonth := 0 |}.

(** The calls that build the store. *)
Definition history : t :=
  let st := constructor in
  let st :=
    (createCustomer st
       (InsertCustomer.mk "Nile Decor" "0100" "Cairo" individual 0) jan15).1 in
  let st :=
    (createProduct st
       (InsertProduct.mk "Primer" construction "B-17" 10 10) jan15).1 in
  let st :=
    (createSale st
       (InsertSale.mk "" 1 jan15 30 0 30 cash pending "" "u1") jan15).1 in
  let st := (addSaleItem st (InsertSaleItem.mk 1 1 3 10 30) jan15).1 in
  (createPayment st (InsertPayment.mk 1 10 cash jan15 "" "u1") jan15).1.

(** The store they leave. *)
Definition st : t :=
  {| customersMap :=
       {[ 1 := Customer.mk 1 "Nile Decor" "0100" "Cairo" individual 0
                           jan15 jan15 ]};
     productsMap :=
       {[ 1 := Product.mk 1 "Primer" construction "B-17" 10 7 jan15 jan15 ]};
     salesMap :=
       {[ 1 := Sale.mk 1 "INV-202401-0001" 1 jan15 30 0 30 cash
                       partially_paid "" "u1" jan15 jan15 ]};
     saleItemsMap := {[ 1 := [SaleItem.mk 1 1 1 3 10 30] ]};
     returnsMap := ∅;
     returnItemsMap := ∅;
     paymentsMap := {[ 1 := Payment.mk 1 1 10 cash jan15 "" "u1" jan15 ]};
     customerBalancesMap := {[ 1 := CustomerBalance.mk 1 1 30 10 0 20 jan15 ]};
     customerIdCounter := 2; productIdCounter := 2; saleIdCounter := 2;
     saleItemIdCounter := 2; returnIdCounter := 1; returnItemIdCounter := 1;
     paymentIdCounter := 2 |}.

(** A payment of the remaining 20 on sale 1. *)
Definition pay20 : InsertPayment.t :=
  InsertPayment.mk 1 20 cash jan15 "" "u1".

(** A payment on a sale that does not exist. *)
Definition payNowhere : InsertPayment.t :=
  InsertPayment.mk 99 20 cash jan15 "" "u1".

(** Nine tins of product 1 on sale 1: more than the stock holds. *)
Definition nineTins : InsertSaleItem.t := InsertSaleItem.mk 1 1 9 10 90.

(** Two tins of a product that does not exist. *)
Definition unknownTins : InsertSaleItem.t := InsertSaleItem.mk 1 42 2 10 20.

(** Two tins of product 1 come back. *)
Definition twoBack : InsertReturnItem.t := InsertReturnItem.mk 1 1 2 10 20.

Definition aSale : InsertSale.t :=
  InsertSale.mk "" 1 jan15 50 0 50 cash pending "" "u1".

End MemExample.

Module FirebaseExample.
Import Firebase.

Definition jan15 : Date := MemExample.jan15.

Definition jan16 : Date :=
  {| getTime := 1705399200000; getFullYear := 2024; getMonth := 0 |}.

Definition jan17 : Date :=
  {| getTime := 1705485600000; getFullYear := 2024; getMonth := 0 |}.

Definition tins (productId : string) (quantity : Z) : SaleItem.t :=
  SaleItem.mk productId quantity 10 (Js.of_integer quantity * 10).

(** The database before anything was stored. *)
Definition empty : t :=
  {| customers := ∅; products := ∅; sales := ∅; saleItems := ∅;
     returns := ∅; returnItems := ∅; payments := ∅;
     customerBalances := ∅ |}.

(** The calls that build the database, with the identifiers generated for
    the new documents. *)
Definition history : option t :=
  let db := empty in
  let db :=
    (createCustomer db "c1"
       (CustomerData.mk "Nile Decor" "0100" "Cairo" individual 0) jan15).1 in
  let db :=
    (createProduct db "p1"
       (ProductData.mk "Primer" construction "B-17" 10 10) jan15).1 in
  '(db, _) ← createSale db "s1"
               (SaleData.mk "" "c1" jan15 30 0 30 cash pending "" "u1")
               [("i1", tins "p1" 3)] jan15;
  '(db, _) ← createPayment db "y1"
               (PaymentData.mk "s1" 10 cash jan15 "" "u1") jan15;
  Some db.

(** The database they leave. *)
Definition db : t :=
  {| customers :=
       {[ "c1" := Customer.mk "Nile Decor" "0100" "Cairo" individual 0
                              jan15 jan15 ]};
     products :=
       {[ "p1" := Product.mk "Primer" construction "B-17" 10 7 jan15 jan15 ]};
     sales :=
       {[ "s1" := Sale.mk "INV-202401-0001" "c1" jan15 30 0 30 cash
                          partially_paid "" "u1" jan15 jan15 ]};
     saleItems := {[ "s1" := {[ "i1" := tins "p1" 3 ]} ]};
     returns := ∅;
     returnItems := ∅;
     payments :=
       {[ "y1" := Payment.mk "s1" 10 cash jan15 "" "u1" jan15 ]};
     customerBalances :=
       {[ "c1" := CustomerBalance.mk "c1" 30 10 0 20 jan15 ]} |}.

Definition pay20 : PaymentData.t :=
  PaymentData.mk "s1" 20 cash jan15 "" "u1".

Definition payNowhere : PaymentData.t :=
  PaymentData.mk "s9" 20 cash jan15 "" "u1".

Definition aSale : SaleData.t :=
  SaleData.mk "" "c1" jan15 50 0 50 cash pending "" "u1".

(** A call of [createSale] without line items. *)
Definition call (id : string) (t : Date) : FirebaseLedger.CreateSale :=
  {| FirebaseLedger.newId := id; FirebaseLedger.data := aSale;
     FirebaseLedger.items := []; FirebaseLedger.now := t |}.

End FirebaseExample.

(** ** An invoice paid in three instalments

    Customer 1 is invoiced 0.90 and pays 0.20, then 0.50, then 0.20.  The
    amounts are the numbers that JavaScript reads from these decimals
    ([20 / 100] is the double nearest to 0.20, as [parseFloat("0.20")] and
    [Number("0.20")] are). *)

Module MemRounding.
Import MemStorage.

Definition jan15 : Date := MemExample.jan15.

Definition invoice : InsertSale.t :=
  InsertSale.mk "" 1 jan15 (90 / 100) 0 (90 / 100) cash pending "" "u1".

(** A payment of [hundredths / 100] on sale 1. *)
Definition pay (hundredths : number) : InsertPayment.t :=
  InsertPayment.mk 1 (hundredths / 100) cash jan15 "" "u1".

(** The store after the invoice and the first two payments. *)
Definition two_paid : t :=
  let st := constructor in
  let st :=
    (createCustomer st
       (InsertCustomer.mk "Nile Decor" "0100" "Cairo" individual 0) jan15).1 in
  let st := (createSale st invoice jan15).1 in
  let st := (createPayment st (pay 20) jan15).1 in
  (createPayment st (pay 50) jan15).1.

(** The store after the third payment. *)
Definition all_paid : t := (createPayment two_paid (pay 20) jan15).1.

End MemRounding.

Module FirebaseRounding.
Import Firebase.

Definition jan15 : Date := MemExample.jan15.

Definition invoice : SaleData.t :=
  SaleData.mk "" "c1" jan15 (90 / 100) 0 (90 / 100) cash pending "" "u1".

(** A payment of [hundredths / 100] on sale [s1]. *)
Definition pay (hundredths : number) : PaymentData.t :=
  PaymentData.mk "s1" (hundredths / 100) cash jan15 "" "u1".

(** The calls that store the invoice and the first two payments. *)
Definition history : option t :=
  '(db, _) ← createSale FirebaseExample.empty "s1" invoice [] jan15;
  '(db, _) ← createPayment db "y1" (pay 20) jan15;
  '(db, _) ← createPayment db "y2" (pay 50) jan15;
  Some db.

(** The database they leave. *)
Definition two_paid : t :=
  {| customers := ∅; products := ∅;
     sales :=
       {[ "s1" := Sale.mk "INV-202401-0001" "c1" jan15 (90 / 100) 0 (90 / 100)
                          cash partially_paid "" "u1" jan15 jan15 ]};
     saleItems := ∅; returns := ∅; returnItems := ∅;
     payments :=
       {[ "y1" := Payment.mk "s1" (20 / 100) cash jan15 "" "u1" jan15;
          "y2" := Payment.mk "s1" (50 / 100) cash jan15 "" "u1" jan15 ]};
     customerBalances :=
       {[ "c1" := CustomerBalance.mk "c1" (90 / 100) (20 / 100 + 50 / 100) 0
                    (90 / 100 - (20 / 100 + 50 / 100) - 0) jan15 ]} |}.

(** The database after the third payment. *)
Definition all_paid : t :=
  {| customers := ∅; products := ∅;
     sales :=
       {[ "s1" := Sale.mk "INV-202401-0001" "c1" jan15 (90 / 100) 0 (90 / 100)
                          cash partially_paid "" "u1" jan15 jan15 ]};
     saleItems := ∅; returns := ∅; returnItems := ∅;
     payments :=
       {[ "y1" := Payment.mk "s1" (20 / 100) cash jan15 "" "u1" jan15;
          "y2" := Payment.mk "s1" (50 / 100) cash jan15 "" "u1" jan15;
          "y3" := Payment.mk "s1" (20 / 100) cash jan15 "" "u1" jan15 ]};
     customerBalances :=
       {[ "c1" := CustomerBalance.mk "c1" (90 / 100)
                    (20 / 100 + 50 / 100 + 20 / 100) 0
                    (90 / 100 - (20 / 100 + 50 / 100 + 20 / 100) - 0)
                    jan15 ]} |}.

End FirebaseRounding.

(** ** Vocabulary for the remaining operations *)

Module MemReach.
Import MemStorage.

(** The calls a client of the class can make, with their arguments and the
    value of [new Date()] at the call. *)
Inductive Op :=
| CreateCustomer (insertCustomer : InsertCustomer.t) (now : Date)
| UpdateCustomer (id : Z) (customerData : CustomerPatch.t) (now : Date)
| DeleteCustomer (id : Z)
| CreateProduct (insertProduct : InsertProduct.t) (now : Date)
| UpdateProduct (id : Z) (productData : ProductPatch.t) (now : Date)
| DeleteProduct (id : Z)
| CreateSale (insertSale : InsertSale.t) (now : Date)
| UpdateSale (id : Z) (saleData : SalePatch.t) (now : Date)
| AddSaleItem (insertSaleItem : InsertSaleItem.t) (now : Date)
| CreateReturn (insertReturn : InsertReturn.t) (now : Date)
| AddReturnItem (insertReturnItem : InsertReturnItem.t) (now : Date)
| CreatePayment (insertPayment : InsertPayment.t) (now : Date)
| UpdateCustomerBalance (customerId : Z) (now : Date).

(** The store after one call. *)
Definition step (st : t) (op : Op) : t :=
  match op with
  | CreateCustomer ins now => (createCustomer st ins now).1
  | UpdateCustomer id data now => (updateCustomer st id data now).1
  | DeleteCustomer id => (deleteCustomer st id).1
  | CreateProduct ins now => (createProduct st ins now).1
  | UpdateProduct id data now => (updateProduct st id data now).1
  | DeleteProduct id => (deleteProduct st id).1
  | CreateSale ins now => (createSale st ins now).1
  | UpdateSale id data now => (updateSale st id data now).1
  | AddSaleItem ins now => (addSaleItem st ins now).1
  | CreateReturn ins now => (createReturn st ins now).1
  | AddReturnItem ins now => (addReturnItem st ins now).1
  | CreatePayment ins now => (createPayment st ins now).1
  | UpdateCustomerBalance c now => (updateCustomerBalance st c now).1
  end.

(** The store after a sequence of calls on a new instance. *)
Definition run (ops : list Op) : t := foldl step constructor ops.

(** Every record of [m] carries the key it is stored under, and the keys
    are the values the counter has taken so far. *)
Definition keyed {A} (id : A → Z) (counter : Z) (m : gmap Z A) : Prop :=
  map_Forall (λ k a, id a = k ∧ 1 ≤ k < counter) m.

(** The lists of line items: every item is filed under the key of its
    owner, and the item identifiers are values the counter has taken. *)
Definition filed {A} (owner id : A → Z) (counter : Z) (m : gmap Z (list A))
    : Prop :=
  map_Forall (λ k items,
                Forall (λ it, owner it = k ∧ 1 ≤ id it < counter) items) m.

(** The calls of [createReturn] among [ops]. *)
Definition is_CreateReturn (op : Op) : bool :=
  match op with
  | CreateReturn _ _ => true
  | _ => false
  end.

Definition returnsCreated (ops : list Op) : Z :=
  Z.of_nat (List.length (List.filter is_CreateReturn ops)).

Record well_keyed (st : t) : Prop := {
  customers_keyed :
    keyed Customer.id (customerIdCounter st) (customersMap st);
  products_keyed : keyed Product.id (productIdCounter st) (productsMap st);
  sales_keyed : keyed Sale.id (saleIdCounter st) (salesMap st);
  returns_keyed : keyed Return.id (returnIdCounter st) (returnsMap st);
  payments_keyed : keyed Payment.id (paymentIdCounter st) (paymentsMap st);
  saleItems_filed :
    filed SaleItem.saleId SaleItem.id (saleItemIdCounter st) (saleItemsMap st);
  returnItems_filed :
    filed ReturnItem.returnId ReturnItem.id (returnItemIdCounter st)
          (returnItemsMap st);
  balances_keyed :
    map_Forall (λ k b, CustomerBalance.id b = k
                       ∧ CustomerBalance.customerId b = k)
               (customerBalancesMap st);
  sales_have_items :
    map_Forall (λ k _, is_Some (saleItemsMap st !! k)) (salesMap st);
  returns_have_items :
    map_Forall (λ k _, is_Some (returnItemsMap st !! k)) (returnsMap st);
  counters_from_1 :
    1 ≤ customerIdCounter st ∧ 1 ≤ productIdCounter st
    ∧ 1 ≤ saleIdCounter st ∧ 1 ≤ saleItemIdCounter st
    ∧ 1 ≤ returnIdCounter st ∧ 1 ≤ returnItemIdCounter st
    ∧ 1 ≤ paymentIdCounter st }.

End MemReach.

(** The record [a] went under a key that was free: nothing that was stored
    before has been overwritten. *)
Definition stored_under_new_key `{Countable K} {A} (before after : gmap K A)
    (k : K) (a : A) : Prop :=
  before !! k = None ∧ after = <[k := a]> before.

(** ** The page of one sale ([ViewSale], [client/src/pages/sales/view.tsx])

    The page keeps the sale and its payments as it last read them, and
    adds payments through [handleAddPayment]. *)

Module ViewSale.
Import Firebase.

(** The values of the payment form after its schema has parsed them. *)
Record PaymentFormValues := {
  amount : number; paymentMethod : PaymentMethod;
  reference : option string }.

(** The state of the component that the handler reads and writes. *)
Record State := {
  sale : option SaleView.t; payments : list (string * Payment.t) }.

Definition initial : State := {| sale := None; payments := [] |}.

(** The effect that loads the page: [fetchSaleData]. *)
Definition fetchSaleData (db : t) (params_id : string) : State :=
  match getSaleJoined db params_id with
  | Some saleData =>
      {| sale := Some saleData;
         (* Fetch payments related to this sale *)
         payments := getPaymentsBySale db params_id |}
  | None => initial
  end.

Definition totalPaid (s : State) : number :=
  foldl (λ sum payment, sum + Payment.amount payment.2)%float 0%float
        (payments s).

Definition balanceDue (s : State) : number :=
  match sale s with
  | Some sale => (Sale.totalAmount (SaleView.doc sale) - totalPaid s)%float
  | None => 0%float
  end.

(** The descriptions of the two toasts titled "Invalid amount". *)
Inductive InvalidAmount :=
| must_be_greater_than_zero
| cannot_exceed_the_balance_due.

(** How a call of [handleAddPayment] ends: it returns at once because no
    sale is loaded, it refuses the amount, it adds the payment and reloads
    the payments and the sale, or [createPayment] rejects. *)
Inductive Outcome :=
| no_sale
| invalid_amount (description : InvalidAmount)
| payment_added (db' : t) (s' : State)
| failed_to_add_payment.

Definition handleAddPayment (db : t) (params_id : string) (s : State)
    (currentUser : option string) (data : PaymentFormValues)
    (newId : string) (now : Date) : Outcome :=
  match sale s with
  | None => no_sale
  | Some sale_ =>
      if (amount data <=? 0)%float
      then invalid_amount must_be_greater_than_zero
      else if (balanceDue s <? amount data)%float
      then invalid_amount cannot_exceed_the_balance_due
      else
        match createPayment db newId
                {| PaymentData.saleId := SaleView.id sale_;
                   PaymentData.amount := amount data;
                   PaymentData.paymentMethod := paymentMethod data;
                   PaymentData.date := now;
                   PaymentData.reference := default "" (reference data);
                   PaymentData.createdBy := default "" currentUser |} now
        with
        | Some (db', _) =>
            (* Refresh payments *)
            let paymentsData := getPaymentsBySale db' params_id in
            (* Refresh sale data to get updated payment status *)
            let sale' :=
              match getSaleJoined db' params_id with
              | Some saleData => Some saleData
              | None => sale s
              end in
            payment_added db' {| sale := sale'; payments := paymentsData |}
        | None => failed_to_add_payment
        end
  end.

End ViewSale.

(** ** The finances report ([Finances], [unnamed/part_009]) *)

Module JsArray.



End JsArray.

Module Finances.
Import Firebase.

(** The [totalPaid] of [calculateFinancials]. *)
Definition totalPaid (payments : list (string * Payment.t)) : number :=
  foldl (λ sum payment, sum + Payment.amount payment.2)%float 0%float
        payments.

(** The object [methods] of [calculatePaymentMethods]: one number for each
    of its four keys. *)
Record Methods := {
  methods_cash : number; methods_credit_card : number;
  methods_bank_transfer : number; methods_check : number }.

(** [methods[method] += amount]; every payment method is one of the four
    keys, so the test [methods[method] !== undefined] holds. *)
Definition add_to (methods : Methods) (method : PaymentMethod)
    (amount : number) : Methods :=
  match method with
  | cash =>
      {| methods_cash := (methods_cash methods + amount)%float;
         methods_credit_card := methods_credit_card methods;
         methods_bank_transfer := methods_bank_transfer methods;
         methods_check := methods_check methods |}
  | credit_card =>
      {| methods_cash := methods_cash methods;
         methods_credit_card := (methods_credit_card methods + amount)%float;
         methods_bank_transfer := methods_bank_transfer methods;
         methods_check := methods_check methods |}
  | bank_transfer =>
      {| methods_cash := methods_cash methods;
         methods_credit_card := methods_credit_card methods;
         methods_bank_transfer := (methods_bank_transfer methods + amount)%float;
         methods_check := methods_check methods |}
  | check =>
      {| methods_cash := methods_cash methods;
         methods_credit_card := methods_credit_card methods;
         methods_bank_transfer := methods_bank_transfer methods;
         methods_check := (methods_check methods + amount)%float |}
  end.

(** A slice of the pie chart. *)
Record Slice := { name : string; value : number; color : string }.

Definition calculatePaymentMethods (paymentsData : list (string * Payment.t))
    : list Slice :=
  let methods :=
    foldl (λ methods payment,
             add_to methods (Payment.paymentMethod payment.2)
                    (Payment.amount payment.2))
          {| methods_cash := 0; methods_credit_card := 0;
             methods_bank_transfer := 0; methods_check := 0 |}
          paymentsData in
  [ {| name := "Cash"; value := methods_cash methods; color := "#1976d2" |};
    {| name := "Credit Card"; value := methods_credit_card methods;
       color := "#f50057" |};
    {| name := "Bank Transfer"; value := methods_bank_transfer methods;
       color := "#4caf50" |};
    {| name := "Check"; value := methods_check methods;
       color := "#ff9800" |} ].




End Finances.

(** ** Vocabulary for reading back what was created *)

Module FirebaseRead.
Import Firebase.

(** The stored sale, from the arguments of [createSale] and the invoice
    number it generated. *)
Definition saleOf (data : SaleData.t) (invoiceNumber : string) (now : Date)
    : Sale.t :=
  {| Sale.invoiceNumber := invoiceNumber;
     Sale.customerId := SaleData.customerId data;
     Sale.date := SaleData.date data;
     Sale.subTotal := SaleData.subTotal data;
     Sale.discountAmount := SaleData.discountAmount data;
     Sale.totalAmount := SaleData.totalAmount data;
     Sale.paymentMethod := SaleData.paymentMethod data;
     Sale.paymentStatus := SaleData.paymentStatus data;
     Sale.notes := SaleData.notes data;
     Sale.createdBy := SaleData.createdBy data;
     Sale.createdAt := now;
     Sale.updatedAt := now |}.

(** The items of a sale that was read: identifier and stored fields. *)
Definition itemsOf (sale : SaleView.t) : list (string * SaleItem.t) :=
  (λ item, (SaleItemView.id item, SaleItemView.item item))
    <$> SaleView.items sale.

End FirebaseRead.

#[global] Instance PaymentMethod_eq_dec : EqDecision PaymentMethod.
Proof. solve_decision. Defined.

Module FinancesReport.
Import Firebase.

(** The amount received by one payment method: the amounts of its
    payments, added up in the order of the payments. *)
Definition paidBy (method : PaymentMethod)
    (payments : list (string * Payment.t)) : number :=
  Js.sum (λ payment, Payment.amount payment.2)
         (filter (λ payment, Payment.paymentMethod payment.2 = method)
                 payments).


End FinancesReport.

(** * Properties *)

(** ** The example stores are what their histories build *)

Example MemExample_history : MemExample.history = MemExample.st.
Proof. vm_compute. reflexivity. Qed.

Example FirebaseExample_history :
  FirebaseExample.history = Some FirebaseExample.db.
Proof. vm_compute. reflexivity. Qed.

(** Paying the remaining 20 settles the invoice and the balance. *)
Example MemExample_paid_in_full :
  let st' :=
    (MemStorage.createPayment MemExample.st MemExample.pay20
       MemExample.jan15).1 in
  MemStorage.Sale.paymentStatus <$> MemStorage.salesMap st' !! 1 = Some paid
  ∧ MemStorage.getCustomerBalance st' 1
    = Some (MemStorage.CustomerBalance.mk 1 1 30 30 0 0 MemExample.jan15).
Proof. vm_compute. split; reflexivity. Qed.

Example FirebaseExample_paid_in_full :
  ∃ db',
    Firebase.createPayment FirebaseExample.db "y2" FirebaseExample.pay20
      FirebaseExample.jan16 = Some (db', "y2")
    ∧ Firebase.Sale.paymentStatus <$> Firebase.sales db' !! "s1" = Some paid
    ∧ Firebase.getCustomerBalance db' "c1"
      = Some (Firebase.CustomerBalance.mk "c1" 30 30 0 0
                FirebaseExample.jan16).
Proof. eexists. vm_compute. repeat split; reflexivity. Qed.

(** A return of one tin worth 10 raises the stock by one and lowers the
    balance by 10. *)
Example MemExample_return :
  let st1 :=
    (MemStorage.createReturn MemExample.st
       (MemStorage.InsertReturn.mk "" 1 1 MemExample.jan15 10 "" "u1")
       MemExample.jan15).1 in
  let st2 :=
    (MemStorage.addReturnItem st1
       (MemStorage.InsertReturnItem.mk 1 1 1 10 10) MemExample.jan15).1 in
  MemLedger.stockOf st2 1 = Some 8
  ∧ MemStorage.getCustomerBalance st2 1
    = Some (MemStorage.CustomerBalance.mk 1 1 30 10 10 10 MemExample.jan15).
Proof. vm_compute. split; reflexivity. Qed.

Example FirebaseExample_return :
  ∃ db',
    Firebase.createReturn FirebaseExample.db "r1"
      (Firebase.ReturnData.mk "" "s1" "c1" FirebaseExample.jan16 10 "" "u1")
      [("j1", Firebase.ReturnItem.mk "p1" 1 10 10)] FirebaseExample.jan16
    = Some (db', "r1")
    ∧ FirebaseLedger.stockOf db' "p1" = Some 8
    ∧ Firebase.Return.returnNumber <$> Firebase.returns db' !! "r1"
      = Some "RET-202401-0001"
    ∧ Firebase.getCustomerBalance db' "c1"
      = Some (Firebase.CustomerBalance.mk "c1" 30 10 10 10
                FirebaseExample.jan16).
Proof. eexists. vm_compute. repeat split; reflexivity. Qed.

Example FirebaseRounding_history :
  FirebaseRounding.history = Some FirebaseRounding.two_paid.
Proof. vm_compute. reflexivity. Qed.

Example FirebaseRounding_all_paid :
  Firebase.createPayment FirebaseRounding.two_paid "y3"
    (FirebaseRounding.pay 20) FirebaseRounding.jan15
  = Some (FirebaseRounding.all_paid, "y3").
Proof. vm_compute. reflexivity. Qed.

(** ** Sums *)

Section sums.
Context {A : Type}.
Implicit Types (f g : A → Z) (l : list A).

Lemma foldl_add_sumZ f l z :
  foldl (λ sum x, sum + f x) z l = z + sumZ f l.
Proof.
  revert z. induction l as [|x l IH]; intros z; simpl; [lia|].
  rewrite IH. lia.
Qed.

Lemma foldl_sumZ f l : foldl (λ sum x, sum + f x) 0 l = sumZ f l.
Proof. by rewrite foldl_add_sumZ. Qed.

Lemma sumZ_app f l1 l2 : sumZ f (l1 ++ l2) = sumZ f l1 + sumZ f l2.
Proof. induction l1 as [|x l1 IH]; simpl; lia. Qed.

Lemma sumZ_ext f g l : (∀ x, x ∈ l → f x = g x) → sumZ f l = sumZ g l.
Proof.
  induction l as [|x l IH]; intros H; simpl; [done|].
  rewrite (H x) by left. rewrite IH; [done|].
  intros y Hy. apply H. by right.
Qed.

Lemma sumZ_plus f g l : sumZ (λ x, f x + g x) l = sumZ f l + sumZ g l.
Proof. induction l as [|x l IH]; simpl; lia. Qed.

Lemma sumZ_zero l : sumZ (λ _, 0) l = 0.
Proof. induction l as [|x l IH]; simpl; lia. Qed.

Lemma sumZ_perm f l1 l2 : l1 ≡ₚ l2 → sumZ f l1 = sumZ f l2.
Proof. induction 1; simpl; lia. Qed.

Lemma sumZ_filter_cons f (P : A → Prop) `{!∀ x, Decision (P x)} x l :
  sumZ f (filter P (x :: l))
  = (if decide (P x) then f x else 0) + sumZ f (filter P l).
Proof. rewrite filter_cons. destruct (decide (P x)); simpl; lia. Qed.

End sums.

Lemma sumZ_fmap {A B} (h : A → B) (f : B → Z) (l : list A) :
  sumZ f (h <$> l) = sumZ (λ x, f (h x)) l.
Proof. induction l as [|x l IH]; csimpl; [done|]. by rewrite IH. Qed.

(** ** Sums of numbers *)

Lemma Js_sum_snoc {A} (f : A → number) (l : list A) (x : A) :
  Js.sum f (l ++ [x]) = (Js.sum f l + f x)%float.
Proof. unfold Js.sum. by rewrite foldl_app. Qed.

Lemma Js_sum_fmap {A B} (h : A → B) (f : B → number) (l : list A) :
  Js.sum f (h <$> l) = Js.sum (λ x, f (h x)) l.
Proof.
  unfold Js.sum. generalize 0%float.
  induction l as [|x l IH]; intros z; csimpl; [done|]. by rewrite IH.
Qed.

Lemma Js_sum_ext {A} (f g : A → number) (l : list A) :
  (∀ x, x ∈ l → f x = g x) → Js.sum f l = Js.sum g l.
Proof.
  unfold Js.sum. generalize 0%float.
  induction l as [|x l IH]; intros z Hfg; simpl; [done|].
  rewrite (Hfg x) by left. apply IH. intros y Hy. apply Hfg. by right.
Qed.

(** ** Collections in the order of their keys *)

Lemma fmap_id_on {B} (f : B → B) (l : list B) :
  Forall (λ x, f x = x) l → f <$> l = l.
Proof.
  induction 1 as [|x l Hx _ IH]; [done|]. by rewrite fmap_cons, Hx, IH.
Qed.

Section in_key_order.
Context `{Countable K} {A : Type} (le : relation K).
Context `{!RelDecision le, !PartialOrder le, !Total le}.
Implicit Types (m : gmap K A) (l : list (K * A)).

Lemma key_le_trans : Transitive (@key_le K A le).
Proof. intros x y z. unfold key_le. apply transitivity. Qed.

Lemma key_le_total : Total (@key_le K A le).
Proof. intros x y. unfold key_le. apply total, _. Qed.

Lemma in_key_order_perm m : in_key_order le m ≡ₚ map_to_list m.
Proof. apply merge_sort_Permutation. Qed.

Lemma elem_of_in_key_order m k a :
  (k, a) ∈ in_key_order le m ↔ m !! k = Some a.
Proof. by rewrite in_key_order_perm, elem_of_map_to_list. Qed.

Lemma NoDup_fst_in_key_order m : NoDup (in_key_order le m).*1.
Proof. rewrite in_key_order_perm. apply NoDup_fst_map_to_list. Qed.

Lemma in_key_order_sorted m :
  StronglySorted (key_le le) (in_key_order le m).
Proof.
  apply (@StronglySorted_merge_sort _ (key_le le) _ key_le_trans key_le_total).
Qed.

(** There is one way to list the entries of a map by their keys. *)
Lemma in_key_order_unique m l :
  l ≡ₚ map_to_list m →
  StronglySorted (key_le le) l →
  l = in_key_order le m.
Proof.
  intros Hl Hs.
  apply (StronglySorted_unique_strong (key_le le));
    [|done|apply in_key_order_sorted|].
  - intros [k1 a1] [k2 a2] H1 H2 H12 H21.
    assert (k1 = k2) as <- by (by apply (anti_symm le)).
    rewrite Hl in H1. apply elem_of_in_key_order in H2.
    apply elem_of_map_to_list in H1. congruence.
  - by rewrite in_key_order_perm.
Qed.

Lemma in_key_order_empty : in_key_order le (∅ : gmap K A) = [].
Proof.
  symmetry. apply in_key_order_unique; [|constructor].
  by rewrite map_to_list_empty.
Qed.

(** An entry under a key above every key in use comes last. *)
Lemma in_key_order_insert_last m k a :
  (∀ k' a', m !! k' = Some a' → le k' k ∧ k' ≠ k) →
  in_key_order le (<[k := a]> m) = in_key_order le m ++ [(k, a)].
Proof.
  intros Hmax. symmetry. apply in_key_order_unique.
  - assert (m !! k = None) as Hk.
    { destruct (m !! k) as [a'|] eqn:E; [|done].
      by destruct (Hmax k a' E). }
    rewrite (map_to_list_insert m k a Hk), in_key_order_perm.
    by rewrite Permutation_app_comm.
  - apply StronglySorted_app_2;
      [|apply in_key_order_sorted|repeat constructor].
    intros [k1 a1] [k2 a2] H1 ->%list_elem_of_singleton.
    apply elem_of_in_key_order in H1. by apply (Hmax _ _ H1).
Qed.

Lemma rewritten_fst (k : K) (a' : A) (e : K * A) :
  (rewritten k a' e).1 = e.1.
Proof. unfold rewritten. by case_decide. Qed.

(** Rewriting an entry leaves every entry in its place. *)
Lemma in_key_order_rewrite m k a a' :
  m !! k = Some a →
  in_key_order le (<[k := a']> m) = rewritten k a' <$> in_key_order le m.
Proof.
  intros Hk. symmetry. apply in_key_order_unique.
  - rewrite in_key_order_perm.
    rewrite <-(map_to_list_delete m k a Hk).
    rewrite <-(insert_delete_eq m k a').
    rewrite (map_to_list_insert (delete k m) k a') by apply lookup_delete_eq.
    rewrite fmap_cons. unfold rewritten at 1. simpl.
    rewrite decide_True by done. f_equiv.
    rewrite fmap_id_on; [done|].
    apply Forall_forall. intros [k1 a1] H1.
    apply elem_of_map_to_list in H1.
    unfold rewritten. simpl. case_decide as E; [|done].
    subst k1. by rewrite lookup_delete_eq in H1.
  - apply (StronglySorted_fmap _ (key_le le) (key_le le));
      [|apply in_key_order_sorted].
    intros x y. unfold key_le. by rewrite !rewritten_fst.
Qed.

End in_key_order.

(** A key of a map selects an entry once: the keys of a map are distinct. *)
Section by_key.
Context `{Countable K} {A B : Type}.
Context (P : A → Prop) `{!∀ a, Decision (P a)}.

Lemma selected_insert (m : gmap K A) (i k : K) (x : A) :
  selected P (<[i := x]> m) k
  ↔ if decide (k = i) then P x else selected P m k.
Proof.
  unfold selected. destruct (decide (k = i)) as [->|Hne].
  - by rewrite lookup_insert_eq.
  - by rewrite lookup_insert_ne.
Qed.

End by_key.

(** ** The in-process store: the ledger aggregator *)

Module MemFacts.
Import MemStorage MemLedger.

Lemma values_perm {A} (m : gmap Z A) : values m ≡ₚ (map_to_list m).*2.
Proof. unfold values. by rewrite in_key_order_perm. Qed.

Lemma elem_of_values {A} (m : gmap Z A) (a : A) :
  a ∈ values m ↔ ∃ k, m !! k = Some a.
Proof.
  rewrite values_perm, list_elem_of_fmap. split.
  - intros ([k a'] & -> & Hk). exists k. by apply elem_of_map_to_list.
  - intros (k & Hk). exists (k, a). split; [done|].
    by apply elem_of_map_to_list.
Qed.

Lemma values_empty {A} : values (∅ : gmap Z A) = [].
Proof. unfold values. by rewrite (in_key_order_empty Z.le). Qed.

(** A record set under a key above every key in use is iterated last. *)
Lemma values_insert_last {A} (m : gmap Z A) (k : Z) (a : A) :
  map_Forall (λ k' _, k' < k) m →
  values (<[k := a]> m) = values m ++ [a].
Proof.
  intros Hm. unfold values. rewrite (in_key_order_insert_last Z.le).
  - by rewrite fmap_app.
  - intros k' a' Hk'. specialize (Hm k' a' Hk'). simpl in Hm. lia.
Qed.

(** A record set again under its key keeps its place. *)
Lemma values_rewrite {A} (m : gmap Z A) (k : Z) (a a' : A) :
  m !! k = Some a →
  in_key_order Z.le (<[k := a']> m) = rewritten k a' <$> in_key_order Z.le m.
Proof. apply (in_key_order_rewrite Z.le). Qed.

(** Reading a list of records through their identifiers or through the
    keys they are stored under is the same when every record carries its
    key. *)
Lemma foldl_by_id {A S} (id : A → Z) (P : A → Prop)
    `{!∀ a, Decision (P a)} (h : S → Z → S) (l : list (Z * A)) (z : S) :
  Forall (λ kv, id kv.2 = kv.1) l →
  foldl (λ acc a, h acc (id a)) z (filter P l.*2)
  = foldl (λ acc kv, h acc kv.1) z (filter (λ kv, P kv.2) l).
Proof.
  intros Hl. revert z.
  induction Hl as [|[k a] l Hk _ IH]; intros z; [done|].
  csimpl. rewrite !filter_cons. simpl in *.
  destruct (decide (P a)); simpl; [|apply IH].
  rewrite Hk. apply IH.
Qed.

Lemma updateCustomerBalance_state st c now :
  (updateCustomerBalance st c now).1
  = with_customerBalancesMap st
      (<[c := (updateCustomerBalance st c now).2]> (customerBalancesMap st)).
Proof. reflexivity. Qed.

Lemma updateCustomerBalance_totalSales st c now :
  CustomerBalance.totalSales (updateCustomerBalance st c now).2
  = totalSalesOf st c.
Proof. reflexivity. Qed.

Lemma updateCustomerBalance_totalReturns st c now :
  CustomerBalance.totalReturns (updateCustomerBalance st c now).2
  = totalReturnsOf st c.
Proof. reflexivity. Qed.

Lemma updateCustomerBalance_totalPayments st c now :
  map_Forall (λ k s, Sale.id s = k) (salesMap st) →
  CustomerBalance.totalPayments (updateCustomerBalance st c now).2
  = totalPaymentsOf st c.
Proof.
  intros Hids. unfold totalPaymentsOf, Js.sum.
  change (foldl (λ acc a, (acc + paidOn st (Sale.id a))%float) 0%float
            (filter (λ s, Sale.customerId s = c)
                    (in_key_order Z.le (salesMap st)).*2)
          = foldl (λ acc kv, (acc + paidOn st kv.1)%float) 0%float
              (filter (λ kv, Sale.customerId kv.2 = c)
                      (in_key_order Z.le (salesMap st)))).
  refine (foldl_by_id Sale.id (λ s, Sale.customerId s = c)
            (λ acc k, (acc + paidOn st k)%float)
            (in_key_order Z.le (salesMap st)) 0%float _).
  apply Forall_forall. intros [k s] Hks.
  apply (elem_of_in_key_order Z.le) in Hks. by apply Hids in Hks.
Qed.


Lemma updateCustomerBalance_lookup st c now :
  customerBalancesMap (updateCustomerBalance st c now).1 !! c
  = Some (updateCustomerBalance st c now).2.
Proof. rewrite updateCustomerBalance_state. simpl. apply lookup_insert_eq. Qed.

End MemFacts.

(** ** The document-database client: the ledger aggregator *)

Module FirebaseFacts.
Import Firebase FirebaseLedger.

Lemma getDocs_perm {A} (c : gmap string A) : getDocs c ≡ₚ map_to_list c.
Proof. apply in_key_order_perm. Qed.

Lemma elem_of_getDocs {A} (c : gmap string A) (id : string) (a : A) :
  (id, a) ∈ getDocs c ↔ c !! id = Some a.
Proof. apply (elem_of_in_key_order String.le). Qed.

Lemma NoDup_fst_getDocs {A} (c : gmap string A) : NoDup (getDocs c).*1.
Proof. apply NoDup_fst_in_key_order. Qed.

Lemma getDocs_empty {A} : getDocs (∅ : gmap string A) = [].
Proof. apply (in_key_order_empty String.le). Qed.

(** A document that is rewritten keeps its place in the snapshots. *)
Lemma getDocs_rewrite {A} (c : gmap string A) (id : string) (a a' : A) :
  c !! id = Some a →
  getDocs (<[id := a']> c) = rewritten id a' <$> getDocs c.
Proof. apply (in_key_order_rewrite String.le). Qed.

Lemma updateCustomerBalance_spec db c now :
  ∃ cb,
    updateCustomerBalance db c now
    = Some (with_customerBalances db (<[c := cb]> (customerBalances db)))
    ∧ CustomerBalance.totalSales cb = totalSalesOf db c
    ∧ CustomerBalance.totalReturns cb = totalReturnsOf db c
    ∧ CustomerBalance.totalPayments cb = totalPaymentsOf db c
    ∧ CustomerBalance.balance cb
      = (CustomerBalance.totalSales cb - CustomerBalance.totalPayments cb
         - CustomerBalance.totalReturns cb)%float.
Proof.
  unfold updateCustomerBalance.
  unfold getDoc, updateDoc, setDoc.
  destruct (customerBalances db !! c) as [old|] eqn:Hold; simpl;
    eexists; (split; [reflexivity|]); simpl; done.
Qed.

End FirebaseFacts.

(** ** The ledger aggregator: what it stores, and what it leaves alone *)




(** C6. Two calls of [updateCustomerBalance] for the same customer in a row,
    with nothing else in between, store the same [totalSales],
    [totalPayments], [totalReturns] and [balance] both times. *)
Theorem C6_updateCustomerBalance_twice :
  (∀ st c now1 now2,
     let r1 := MemStorage.updateCustomerBalance st c now1 in
     let r2 := MemStorage.updateCustomerBalance r1.1 c now2 in
     ∃ cb1 cb2,
       MemStorage.customerBalancesMap r1.1 !! c = Some cb1
       ∧ MemStorage.customerBalancesMap r2.1 !! c = Some cb2
       ∧ MemStorage.CustomerBalance.totalSales cb2
         = MemStorage.CustomerBalance.totalSales cb1
       ∧ MemStorage.CustomerBalance.totalPayments cb2
         = MemStorage.CustomerBalance.totalPayments cb1
       ∧ MemStorage.CustomerBalance.totalReturns cb2
         = MemStorage.CustomerBalance.totalReturns cb1
       ∧ MemStorage.CustomerBalance.balance cb2
         = MemStorage.CustomerBalance.balance cb1)
  ∧ (∀ db c now1 now2,
       ∃ db1 db2 cb1 cb2,
         Firebase.updateCustomerBalance db c now1 = Some db1
         ∧ Firebase.updateCustomerBalance db1 c now2 = Some db2
         ∧ Firebase.customerBalances db1 !! c = Some cb1
         ∧ Firebase.customerBalances db2 !! c = Some cb2
         ∧ Firebase.CustomerBalance.totalSales cb2
           = Firebase.CustomerBalance.totalSales cb1
         ∧ Firebase.CustomerBalance.totalPayments cb2
           = Firebase.CustomerBalance.totalPayments cb1
         ∧ Firebase.CustomerBalance.totalReturns cb2
           = Firebase.CustomerBalance.totalReturns cb1
         ∧ Firebase.CustomerBalance.balance cb2
           = Firebase.CustomerBalance.balance cb1).
Proof.
  split.
  - intros st c now1 now2 r1 r2.
    exists r1.2, r2.2.
    split; [apply MemFacts.updateCustomerBalance_lookup|].
    split; [apply MemFacts.updateCustomerBalance_lookup|].
    repeat split; reflexivity.
  - intros db c now1 now2.
    destruct (FirebaseFacts.updateCustomerBalance_spec db c now1)
      as (cb1 & Hrun1 & Hs1 & Hr1 & Hp1 & Hb1).
    destruct (FirebaseFacts.updateCustomerBalance_spec
                (Firebase.with_customerBalances db
                   (<[c := cb1]> (Firebase.customerBalances db))) c now2)
      as (cb2 & Hrun2 & Hs2 & Hr2 & Hp2 & Hb2).
    eexists _, _, cb1, cb2.
    split; [exact Hrun1|]. split; [exact Hrun2|].
    split; [simpl; apply lookup_insert_eq|].
    split; [simpl; apply lookup_insert_eq|].
    rewrite Hb2, Hb1, Hs2, Hs1, Hr2, Hr1, Hp2, Hp1. done.
Qed.

(** C10. [updateCustomerBalance c] writes the balance record of [c] and
    nothing else: customers, products, sales, sale items, returns, return
    items and payments are unchanged, and so is the balance record of every
    other customer. *)
Theorem C10_updateCustomerBalance_frame :
  (∀ st c now,
     let st' := (MemStorage.updateCustomerBalance st c now).1 in
     MemStorage.customersMap st' = MemStorage.customersMap st
     ∧ MemStorage.productsMap st' = MemStorage.productsMap st
     ∧ MemStorage.salesMap st' = MemStorage.salesMap st
     ∧ MemStorage.saleItemsMap st' = MemStorage.saleItemsMap st
     ∧ MemStorage.returnsMap st' = MemStorage.returnsMap st
     ∧ MemStorage.returnItemsMap st' = MemStorage.returnItemsMap st
     ∧ MemStorage.paymentsMap st' = MemStorage.paymentsMap st
     ∧ ∀ c', c' ≠ c →
         MemStorage.customerBalancesMap st' !! c'
         = MemStorage.customerBalancesMap st !! c')
  ∧ (∀ db c now,
       ∃ db',
         Firebase.updateCustomerBalance db c now = Some db'
         ∧ Firebase.customers db' = Firebase.customers db
         ∧ Firebase.products db' = Firebase.products db
         ∧ Firebase.sales db' = Firebase.sales db
         ∧ Firebase.saleItems db' = Firebase.saleItems db
         ∧ Firebase.returns db' = Firebase.returns db
         ∧ Firebase.returnItems db' = Firebase.returnItems db
         ∧ Firebase.payments db' = Firebase.payments db
         ∧ ∀ c', c' ≠ c →
             Firebase.customerBalances db' !! c'
             = Firebase.customerBalances db !! c').
Proof.
  split.
  - intros st c now st'. subst st'.
    rewrite MemFacts.updateCustomerBalance_state. simpl.
    repeat split. intros c' Hne. by rewrite lookup_insert_ne.
  - intros db c now.
    destruct (FirebaseFacts.updateCustomerBalance_spec db c now)
      as (cb & Hrun & _).
    eexists. split; [exact Hrun|]. simpl.
    repeat split. intros c' Hne. by rewrite lookup_insert_ne.
Qed.

(** ** The in-process store: the representation invariant

    The invariant holds of the store that [constructor] builds and is kept
    by every operation, so it holds of every store a caller can observe. *)

Module MemInvariant.
Import MemStorage MemLedger.

Lemma invariant_constructor : invariant constructor.
Proof.
  constructor; simpl; try lia; apply map_Forall_empty.
Qed.

Lemma invariant_with_customerBalancesMap st m :
  invariant st → invariant (with_customerBalancesMap st m).
Proof. intros []. by constructor. Qed.

Lemma invariant_updateCustomerBalance st c now :
  invariant st → invariant (updateCustomerBalance st c now).1.
Proof. apply invariant_with_customerBalancesMap. Qed.

Lemma invariant_createCustomer st ins now :
  invariant st → invariant (createCustomer st ins now).1.
Proof. intros []. by constructor. Qed.

Lemma invariant_deleteCustomer st id :
  invariant st → invariant (deleteCustomer st id).1.
Proof.
  intros Hinv. unfold deleteCustomer.
  destruct (bool_decide _); [|done]. destruct Hinv. by constructor.
Qed.

Lemma invariant_createProduct st ins now :
  invariant st → invariant (createProduct st ins now).1.
Proof.
  intros []. constructor; simpl; try done.
  by apply map_Forall_insert_2.
Qed.

Lemma invariant_deleteProduct st id :
  invariant st → invariant (deleteProduct st id).1.
Proof.
  intros Hinv. unfold deleteProduct.
  destruct (bool_decide _); [|done]. destruct Hinv.
  constructor; simpl; try done. by apply map_Forall_delete.
Qed.

Lemma invariant_createSale st ins now :
  invariant st → invariant (createSale st ins now).1.
Proof.
  intros []. unfold createSale.
  apply invariant_with_customerBalancesMap.
  constructor; simpl; try done; [|lia].
  by apply map_Forall_insert_2.
Qed.

Lemma invariant_updateSale st id saleData now :
  invariant st → invariant (updateSale st id saleData now).1.
Proof.
  intros Hinv. unfold updateSale.
  destruct (salesMap st !! id) as [sale|] eqn:Hsale; [|done].
  apply invariant_with_customerBalancesMap.
  destruct Hinv as [Hs Hp Hk ? ?]. constructor; simpl; try done.
  apply map_Forall_insert_2; [|done]. simpl. by apply (Hs id sale).
Qed.

Lemma invariant_addSaleItem st ins now :
  invariant st → invariant (addSaleItem st ins now).1.
Proof.
  intros [Hs Hp Hk ? ?]. constructor; simpl; try done.
  destruct (productsMap st !! InsertSaleItem.productId ins) as [p|]; [|done].
  by apply map_Forall_insert_2.
Qed.

Lemma invariant_createReturn st ins now :
  invariant st → invariant (createReturn st ins now).1.
Proof.
  intros []. unfold createReturn.
  apply invariant_with_customerBalancesMap. by constructor.
Qed.

Lemma invariant_addReturnItem st ins now :
  invariant st → invariant (addReturnItem st ins now).1.
Proof.
  intros [Hs Hp Hk ? ?]. constructor; simpl; try done.
  destruct (productsMap st !! InsertReturnItem.productId ins) as [p|]; [|done].
  by apply map_Forall_insert_2.
Qed.

Lemma invariant_createPayment st ins now :
  invariant st → invariant (createPayment st ins now).1.
Proof.
  intros [Hs Hp Hk ? ?]. unfold createPayment. simpl.
  assert (map_Forall (λ k (_ : Payment.t), k < paymentIdCounter st + 1)
            (<[paymentIdCounter st :=
                 {| Payment.id := paymentIdCounter st;
                    Payment.saleId := InsertPayment.saleId ins;
                    Payment.amount := InsertPayment.amount ins;
                    Payment.paymentMethod := InsertPayment.paymentMethod ins;
                    Payment.date := InsertPayment.date ins;
                    Payment.reference := InsertPayment.reference ins;
                    Payment.createdBy := InsertPayment.createdBy ins;
                    Payment.createdAt := now |}]> (paymentsMap st))) as Hk'.
  { apply map_Forall_insert_2; [lia|].
    eapply map_Forall_impl; [exact Hk|]. simpl. intros; lia. }
  destruct (salesMap st !! InsertPayment.saleId ins) as [sale|] eqn:Hsale.
  - apply invariant_with_customerBalancesMap.
    constructor; simpl; try done; [|lia].
    apply map_Forall_insert_2; [done|done].
  - constructor; simpl; try done. lia.
Qed.

End MemInvariant.

(** ** The in-process store: payment creation *)

Module MemPayment.
Import MemStorage MemLedger.

Lemma values_insert {A} (m : gmap Z A) (k : Z) (a : A) :
  m !! k = None → values (<[k := a]> m) ≡ₚ a :: values m.
Proof.
  intros Hk. rewrite !MemFacts.values_perm.
  by rewrite (map_to_list_insert m k a Hk).
Qed.

(** The payment that [createPayment] stores. *)
Lemma createPayment_result st ins now :
  (createPayment st ins now).2
  = {| Payment.id := paymentIdCounter st;
       Payment.saleId := InsertPayment.saleId ins;
       Payment.amount := InsertPayment.amount ins;
       Payment.paymentMethod := InsertPayment.paymentMethod ins;
       Payment.date := InsertPayment.date ins;
       Payment.reference := InsertPayment.reference ins;
       Payment.createdBy := InsertPayment.createdBy ins;
       Payment.createdAt := now |}.
Proof.
  unfold createPayment. simpl.
  by destruct (salesMap st !! InsertPayment.saleId ins).
Qed.

Lemma createPayment_paymentsMap st ins now :
  paymentsMap (createPayment st ins now).1
  = <[paymentIdCounter st := (createPayment st ins now).2]> (paymentsMap st).
Proof.
  rewrite createPayment_result. unfold createPayment. simpl.
  by destruct (salesMap st !! InsertPayment.saleId ins).
Qed.

(** The new payment is the last of the payments on its sale. *)
Lemma paymentsOn_createPayment st ins now :
  invariant st →
  paymentsOn (createPayment st ins now).1 (InsertPayment.saleId ins)
  = paymentsOn st (InsertPayment.saleId ins) ++ [(createPayment st ins now).2].
Proof.
  intros Hinv. unfold paymentsOn.
  rewrite createPayment_paymentsMap.
  rewrite MemFacts.values_insert_last by apply (payment_keys _ Hinv).
  rewrite filter_app, filter_cons_True, filter_nil; [done|].
  by rewrite createPayment_result.
Qed.

(** With the new payment, the amount paid on its sale is the amount paid
    before plus its amount. *)
Lemma paidOn_createPayment st ins now :
  invariant st →
  paidOn (createPayment st ins now).1 (InsertPayment.saleId ins)
  = (paidOn st (InsertPayment.saleId ins) + InsertPayment.amount ins)%float.
Proof.
  intros Hinv. unfold paidOn.
  rewrite paymentsOn_createPayment by done.
  rewrite Js_sum_snoc. by rewrite createPayment_result.
Qed.


(** When the sale does not exist, the payment is stored and nothing else
    changes. *)
Lemma createPayment_no_sale st ins now :
  salesMap st !! InsertPayment.saleId ins = None →
  salesMap (createPayment st ins now).1 = salesMap st
  ∧ customerBalancesMap (createPayment st ins now).1 = customerBalancesMap st
  ∧ productsMap (createPayment st ins now).1 = productsMap st
  ∧ customersMap (createPayment st ins now).1 = customersMap st
  ∧ returnsMap (createPayment st ins now).1 = returnsMap st.
Proof.
  intros Hsale. unfold createPayment. simpl. rewrite Hsale. done.
Qed.

End MemPayment.

(** ** The document-database client: payment creation *)

Module FirebasePayment.
Import Firebase FirebaseLedger.

Lemma updateCustomerBalance_frame db c now :
  ∃ balances,
    updateCustomerBalance db c now = Some (with_customerBalances db balances).
Proof.
  destruct (FirebaseFacts.updateCustomerBalance_spec db c now)
    as (cb & Hrun & _).
  eauto.
Qed.

(** [updateSale] without a list of items, on a sale that exists. *)
Lemma updateSale_fields db id data now sale :
  sales db !! id = Some sale →
  ∃ balances,
    updateSale db id data None now
    = Some (with_customerBalances
              (with_sales db (<[id := Sale_merge data now sale]> (sales db)))
              balances).
Proof.
  intros Hsale. unfold updateSale, updateDoc. rewrite Hsale. simpl.
  unfold getSale, getDoc. simpl. rewrite lookup_insert_eq.
  apply updateCustomerBalance_frame.
Qed.

(** The payments on a sale: those that were there and the new one. *)
Lemma getPaymentsBySale_addDoc db newId data now :
  payments db !! newId = None →
  getPaymentsBySale
    (with_payments db (<[newId := paymentOf data now]> (payments db)))
    (PaymentData.saleId data)
  ≡ₚ (newId, paymentOf data now)
       :: getPaymentsBySale db (PaymentData.saleId data).
Proof.
  intros Hfresh. unfold getPaymentsBySale. simpl.
  rewrite !FirebaseFacts.getDocs_perm.
  rewrite (map_to_list_insert _ _ _ Hfresh).
  by rewrite filter_cons_True.
Qed.

Lemma createPayment_sale db newId data now sale :
  sales db !! PaymentData.saleId data = Some sale →
  let db1 :=
    with_payments db (<[newId := paymentOf data now]> (payments db)) in
  let totalPaid := paidOn db1 (PaymentData.saleId data) in
  let paymentStatus :=
    if (Sale.totalAmount sale <=? totalPaid)%float then paid
    else if (0 <? totalPaid)%float then partially_paid else pending in
  ∃ db',
    createPayment db newId data now = Some (db', newId)
    ∧ sales db'
      = <[PaymentData.saleId data :=
            Sale_merge (paymentStatus_only paymentStatus) now sale]> (sales db)
    ∧ payments db' = <[newId := paymentOf data now]> (payments db).
Proof.
  intros Hsale db1 totalPaid paymentStatus.
  unfold createPayment, getSale, getDoc, addDoc. simpl. rewrite Hsale.
  fold (paymentOf data now). fold db1.
  change (foldl (λ sum payment, (sum + Payment.amount payment.2)%float)
            0%float (getPaymentsBySale db1 (PaymentData.saleId data)))
    with totalPaid.
  fold paymentStatus.
  edestruct (updateSale_fields db1
               (PaymentData.saleId data) (paymentStatus_only paymentStatus)
               now sale Hsale) as (balances & Hupd).
  rewrite Hupd. simpl.
  edestruct updateCustomerBalance_frame as (balances' & Hbal).
  rewrite Hbal. simpl. eexists. split; [reflexivity|]. by simpl.
Qed.

Lemma createPayment_unknown_sale db newId data now :
  sales db !! PaymentData.saleId data = None →
  createPayment db newId data now
  = Some (with_payments db (<[newId := paymentOf data now]> (payments db)),
          newId).
Proof.
  intros Hsale. unfold createPayment, getSale, getDoc, addDoc. simpl.
  by rewrite Hsale.
Qed.

End FirebasePayment.

(** ** Payment status derivation *)

Lemma status_rule_on_doubles_derived totalPaid totalAmount :
  status_rule_on_doubles totalPaid totalAmount
    (if (totalAmount <=? totalPaid)%float then paid
     else if (0 <? totalPaid)%float then partially_paid else pending).
Proof.
  unfold status_rule_on_doubles.
  destruct (totalAmount <=? totalPaid)%float;
    destruct (0 <? totalPaid)%float; repeat split; intros; done.
Qed.

(** [createPayment] of the document-database client on a sale that
    exists. *)
Lemma Firebase_createPayment_on_sale db newId data now sale :
  Firebase.sales db !! Firebase.PaymentData.saleId data = Some sale →
  Firebase.payments db !! newId = None →
  let saleId := Firebase.PaymentData.saleId data in
  ∃ db',
    Firebase.createPayment db newId data now = Some (db', newId)
    ∧ Firebase.payments db'
      = <[newId := FirebaseLedger.paymentOf data now]> (Firebase.payments db)
    ∧ Firebase.getPaymentsBySale db' saleId
      ≡ₚ (newId, FirebaseLedger.paymentOf data now)
           :: Firebase.getPaymentsBySale db saleId
    ∧ ∃ sale',
        Firebase.sales db' !! saleId = Some sale'
        ∧ Firebase.Sale.totalAmount sale' = Firebase.Sale.totalAmount sale
        ∧ status_rule_on_doubles (FirebaseLedger.paidOn db' saleId)
            (Firebase.Sale.totalAmount sale)
            (Firebase.Sale.paymentStatus sale').
Proof.
  intros Hsale Hfresh saleId.
  destruct (FirebasePayment.createPayment_sale db newId data now sale Hsale)
    as (db' & Hrun & Hsales & Hpay).
  exists db'. split; [exact Hrun|]. split; [exact Hpay|].
  assert (Firebase.getPaymentsBySale db' saleId
          = Firebase.getPaymentsBySale
              (Firebase.with_payments db
                 (<[newId := FirebaseLedger.paymentOf data now]>
                    (Firebase.payments db))) saleId) as Hsame.
  { unfold Firebase.getPaymentsBySale. by rewrite Hpay. }
  split.
  { rewrite Hsame. by apply FirebasePayment.getPaymentsBySale_addDoc. }
  unfold FirebaseLedger.paidOn. rewrite Hsame, Hsales.
  eexists. split; [apply lookup_insert_eq|]. split; [reflexivity|]. simpl.
  apply status_rule_on_doubles_derived.
Qed.




(** C9, as amended.  [createPayment] with a [saleId] that matches no sale
    still stores the payment, and leaves every sale (so every payment
    status) and every customer balance record as it was.  The in-process
    store returns the stored payment record; the document-database client
    returns the identifier under which the payment is stored, not the
    record. *)
Theorem C9_createPayment_unknown_sale :
  (∀ st ins now,
     MemStorage.salesMap st !! MemStorage.InsertPayment.saleId ins = None →
     let r := MemStorage.createPayment st ins now in
     returns_stored_record
       (MemStorage.paymentsMap r.1 !! MemStorage.Payment.id r.2)
       (the_record r.2)
     ∧ MemStorage.Payment.saleId r.2 = MemStorage.InsertPayment.saleId ins
     ∧ MemStorage.Payment.amount r.2 = MemStorage.InsertPayment.amount ins
     ∧ MemStorage.salesMap r.1 = MemStorage.salesMap st
     ∧ MemStorage.customerBalancesMap r.1 = MemStorage.customerBalancesMap st)
  ∧ (∀ db newId data now,
       Firebase.sales db !! Firebase.PaymentData.saleId data = None →
       ∃ db' id,
         Firebase.createPayment db newId data now = Some (db', id)
         ∧ returns_identifier_of (Firebase.payments db')
             (FirebaseLedger.paymentOf data now) (the_identifier id)
         ∧ Firebase.sales db' = Firebase.sales db
         ∧ Firebase.customerBalances db' = Firebase.customerBalances db).
Proof.
  split.
  - intros st ins now Hsale r. subst r.
    destruct (MemPayment.createPayment_no_sale st ins now Hsale)
      as (Hs & Hb & _).
    split.
    { eexists. split; [|reflexivity].
      rewrite MemPayment.createPayment_paymentsMap.
      rewrite MemPayment.createPayment_result at 1. simpl.
      apply lookup_insert_eq. }
    rewrite MemPayment.createPayment_result. simpl. done.
  - intros db newId data now Hsale.
    rewrite (FirebasePayment.createPayment_unknown_sale db newId data now Hsale).
    eexists _, _. split; [reflexivity|]. simpl.
    split; [|done].
    exists newId. split; [reflexivity|]. apply lookup_insert_eq.
Qed.

Lemma C9_witness :
  (MemStorage.salesMap MemExample.st !! 99 = None
   ∧ MemStorage.salesMap
       (MemStorage.createPayment MemExample.st MemExample.payNowhere
          MemExample.jan15).1
     = MemStorage.salesMap MemExample.st)
  ∧ (Firebase.sales FirebaseExample.db !! "s9" = None
     ∧ ∃ db' id,
         Firebase.createPayment FirebaseExample.db "y2"
           FirebaseExample.payNowhere FirebaseExample.jan16 = Some (db', id)
         ∧ Firebase.sales db' = Firebase.sales FirebaseExample.db).
Proof.
  split.
  - split; [reflexivity|].
    apply (proj1 C9_createPayment_unknown_sale MemExample.st
             MemExample.payNowhere MemExample.jan15 eq_refl).
  - split; [reflexivity|].
    destruct (proj2 C9_createPayment_unknown_sale FirebaseExample.db "y2"
                FirebaseExample.payNowhere FirebaseExample.jan16 eq_refl)
      as (db' & id & Hrun & _ & Hs & _).
    by exists db', id.
Defined.

(** C9 as it is written fails for the document-database client: the call
    below stores the payment and returns the string ["y2"], which is the
    identifier of the stored record and not the record. *)
Lemma C9_counterexample :
  ∃ db' id,
    Firebase.createPayment FirebaseExample.db "y2" FirebaseExample.payNowhere
      FirebaseExample.jan16 = Some (db', id)
    ∧ id = "y2"
    ∧ Firebase.payments db' !! id
      = Some (FirebaseLedger.paymentOf FirebaseExample.payNowhere
                FirebaseExample.jan16)
    ∧ ¬ returns_stored_record (Firebase.payments db' !! id)
          (the_identifier id).
Proof.
  eexists _, _. split; [reflexivity|]. split; [reflexivity|].
  split; [reflexivity|].
  intros (r & _ & Hret). discriminate Hret.
Qed.

(** ** Deleting customers and products *)

(** C7, as amended.  In the in-process store [deleteCustomer id] and
    [deleteProduct id] remove the record stored under [id] when there is one
    and return the boolean that is true exactly when there was one.  In the
    document-database client they remove the record stored under [id] when
    there is one and resolve to no value at all. *)
Theorem C7_delete :
  (∀ st id,
     let r := MemStorage.deleteCustomer st id in
     delete_contract (MemStorage.customersMap st)
       (MemStorage.customersMap r.1) id (resolved_boolean r.2))
  ∧ (∀ st id,
       let r := MemStorage.deleteProduct st id in
       delete_contract (MemStorage.productsMap st)
         (MemStorage.productsMap r.1) id (resolved_boolean r.2))
  ∧ (∀ db id,
       let r := Firebase.deleteCustomer db id in
       Firebase.customers r.1 = delete id (Firebase.customers db)
       ∧ resolved_void r.2 = Js.undefined)
  ∧ (∀ db id,
       let r := Firebase.deleteProduct db id in
       Firebase.products r.1 = delete id (Firebase.products db)
       ∧ resolved_void r.2 = Js.undefined).
Proof.
  split; [|split; [|split]].
  - intros st id r. subst r. unfold MemStorage.deleteCustomer, delete_contract.
    destruct (bool_decide_reflect (is_Some (MemStorage.customersMap st !! id)))
      as [Hsome|Hnone]; simpl; [done|].
    split; [|done]. symmetry. apply delete_id.
    by apply eq_None_not_Some.
  - intros st id r. subst r. unfold MemStorage.deleteProduct, delete_contract.
    destruct (bool_decide_reflect (is_Some (MemStorage.productsMap st !! id)))
      as [Hsome|Hnone]; simpl; [done|].
    split; [|done]. symmetry. apply delete_id.
    by apply eq_None_not_Some.
  - done.
  - done.
Qed.

(** C7 as it is written fails for the document-database client: deleting
    the customer ["c1"], who exists, does not return [true]. *)
Lemma C7_counterexample :
  let r := Firebase.deleteCustomer FirebaseExample.db "c1" in
  is_Some (Firebase.customers FirebaseExample.db !! "c1")
  ∧ Firebase.customers r.1 !! "c1" = None
  ∧ ¬ delete_contract (Firebase.customers FirebaseExample.db)
        (Firebase.customers r.1) "c1" (resolved_void r.2).
Proof.
  split; [by eexists|]. split; [reflexivity|].
  intros [_ Hret]. discriminate Hret.
Qed.

(** ** The inventory adjuster of the document-database client *)

Module FirebaseStock.
Import Firebase FirebaseLedger.

(** Reading a product and writing back its stock changed by [f] never
    rejects: the product is only written when it was found. *)
Lemma adjust_stock db productId now (f : Z → Z) :
  ∃ products',
    match getProduct db productId with
    | Some product =>
        updateProduct db productId (stock_only (f (Product.stock product))) now
    | None => Some db
    end = Some (with_products db products')
    ∧ (∀ k, Product.stock <$> products' !! k
            = (λ s, if decide (productId = k) then f s else s)
                <$> (Product.stock <$> products db !! k))
    ∧ (getProduct db productId = None → products' = products db).
Proof.
  unfold getProduct, getDoc, updateProduct, updateDoc.
  destruct (products db !! productId) as [product|] eqn:Hp; simpl.
  - eexists. split; [reflexivity|]. split; [|done].
    intros k. destruct (decide (productId = k)) as [<-|Hne].
    + rewrite lookup_insert_eq, Hp. done.
    + rewrite lookup_insert_ne by done.
      by destruct (products db !! k).
  - exists (products db). split; [by destruct db|]. split; [|done].
    intros k. destruct (decide (productId = k)) as [<-|Hne].
    + by rewrite Hp.
    + by destruct (products db !! k).
Qed.

Lemma stock_compose (o : option Z) (f g : Z → Z) :
  g <$> (f <$> o) = (λ s, g (f s)) <$> o.
Proof. by destruct o. Qed.

Lemma stock_ext (o : option Z) (f g : Z → Z) :
  (∀ s, f s = g s) → f <$> o = g <$> o.
Proof. intros Hfg. destruct o; simpl; [|done]. by rewrite Hfg. Qed.

(** One item added to a sale. *)
Lemma addItemToSale_spec saleId now db itemId item :
  ∃ products',
    addItemToSale saleId now db (itemId, item)
    = Some (with_products
              (with_saleItems db
                 (<[saleId := <[itemId := item]> (saleItemsOf db saleId)]>
                    (saleItems db)))
              products')
    ∧ (∀ k, Product.stock <$> products' !! k
            = (λ s, if decide (SaleItem.productId item = k)
                    then s - SaleItem.quantity item else s)
                <$> stockOf db k)
    ∧ (products db !! SaleItem.productId item = None →
       products' = products db).
Proof.
  unfold addItemToSale, addDoc.
  destruct (adjust_stock
              (with_saleItems db
                 (<[saleId := <[itemId := item]> (saleItemsOf db saleId)]>
                    (saleItems db)))
              (SaleItem.productId item) now
              (λ s, s - SaleItem.quantity item))
    as (products' & Hrun & Hstock & Hnone).
  exists products'. split; [exact Hrun|]. split; [exact Hstock|exact Hnone].
Qed.

(** One old item taken off a sale. *)
Lemma removeItemFromSale_spec saleId now db itemId item :
  ∃ products',
    removeItemFromSale saleId now db (itemId, item)
    = Some (with_saleItems
              (with_products db products')
              (<[saleId := delete itemId (saleItemsOf db saleId)]>
                 (saleItems db)))
    ∧ (∀ k, Product.stock <$> products' !! k
            = (λ s, if decide (SaleItem.productId item = k)
                    then s + SaleItem.quantity item else s)
                <$> stockOf db k).
Proof.
  unfold removeItemFromSale, deleteDoc. simpl.
  destruct (adjust_stock db (SaleItem.productId item) now
              (λ s, s + SaleItem.quantity item))
    as (products' & Hrun & Hstock & _).
  exists products'. rewrite Hrun. simpl. split; [reflexivity|exact Hstock].
Qed.

(** One item added to a return. *)
Lemma addItemToReturn_spec returnId now db itemId item :
  ∃ products',
    addItemToReturn returnId now db (itemId, item)
    = Some (with_products
              (with_returnItems db
                 (<[returnId := <[itemId := item]> (returnItemsOf db returnId)]>
                    (returnItems db)))
              products')
    ∧ (∀ k, Product.stock <$> products' !! k
            = (λ s, if decide (ReturnItem.productId item = k)
                    then s + ReturnItem.quantity item else s)
                <$> stockOf db k)
    ∧ (products db !! ReturnItem.productId item = None →
       products' = products db).
Proof.
  unfold addItemToReturn, addDoc.
  destruct (adjust_stock
              (with_returnItems db
                 (<[returnId := <[itemId := item]> (returnItemsOf db returnId)]>
                    (returnItems db)))
              (ReturnItem.productId item) now
              (λ s, s + ReturnItem.quantity item))
    as (products' & Hrun & Hstock & Hnone).
  exists products'. split; [exact Hrun|]. split; [exact Hstock|exact Hnone].
Qed.

End FirebaseStock.

(** The loops over line items. *)

Module FirebaseLoops.
Import Firebase FirebaseLedger FirebaseStock.

Lemma with_same db :
  with_products (with_saleItems db (saleItems db)) (products db) = db.
Proof. by destruct db. Qed.

Lemma forEach_cons {S A} (body : S → A → option S) s x xs :
  forEach body s (x :: xs) = body s x ≫= λ s', forEach body s' xs.
Proof. reflexivity. Qed.

Lemma quantityOf_cons k it items :
  quantityOf k (it :: items)
  = (if decide (SaleItem.productId it.2 = k) then SaleItem.quantity it.2 else 0)
    + quantityOf k items.
Proof. unfold quantityOf. by rewrite sumZ_filter_cons. Qed.

Lemma returnedQuantityOf_cons k it items :
  returnedQuantityOf k (it :: items)
  = (if decide (ReturnItem.productId it.2 = k)
     then ReturnItem.quantity it.2 else 0)
    + returnedQuantityOf k items.
Proof. unfold returnedQuantityOf. by rewrite sumZ_filter_cons. Qed.

(** [for (const item of items)]: every item is added to the sale and the
    stock of every product goes down by the quantity the items carry for
    it. *)
Lemma forEach_addItemToSale saleId now items : ∀ db,
  ∃ items' products',
    forEach (addItemToSale saleId now) db items
    = Some (with_products (with_saleItems db items') products')
    ∧ (∀ k, Product.stock <$> products' !! k
            = (λ s, s - quantityOf k items) <$> stockOf db k)
    ∧ default ∅ (items' !! saleId)
      = foldl (λ m it, <[it.1 := it.2]> m) (saleItemsOf db saleId) items
    ∧ (∀ other, other ≠ saleId → items' !! other = saleItems db !! other)
    ∧ (Forall (λ it, products db !! SaleItem.productId it.2 = None) items →
       products' = products db).
Proof.
  induction items as [|[itemId item] items IH]; intros db.
  - exists (saleItems db), (products db). simpl.
    split; [by rewrite with_same|]. split; [|done].
    intros k. unfold stockOf. destruct (products db !! k); simpl; [|done].
    f_equal. unfold quantityOf. simpl. lia.
  - destruct (addItemToSale_spec saleId now db itemId item)
      as (products1 & Hstep & Hstock1 & Hnone1).
    rewrite forEach_cons, Hstep. simpl.
    match goal with |- context [forEach _ ?d _] => set (db1 := d) end.
    destruct (IH db1) as (items' & products' & Hrun & Hstock & Hitems & Hother & Hnone).
    exists items', products'. split; [exact Hrun|].
    split; [|split; [|split]].
    + intros k. rewrite Hstock. unfold stockOf at 1. subst db1. simpl.
      rewrite Hstock1, stock_compose. apply stock_ext. intros s.
      rewrite quantityOf_cons. simpl. destruct (decide _); lia.
    + rewrite Hitems. unfold saleItemsOf at 1. subst db1. simpl.
      by rewrite lookup_insert_eq.
    + intros other Hne. rewrite (Hother other Hne). subst db1. simpl.
      by rewrite lookup_insert_ne.
    + intros Hall. apply Forall_cons in Hall as [Hit Hall]. simpl in Hit.
      specialize (Hnone1 Hit). rewrite Hnone.
      * subst db1. simpl. exact Hnone1.
      * subst db1. simpl. by rewrite Hnone1.
Qed.

(** [for (const doc of itemsSnapshot.docs)]: every old item is deleted and
    the stock of every product goes up by the quantity the old items carry
    for it. *)
Lemma forEach_removeItemFromSale saleId now docs : ∀ db,
  ∃ items' products',
    forEach (removeItemFromSale saleId now) db docs
    = Some (with_products (with_saleItems db items') products')
    ∧ (∀ k, Product.stock <$> products' !! k
            = (λ s, s + quantityOf k docs) <$> stockOf db k)
    ∧ default ∅ (items' !! saleId)
      = foldl (λ m doc, delete doc.1 m) (saleItemsOf db saleId) docs
    ∧ (∀ other, other ≠ saleId → items' !! other = saleItems db !! other).
Proof.
  induction docs as [|[itemId item] docs IH]; intros db.
  - exists (saleItems db), (products db). simpl.
    split; [by rewrite with_same|]. split; [|done].
    intros k. unfold stockOf. destruct (products db !! k); simpl; [|done].
    f_equal. unfold quantityOf. simpl. lia.
  - destruct (removeItemFromSale_spec saleId now db itemId item)
      as (products1 & Hstep & Hstock1).
    rewrite forEach_cons, Hstep. simpl.
    match goal with |- context [forEach _ ?d _] => set (db1 := d) end.
    destruct (IH db1) as (items' & products' & Hrun & Hstock & Hitems & Hother).
    exists items', products'. split; [exact Hrun|].
    split; [|split].
    + intros k. rewrite Hstock. unfold stockOf at 1. subst db1. simpl.
      rewrite Hstock1, stock_compose. apply stock_ext. intros s.
      rewrite quantityOf_cons. simpl. destruct (decide _); lia.
    + rewrite Hitems. unfold saleItemsOf at 1. subst db1. simpl.
      by rewrite lookup_insert_eq.
    + intros other Hne. rewrite (Hother other Hne). subst db1. simpl.
      by rewrite lookup_insert_ne.
Qed.

(** The same loop in [createReturn]: the stock goes up. *)
Lemma forEach_addItemToReturn returnId now items : ∀ db,
  ∃ items' products',
    forEach (addItemToReturn returnId now) db items
    = Some (with_products (with_returnItems db items') products')
    ∧ (∀ k, Product.stock <$> products' !! k
            = (λ s, s + returnedQuantityOf k items) <$> stockOf db k)
    ∧ default ∅ (items' !! returnId)
      = foldl (λ m it, <[it.1 := it.2]> m) (returnItemsOf db returnId) items.
Proof.
  induction items as [|[itemId item] items IH]; intros db.
  - exists (returnItems db), (products db). simpl.
    split; [by destruct db|]. split; [|done].
    intros k. unfold stockOf. destruct (products db !! k); simpl; [|done].
    f_equal. unfold returnedQuantityOf. simpl. lia.
  - destruct (addItemToReturn_spec returnId now db itemId item)
      as (products1 & Hstep & Hstock1 & _).
    rewrite forEach_cons, Hstep. simpl.
    match goal with |- context [forEach _ ?d _] => set (db1 := d) end.
    destruct (IH db1) as (items' & products' & Hrun & Hstock & Hitems).
    exists items', products'. split; [exact Hrun|]. split.
    + intros k. rewrite Hstock. unfold stockOf at 1. subst db1. simpl.
      rewrite Hstock1, stock_compose. apply stock_ext. intros s.
      rewrite returnedQuantityOf_cons. simpl. destruct (decide _); lia.
    + rewrite Hitems. unfold returnItemsOf at 1. subst db1. simpl.
      by rewrite lookup_insert_eq.
Qed.

(** Deleting every document of a collection empties it. *)
Lemma lookup_foldl_delete {A} (docs : list (string * A)) : ∀ (m : gmap string A) k,
  foldl (λ m doc, delete doc.1 m) m docs !! k
  = if decide (k ∈ docs.*1) then None else m !! k.
Proof.
  induction docs as [|[k' a] docs IH]; intros m k; csimpl.
  - done.
  - rewrite IH. destruct (decide (k ∈ docs.*1)) as [Hin|Hnin].
    + rewrite decide_True; [done|]. by right.
    + destruct (decide (k = k')) as [->|Hne].
      * rewrite lookup_delete_eq. rewrite decide_True; [done|]. by left.
      * rewrite lookup_delete_ne by done.
        rewrite decide_False; [done|].
        intros [?|?]%elem_of_cons; done.
Qed.

Lemma foldl_delete_all {A} (m : gmap string A) :
  foldl (λ m doc, delete doc.1 m) m (getDocs m) = ∅.
Proof.
  apply map_eq. intros k. rewrite lookup_foldl_delete, lookup_empty.
  destruct (decide (k ∈ (getDocs m).*1)) as [|Hnin]; [done|].
  destruct (m !! k) as [a|] eqn:Hk; [|done].
  exfalso. apply Hnin. apply list_elem_of_fmap. exists (k, a).
  split; [done|]. by apply FirebaseFacts.elem_of_getDocs.
Qed.

(** Adding documents one after the other. *)
Lemma foldl_insert_list_to_map {A} (items : list (string * A)) : ∀ m : gmap string A,
  foldl (λ m it, <[it.1 := it.2]> m) m items
  = list_to_map (reverse items) ∪ m.
Proof.
  induction items as [|[k a] items IH]; intros m; simpl.
  - by rewrite (left_id_L ∅ (∪)).
  - rewrite IH, reverse_cons, list_to_map_app. simpl.
    rewrite <- (assoc_L (∪)). f_equal.
    rewrite insert_empty. by rewrite <- insert_union_singleton_l.
Qed.

End FirebaseLoops.

(** ** Sales and returns of the document-database client *)

Module FirebaseSales.
Import Firebase FirebaseLedger FirebaseStock FirebaseLoops FirebasePayment.

Lemma createSale_spec db newId data items now :
  ∃ db' doc,
    createSale db newId data items now = Some (db', newId)
    ∧ sales db' = <[newId := doc]> (sales db)
    ∧ Sale.invoiceNumber doc
      = documentNumber "INV" now (lastInvoiceNumber db + 1)
    ∧ Sale.createdAt doc = now
    ∧ (∀ k, stockOf db' k = (λ s, s - quantityOf k items) <$> stockOf db k)
    ∧ saleItemsOf db' newId
      = list_to_map (reverse items) ∪ saleItemsOf db newId
    ∧ (Forall (λ it, products db !! SaleItem.productId it.2 = None) items →
       products db' = products db).
Proof.
  unfold createSale, addDoc.
  match goal with |- context [forEach _ ?d _] => set (db1 := d) end.
  destruct (forEach_addItemToSale newId now items db1)
    as (items' & products' & Hrun & Hstock & Hitems & _ & Hnone).
  rewrite Hrun. simpl.
  edestruct updateCustomerBalance_frame as (balances & Hbal).
  rewrite Hbal. simpl.
  eexists _, _. split; [reflexivity|]. simpl.
  split; [reflexivity|]. split; [reflexivity|]. split; [reflexivity|].
  split; [exact Hstock|]. split; [|exact Hnone].
  unfold saleItemsOf at 1. simpl. rewrite Hitems.
  apply foldl_insert_list_to_map.
Qed.

Lemma createReturn_spec db newId data items now :
  ∃ db',
    createReturn db newId data items now = Some (db', newId)
    ∧ (∀ k, stockOf db' k
            = (λ s, s + returnedQuantityOf k items) <$> stockOf db k)
    ∧ returnItemsOf db' newId
      = list_to_map (reverse items) ∪ returnItemsOf db newId.
Proof.
  unfold createReturn, addDoc.
  match goal with |- context [forEach _ ?d _] => set (db1 := d) end.
  destruct (forEach_addItemToReturn newId now items db1)
    as (items' & products' & Hrun & Hstock & Hitems).
  rewrite Hrun. simpl.
  edestruct updateCustomerBalance_frame as (balances & Hbal).
  rewrite Hbal. simpl.
  eexists. split; [reflexivity|]. simpl.
  split; [exact Hstock|].
  unfold returnItemsOf at 1. simpl. rewrite Hitems.
  apply foldl_insert_list_to_map.
Qed.

(** The two phases of the replacement of the items of a sale. *)
Lemma replaceItems_phases db id items now :
  is_Some (sales db !! id) →
  let old := getDocs (saleItemsOf db id) in
  ∃ reverted db',
    forEach (removeItemFromSale id now) db old = Some reverted
    ∧ (∀ k, stockOf reverted k = (λ s, s + quantityOf k old) <$> stockOf db k)
    ∧ saleItemsOf reverted id = ∅
    ∧ forEach (addItemToSale id now) reverted items = Some db'
    ∧ (∀ k, stockOf db' k
            = (λ s, s - quantityOf k items) <$> stockOf reverted k)
    ∧ saleItemsOf db' id = list_to_map (reverse items)
    ∧ replaceItems db id items now = Some db'
    ∧ sales db' = sales db.
Proof.
  intros [sale Hsale] old.
  destruct (forEach_removeItemFromSale id now old db)
    as (items1 & products1 & Hrun1 & Hstock1 & Hitems1 & _).
  match type of Hrun1 with _ = Some ?d => set (reverted := d) in * end.
  destruct (forEach_addItemToSale id now items reverted)
    as (items2 & products2 & Hrun2 & Hstock2 & Hitems2 & _).
  assert (saleItemsOf reverted id = ∅) as Hempty.
  { unfold saleItemsOf at 1. subst reverted. simpl. rewrite Hitems1.
    apply foldl_delete_all. }
  eexists reverted, _.
  split; [exact Hrun1|]. split; [exact Hstock1|]. split; [exact Hempty|].
  split; [exact Hrun2|]. split; [exact Hstock2|].
  split; [|split].
  - unfold saleItemsOf at 1. simpl. rewrite Hitems2, Hempty.
    rewrite foldl_insert_list_to_map. by rewrite (right_id_L ∅ (∪)).
  - unfold replaceItems, getSale, getDoc. rewrite Hsale.
    fold old. rewrite Hrun1. simpl. exact Hrun2.
  - done.
Qed.

Lemma updateSale_items db id data items now sale :
  sales db !! id = Some sale →
  let old := getDocs (saleItemsOf db id) in
  ∃ db',
    updateSale db id data (Some items) now = Some db'
    ∧ (∀ k, stockOf db' k
            = (λ s, s + quantityOf k old - quantityOf k items)
                <$> stockOf db k)
    ∧ saleItemsOf db' id = list_to_map (reverse items)
    ∧ sales db' = <[id := Sale_merge data now sale]> (sales db).
Proof.
  intros Hsale old.
  unfold updateSale, updateDoc. rewrite Hsale. simpl.
  match goal with |- context [replaceItems ?d _ _ _] => set (db1 := d) end.
  destruct (replaceItems_phases db1 id items now)
    as (reverted & db2 & _ & Hstock1 & _ & _ & Hstock2 & Hitems & Hrun & Hsales).
  { subst db1. simpl. rewrite lookup_insert_eq. by eexists. }
  rewrite Hrun. simpl.
  unfold getSale, getDoc. rewrite Hsales. subst db1. simpl.
  rewrite lookup_insert_eq.
  edestruct updateCustomerBalance_frame as (balances & Hbal).
  rewrite Hbal.
  eexists. split; [reflexivity|]. simpl.
  split; [|split; [exact Hitems|exact Hsales]].
  intros k. change (stockOf db2 k
    = (λ s, s + quantityOf k old - quantityOf k items) <$> stockOf db k).
  rewrite Hstock2, Hstock1, stock_compose. reflexivity.
Qed.

End FirebaseSales.

(** ** The inventory adjuster of the in-process store *)

Module MemStock.
Import MemStorage MemLedger.

Lemma addSaleItem_result st ins now :
  (addSaleItem st ins now).2
  = {| SaleItem.id := saleItemIdCounter st;
       SaleItem.saleId := InsertSaleItem.saleId ins;
       SaleItem.productId := InsertSaleItem.productId ins;
       SaleItem.quantity := InsertSaleItem.quantity ins;
       SaleItem.unitPrice := InsertSaleItem.unitPrice ins;
       SaleItem.totalPrice := InsertSaleItem.totalPrice ins |}.
Proof. reflexivity. Qed.

Lemma addSaleItem_recorded st ins now :
  getSaleItems (addSaleItem st ins now).1 (InsertSaleItem.saleId ins)
  = getSaleItems st (InsertSaleItem.saleId ins) ++ [(addSaleItem st ins now).2].
Proof. unfold getSaleItems. simpl. by rewrite lookup_insert_eq. Qed.

Lemma addSaleItem_stock st ins now product :
  invariant st →
  productsMap st !! InsertSaleItem.productId ins = Some product →
  stockOf (addSaleItem st ins now).1 (InsertSaleItem.productId ins)
  = Some (Product.stock product - InsertSaleItem.quantity ins).
Proof.
  intros Hinv Hp. unfold stockOf. simpl. rewrite Hp.
  rewrite (product_ids _ Hinv _ _ Hp). by rewrite lookup_insert_eq.
Qed.

Lemma addSaleItem_unknown_product st ins now :
  productsMap st !! InsertSaleItem.productId ins = None →
  productsMap (addSaleItem st ins now).1 = productsMap st.
Proof. intros Hp. simpl. by rewrite Hp. Qed.

Lemma addReturnItem_stock st ins now product :
  invariant st →
  productsMap st !! InsertReturnItem.productId ins = Some product →
  stockOf (addReturnItem st ins now).1 (InsertReturnItem.productId ins)
  = Some (Product.stock product + InsertReturnItem.quantity ins).
Proof.
  intros Hinv Hp. unfold stockOf. simpl. rewrite Hp.
  rewrite (product_ids _ Hinv _ _ Hp). by rewrite lookup_insert_eq.
Qed.

End MemStock.

(** ** Stock follows the line items *)

(** C4. Every sale line item added for a product that exists lowers the
    stored stock of that product by exactly the quantity of the item, and
    every return line item added for a product that exists raises it by
    exactly the quantity of the item.  Nothing keeps the stock at or above
    zero: there are calls after which the stored stock is negative, and they
    complete like any other. *)
Theorem C4_stock_follows_line_items :
  (∀ st ins now product,
     MemLedger.invariant st →
     MemStorage.productsMap st !! MemStorage.InsertSaleItem.productId ins
       = Some product →
     MemLedger.stockOf (MemStorage.addSaleItem st ins now).1
       (MemStorage.InsertSaleItem.productId ins)
     = Some (MemStorage.Product.stock product
             - MemStorage.InsertSaleItem.quantity ins))
  ∧ (∀ st ins now product,
       MemLedger.invariant st →
       MemStorage.productsMap st !! MemStorage.InsertReturnItem.productId ins
         = Some product →
       MemLedger.stockOf (MemStorage.addReturnItem st ins now).1
         (MemStorage.InsertReturnItem.productId ins)
       = Some (MemStorage.Product.stock product
               + MemStorage.InsertReturnItem.quantity ins))
  ∧ (∀ db saleId itemId item now stock,
       FirebaseLedger.stockOf db (Firebase.SaleItem.productId item)
         = Some stock →
       ∃ db',
         Firebase.addItemToSale saleId now db (itemId, item) = Some db'
         ∧ FirebaseLedger.stockOf db' (Firebase.SaleItem.productId item)
           = Some (stock - Firebase.SaleItem.quantity item))
  ∧ (∀ db returnId itemId item now stock,
       FirebaseLedger.stockOf db (Firebase.ReturnItem.productId item)
         = Some stock →
       ∃ db',
         Firebase.addItemToReturn returnId now db (itemId, item) = Some db'
         ∧ FirebaseLedger.stockOf db' (Firebase.ReturnItem.productId item)
           = Some (stock + Firebase.ReturnItem.quantity item))
  ∧ (∀ db newId data items now productId stock,
       FirebaseLedger.stockOf db productId = Some stock →
       ∃ db',
         Firebase.createSale db newId data items now = Some (db', newId)
         ∧ FirebaseLedger.stockOf db' productId
           = Some (stock - FirebaseLedger.quantityOf productId items))
  ∧ (∀ db newId data items now productId stock,
       FirebaseLedger.stockOf db productId = Some stock →
       ∃ db',
         Firebase.createReturn db newId data items now = Some (db', newId)
         ∧ FirebaseLedger.stockOf db' productId
           = Some (stock + FirebaseLedger.returnedQuantityOf productId items))
  ∧ (∃ st ins now stock,
       MemLedger.invariant st
       ∧ MemLedger.stockOf (MemStorage.addSaleItem st ins now).1
           (MemStorage.InsertSaleItem.productId ins) = Some stock
       ∧ stock < 0)
  ∧ (∃ db newId data items now db' productId stock,
       Firebase.createSale db newId data items now = Some (db', newId)
       ∧ FirebaseLedger.stockOf db' productId = Some stock
       ∧ stock < 0).
Proof.
  split; [exact MemStock.addSaleItem_stock|].
  split; [exact MemStock.addReturnItem_stock|].
  split; [|split; [|split; [|split; [|split]]]].
  - intros db saleId itemId item now stock Hstock.
    destruct (FirebaseStock.addItemToSale_spec saleId now db itemId item)
      as (products' & Hrun & Hst & _).
    eexists. split; [exact Hrun|].
    unfold FirebaseLedger.stockOf at 1. simpl.
    rewrite Hst, Hstock. simpl. by rewrite decide_True.
  - intros db returnId itemId item now stock Hstock.
    destruct (FirebaseStock.addItemToReturn_spec returnId now db itemId item)
      as (products' & Hrun & Hst & _).
    eexists. split; [exact Hrun|].
    unfold FirebaseLedger.stockOf at 1. simpl.
    rewrite Hst, Hstock. simpl. by rewrite decide_True.
  - intros db newId data items now productId stock Hstock.
    destruct (FirebaseSales.createSale_spec db newId data items now)
      as (db' & doc & Hrun & _ & _ & _ & Hst & _).
    exists db'. split; [exact Hrun|]. by rewrite Hst, Hstock.
  - intros db newId data items now productId stock Hstock.
    destruct (FirebaseSales.createReturn_spec db newId data items now)
      as (db' & Hrun & Hst & _).
    exists db'. split; [exact Hrun|]. by rewrite Hst, Hstock.
  - exists MemExample.st, MemExample.nineTins, MemExample.jan15, (-2).
    split; [apply (bool_decide_unpack _); vm_compute; exact I|].
    split; [reflexivity|lia].
  - destruct (FirebaseSales.createSale_spec FirebaseExample.db "s2"
                FirebaseExample.aSale [("i1", FirebaseExample.tins "p1" 9)]
                FirebaseExample.jan16)
      as (db' & doc & Hrun & _ & _ & _ & Hst & _).
    exists FirebaseExample.db, "s2", FirebaseExample.aSale,
      [("i1", FirebaseExample.tins "p1" 9)], FirebaseExample.jan16,
      db', "p1", (-2).
    split; [exact Hrun|]. split; [|lia].
    rewrite Hst. reflexivity.
Qed.

Lemma C4_witness :
  (MemLedger.invariant MemExample.st
   ∧ MemStorage.productsMap MemExample.st !! 1
     = Some (MemStorage.Product.mk 1 "Primer" construction "B-17" 10 7
               MemExample.jan15 MemExample.jan15)
   ∧ MemLedger.stockOf
       (MemStorage.addSaleItem MemExample.st MemExample.nineTins
          MemExample.jan15).1 1 = Some (7 - 9)
   ∧ MemLedger.stockOf
       (MemStorage.addReturnItem MemExample.st MemExample.twoBack
          MemExample.jan15).1 1 = Some (7 + 2))
  ∧ (FirebaseLedger.stockOf FirebaseExample.db "p1" = Some 7
     ∧ ∃ db',
         Firebase.addItemToSale "s1" FirebaseExample.jan16 FirebaseExample.db
           ("i2", FirebaseExample.tins "p1" 9) = Some db'
         ∧ FirebaseLedger.stockOf db' "p1" = Some (7 - 9)).
Proof.
  assert (MemLedger.invariant MemExample.st) as Hinv.
  { apply (bool_decide_unpack _). vm_compute. exact I. }
  split.
  - split; [exact Hinv|]. split; [reflexivity|]. split.
    + exact (proj1 C4_stock_follows_line_items MemExample.st
               MemExample.nineTins MemExample.jan15 _ Hinv eq_refl).
    + exact (proj1 (proj2 C4_stock_follows_line_items) MemExample.st
               MemExample.twoBack MemExample.jan15 _ Hinv eq_refl).
  - split; [reflexivity|].
    exact (proj1 (proj2 (proj2 C4_stock_follows_line_items))
             FirebaseExample.db "s1" "i2" (FirebaseExample.tins "p1" 9)
             FirebaseExample.jan16 7 eq_refl).
Defined.

(** C5. [updateSale] on a sale that exists, with a list of replacement
    items: first every old item gives its quantity back to the stock of its
    product and is deleted (after this phase the sale has no items and every
    product holds its old stock plus the quantities of the old items), then
    every new item is added and takes its quantity from the stock of its
    product.  Hence the stock of every product that exists changes, over the
    whole call, by the quantities of the old items for that product minus
    the quantities of the new items for it, and the items of the sale are
    the new items. *)
Theorem C5_updateSale_replaces_items :
  ∀ db id data items now sale,
    Firebase.sales db !! id = Some sale →
    let old := Firebase.getDocs (Firebase.saleItemsOf db id) in
    (∃ db',
       Firebase.updateSale db id data (Some items) now = Some db'
       ∧ Firebase.saleItemsOf db' id = list_to_map (reverse items)
       ∧ ∀ productId stock,
           FirebaseLedger.stockOf db productId = Some stock →
           FirebaseLedger.stockOf db' productId
           = Some (stock + FirebaseLedger.quantityOf productId old
                   - FirebaseLedger.quantityOf productId items))
    ∧ (∃ reverted replaced,
         Firebase.forEach (Firebase.removeItemFromSale id now) db old
           = Some reverted
         ∧ Firebase.saleItemsOf reverted id = ∅
         ∧ (∀ productId stock,
              FirebaseLedger.stockOf db productId = Some stock →
              FirebaseLedger.stockOf reverted productId
              = Some (stock + FirebaseLedger.quantityOf productId old))
         ∧ Firebase.forEach (Firebase.addItemToSale id now) reverted items
           = Some replaced
         ∧ Firebase.replaceItems db id items now = Some replaced
         ∧ Firebase.saleItemsOf replaced id = list_to_map (reverse items)
         ∧ (∀ productId stock,
              FirebaseLedger.stockOf reverted productId = Some stock →
              FirebaseLedger.stockOf replaced productId
              = Some (stock - FirebaseLedger.quantityOf productId items))).
Proof.
  intros db id data items now sale Hsale old. split.
  - destruct (FirebaseSales.updateSale_items db id data items now sale Hsale)
      as (db' & Hrun & Hstock & Hitems & _).
    exists db'. split; [exact Hrun|]. split; [exact Hitems|].
    intros productId stock Hs. by rewrite Hstock, Hs.
  - destruct (FirebaseSales.replaceItems_phases db id items now)
      as (reverted & replaced & Hrun1 & Hstock1 & Hempty & Hrun2 & Hstock2
          & Hitems & Hrun & _).
    { by eexists. }
    exists reverted, replaced.
    split; [exact Hrun1|]. split; [exact Hempty|].
    split; [intros productId stock Hs; by rewrite Hstock1, Hs|].
    split; [exact Hrun2|]. split; [exact Hrun|]. split; [exact Hitems|].
    intros productId stock Hs. by rewrite Hstock2, Hs.
Qed.

Lemma C5_witness :
  Firebase.sales FirebaseExample.db !! "s1"
  = Some (Firebase.Sale.mk "INV-202401-0001" "c1" FirebaseExample.jan15
            30 0 30 cash partially_paid "" "u1" FirebaseExample.jan15
            FirebaseExample.jan15)
  ∧ ∃ db',
      Firebase.updateSale FirebaseExample.db "s1"
        (Firebase.paymentStatus_only pending)
        (Some [("i2", FirebaseExample.tins "p1" 5)]) FirebaseExample.jan16
      = Some db'
      ∧ Firebase.saleItemsOf db' "s1"
        = {[ "i2" := FirebaseExample.tins "p1" 5 ]}
      ∧ FirebaseLedger.stockOf db' "p1" = Some (7 + 3 - 5).
Proof.
  split; [reflexivity|].
  destruct (proj1 (C5_updateSale_replaces_items FirebaseExample.db "s1"
                     (Firebase.paymentStatus_only pending)
                     [("i2", FirebaseExample.tins "p1" 5)]
                     FirebaseExample.jan16 _ eq_refl))
    as (db' & Hrun & Hitems & Hstock).
  exists db'. split; [exact Hrun|]. split.
  - rewrite Hitems. reflexivity.
  - rewrite (Hstock "p1" 7 eq_refl). reflexivity.
Defined.

(** C8. A sale line item whose [productId] matches no product is accepted:
    the item is recorded under its sale, the call completes, and the stock
    of every product is what it was. *)
Theorem C8_line_item_for_unknown_product :
  (∀ st ins now,
     MemStorage.productsMap st !! MemStorage.InsertSaleItem.productId ins
       = None →
     let r := MemStorage.addSaleItem st ins now in
     MemStorage.getSaleItems r.1 (MemStorage.InsertSaleItem.saleId ins)
     = MemStorage.getSaleItems st (MemStorage.InsertSaleItem.saleId ins)
         ++ [r.2]
     ∧ MemStorage.SaleItem.saleId r.2 = MemStorage.InsertSaleItem.saleId ins
     ∧ MemStorage.SaleItem.productId r.2
       = MemStorage.InsertSaleItem.productId ins
     ∧ MemStorage.SaleItem.quantity r.2
       = MemStorage.InsertSaleItem.quantity ins
     ∧ MemStorage.productsMap r.1 = MemStorage.productsMap st)
  ∧ (∀ db saleId itemId item now,
       Firebase.products db !! Firebase.SaleItem.productId item = None →
       ∃ db',
         Firebase.addItemToSale saleId now db (itemId, item) = Some db'
         ∧ Firebase.saleItemsOf db' saleId !! itemId = Some item
         ∧ Firebase.products db' = Firebase.products db)
  ∧ (∀ db newId data items now,
       Forall (λ it, Firebase.products db !! Firebase.SaleItem.productId it.2
                     = None) items →
       ∃ db',
         Firebase.createSale db newId data items now = Some (db', newId)
         ∧ Firebase.saleItemsOf db' newId
           = list_to_map (reverse items) ∪ Firebase.saleItemsOf db newId
         ∧ Firebase.products db' = Firebase.products db).
Proof.
  split; [|split].
  - intros st ins now Hp r. subst r.
    split; [apply MemStock.addSaleItem_recorded|].
    rewrite MemStock.addSaleItem_result. simpl.
    repeat split. by rewrite Hp.
  - intros db saleId itemId item now Hp.
    destruct (FirebaseStock.addItemToSale_spec saleId now db itemId item)
      as (products' & Hrun & _ & Hnone).
    eexists. split; [exact Hrun|]. split.
    + unfold Firebase.saleItemsOf at 1. simpl.
      rewrite lookup_insert_eq. simpl. apply lookup_insert_eq.
    + simpl. by apply Hnone.
  - intros db newId data items now Hall.
    destruct (FirebaseSales.createSale_spec db newId data items now)
      as (db' & doc & Hrun & _ & _ & _ & _ & Hitems & Hnone).
    exists db'. split; [exact Hrun|]. split; [exact Hitems|].
    by apply Hnone.
Qed.

Lemma C8_witness :
  (MemStorage.productsMap MemExample.st !! 42 = None
   ∧ MemStorage.getSaleItems
       (MemStorage.addSaleItem MemExample.st MemExample.unknownTins
          MemExample.jan15).1 1
     = [MemStorage.SaleItem.mk 1 1 1 3 10 30;
        MemStorage.SaleItem.mk 2 1 42 2 10 20]
   ∧ MemStorage.productsMap
       (MemStorage.addSaleItem MemExample.st MemExample.unknownTins
          MemExample.jan15).1
     = MemStorage.productsMap MemExample.st)
  ∧ (Firebase.products FirebaseExample.db !! "p9" = None
     ∧ ∃ db',
         Firebase.addItemToSale "s1" FirebaseExample.jan16 FirebaseExample.db
           ("i2", FirebaseExample.tins "p9" 2) = Some db'
         ∧ Firebase.saleItemsOf db' "s1" !! "i2"
           = Some (FirebaseExample.tins "p9" 2)
         ∧ Firebase.products db' = Firebase.products FirebaseExample.db).
Proof.
  split.
  - split; [reflexivity|].
    destruct (proj1 C8_line_item_for_unknown_product MemExample.st
                MemExample.unknownTins MemExample.jan15 eq_refl)
      as (Hitems & _ & _ & _ & Hproducts).
    split; [|exact Hproducts].
    etrans; [exact Hitems|]. reflexivity.
  - split; [reflexivity|].
    exact (proj1 (proj2 C8_line_item_for_unknown_product)
             FirebaseExample.db "s1" "i2" (FirebaseExample.tins "p9" 2)
             FirebaseExample.jan16 eq_refl).
Defined.

(** ** Document numbers: printing and parsing *)

Module JsFacts.

Lemma append_String c (s1 s2 : string) :
  String c s1 +:+ s2 = String c (s1 +:+ s2).
Proof. reflexivity. Qed.

Lemma append_empty (s : string) : EmptyString +:+ s = s.
Proof. reflexivity. Qed.

Lemma length_append (s1 s2 : string) :
  String.length (s1 +:+ s2) = (String.length s1 + String.length s2)%nat.
Proof.
  induction s1 as [|c s1 IH]; [done|].
  rewrite append_String. simpl. by rewrite IH.
Qed.

Lemma append_assoc (s1 s2 s3 : string) :
  (s1 +:+ s2) +:+ s3 = s1 +:+ (s2 +:+ s3).
Proof.
  induction s1 as [|c s1 IH]; [done|].
  rewrite !append_String. by rewrite IH.
Qed.

Lemma length_repeat c n : String.length (Js.repeat c n) = n.
Proof. induction n as [|n IH]; simpl; [done|]. by rewrite IH. Qed.

Lemma length_padStart s n c :
  String.length (Js.padStart s n c) = Nat.max n (String.length s).
Proof. unfold Js.padStart. rewrite length_append, length_repeat. lia. Qed.

Lemma only_digits_append s1 s2 :
  only_digits (s1 +:+ s2) = only_digits s1 && only_digits s2.
Proof.
  induction s1 as [|c s1 IH]; [done|].
  rewrite append_String. simpl. rewrite IH. by rewrite andb_assoc.
Qed.

Lemma only_digits_repeat_0 n : only_digits (Js.repeat "0"%char n) = true.
Proof. induction n as [|n IH]; simpl; [done|exact IH]. Qed.

Lemma only_digits_string_of_uint d :
  only_digits (NilEmpty.string_of_uint d) = true.
Proof. induction d; simpl; done. Qed.

Lemma only_digits_String_ n : 0 ≤ n → only_digits (Js.String_ n) = true.
Proof.
  intros Hn. unfold Js.String_. destruct n as [|p|p]; [done| |lia].
  apply only_digits_string_of_uint.
Qed.

(** The digits that end a string. *)
Lemma length_trailing_digits s :
  (String.length (Js.trailing_digits s) ≤ String.length s)%nat.
Proof.
  induction s as [|c s IH]; simpl; [done|].
  destruct (_ && _); simpl; lia.
Qed.

Lemma trailing_digits_only_digits s :
  only_digits s = true → Js.trailing_digits s = s.
Proof.
  induction s as [|c s IH]; simpl; [done|].
  intros [Hc Hs]%andb_true_iff. rewrite (IH Hs), Hc.
  by rewrite Nat.eqb_refl.
Qed.

Lemma trailing_digits_after_dash prefix digits :
  only_digits digits = true →
  Js.trailing_digits (prefix +:+ String "-" digits) = digits.
Proof.
  intros Hd. induction prefix as [|c prefix IH].
  - rewrite append_empty. simpl.
    rewrite (trailing_digits_only_digits _ Hd). by rewrite andb_false_r.
  - rewrite append_String. simpl. rewrite IH.
    replace (String.length digits
             =? String.length (prefix +:+ String "-" digits))%nat
      with false; [done|].
    symmetry. apply Nat.eqb_neq. rewrite length_append. simpl. lia.
Qed.

(** Parsing what was printed, zeros in front or not. *)
Lemma parseInt_String_0 s : Js.parseInt (String "0" s) = Js.parseInt s.
Proof.
  unfold Js.parseInt. simpl.
  by destruct (NilEmpty.uint_of_string s).
Qed.

Lemma parseInt_repeat_0 n s :
  Js.parseInt (Js.repeat "0"%char n +:+ s) = Js.parseInt s.
Proof.
  induction n as [|n IH]; [done|].
  simpl Js.repeat. by rewrite append_String, parseInt_String_0.
Qed.

Lemma parseInt_String_ n : 0 ≤ n → Js.parseInt (Js.String_ n) = n.
Proof.
  intros Hn. unfold Js.String_, Js.parseInt.
  destruct n as [|p|p]; [done| |lia]. simpl.
  rewrite NilEmpty.usu. unfold Z.of_uint.
  by rewrite DecimalPos.Unsigned.of_to.
Qed.

Lemma parseInt_padStart n k :
  0 ≤ n → Js.parseInt (Js.padStart (Js.String_ n) k "0"%char) = n.
Proof.
  intros Hn. unfold Js.padStart.
  by rewrite parseInt_repeat_0, parseInt_String_.
Qed.

Lemma only_digits_padStart n k :
  0 ≤ n → only_digits (Js.padStart (Js.String_ n) k "0"%char) = true.
Proof.
  intros Hn. unfold Js.padStart.
  by rewrite only_digits_append, only_digits_repeat_0, only_digits_String_.
Qed.

(** Numbers up to 9999 print with at most four digits. *)
Lemma length_String_9999 n :
  0 ≤ n ≤ 9999 → (String.length (Js.String_ n) ≤ 4)%nat.
Proof.
  intros Hn.
  assert (forallb (λ k, String.length (Js.String_ (Z.of_nat k)) <=? 4)%nat
                  (seq 0 (Z.to_nat 10000)) = true) as Hall
    by (vm_compute; reflexivity).
  rewrite forallb_forall in Hall.
  specialize (Hall (Z.to_nat n)).
  rewrite Z2Nat.id in Hall by lia.
  apply Nat.leb_le, Hall, in_seq. lia.
Qed.

(** The number at the end of a document number is the sequence number it
    was built from. *)
Lemma documentNumber_shape prefix now n :
  documentNumber prefix now n
  = (prefix +:+ "-" +:+ Js.String_ (getFullYear now)
       +:+ Js.padStart (Js.String_ (getMonth now + 1)) 2 "0"%char)
    +:+ String "-" (Js.padStart (Js.String_ n) 4 "0"%char).
Proof.
  unfold documentNumber. by rewrite !append_assoc.
Qed.

Lemma trailing_digits_documentNumber prefix now n :
  0 ≤ n →
  Js.trailing_digits (documentNumber prefix now n)
  = Js.padStart (Js.String_ n) 4 "0"%char.
Proof.
  intros Hn. rewrite documentNumber_shape.
  apply trailing_digits_after_dash. by apply only_digits_padStart.
Qed.

Lemma numericSuffix_documentNumber prefix now n :
  0 ≤ n → numericSuffix (documentNumber prefix now n) = n.
Proof.
  intros Hn. unfold numericSuffix.
  rewrite trailing_digits_documentNumber by done.
  by apply parseInt_padStart.
Qed.

Lemma parseInt_nonneg s : 0 ≤ Js.parseInt s.
Proof.
  unfold Js.parseInt. destruct (NilEmpty.uint_of_string s); [|done].
  unfold Z.of_uint. lia.
Qed.

End JsFacts.

(** ** Invoice numbering in the in-process store *)

Module MemNumbering.
Import MemStorage MemLedger.

Lemma createSale_invoiceNumber st ins now :
  Sale.invoiceNumber (createSale st ins now).2
  = documentNumber "INV" now (saleIdCounter st).
Proof. reflexivity. Qed.

Lemma createSale_saleIdCounter st ins now :
  saleIdCounter (createSale st ins now).1 = saleIdCounter st + 1.
Proof. reflexivity. Qed.

Lemma createSales_cons st ins now calls :
  createSales st ((ins, now) :: calls)
  = ((createSales (createSale st ins now).1 calls).1,
     (createSale st ins now).2
       :: (createSales (createSale st ins now).1 calls).2).
Proof.
  cbn [createSales]. destruct (createSale st ins now) as [st1 sale].
  cbn [fst snd]. by destruct (createSales st1 calls).
Qed.

Lemma createSales_saleIdCounter calls : ∀ st,
  saleIdCounter (createSales st calls).1
  = saleIdCounter st + Z.of_nat (List.length calls).
Proof.
  induction calls as [|[ins now] calls IH]; intros st.
  - simpl. lia.
  - rewrite createSales_cons. cbn [fst]. rewrite IH, createSale_saleIdCounter.
    cbn [List.length]. lia.
Qed.

Lemma createSales_length calls : ∀ st,
  List.length (createSales st calls).2 = List.length calls.
Proof.
  induction calls as [|[ins now] calls IH]; intros st; [done|].
  rewrite createSales_cons. cbn [snd List.length]. by rewrite IH.
Qed.

(** The [i]-th sale of a run of [createSale] carries the counter of the
    store plus [i]. *)
Lemma createSales_lookup calls : ∀ st (i : nat) call,
  calls !! i = Some call →
  ∃ sale,
    (createSales st calls).2 !! i = Some sale
    ∧ Sale.invoiceNumber sale
      = documentNumber "INV" call.2 (saleIdCounter st + Z.of_nat i).
Proof.
  induction calls as [|[ins now] calls IH]; intros st i call Hi; [done|].
  rewrite createSales_cons. cbn [snd].
  destruct i as [|i]; cbn [lookup list_lookup] in Hi |- *.
  - injection Hi as <-. eexists. split; [reflexivity|].
    rewrite createSale_invoiceNumber. cbn [snd]. f_equal. lia.
  - destruct (IH (createSale st ins now).1 i call Hi) as (sale & Hsale & Hnum).
    exists sale. split; [exact Hsale|].
    rewrite Hnum, createSale_saleIdCounter. f_equal. lia.
Qed.

Lemma createSales_lookup_inv calls : ∀ st (i : nat) sale,
  (createSales st calls).2 !! i = Some sale →
  ∃ call,
    calls !! i = Some call
    ∧ Sale.invoiceNumber sale
      = documentNumber "INV" call.2 (saleIdCounter st + Z.of_nat i).
Proof.
  induction calls as [|[ins now] calls IH]; intros st i sale Hi; [done|].
  rewrite createSales_cons in Hi. cbn [snd] in Hi.
  destruct i as [|i]; cbn [lookup list_lookup] in Hi |- *.
  - injection Hi as <-. eexists. split; [reflexivity|].
    cbn [snd Sale.invoiceNumber]. f_equal. lia.
  - destruct (IH (createSale st ins now).1 i sale Hi) as (call & Hcall & Hnum).
    exists call. split; [exact Hcall|].
    rewrite Hnum, createSale_saleIdCounter. f_equal. lia.
Qed.

End MemNumbering.

(** ** Invoice numbering in the document-database client *)

Module FirebaseNumbering.
Import Firebase FirebaseLedger.

Lemma ltb_irrefl (s : string) : String.ltb s s = false.
Proof.
  unfold String.ltb.
  assert ((s ?= s)%string = Eq) as ->; [|done].
  induction s as [|c s IH]; simpl; [done|].
  unfold Ascii.compare. by rewrite N.compare_refl.
Qed.

Lemma firstDesc_older {A} (createdAt : A → Date) (T : Z)
    (l : list (string * A)) :
  Forall (λ x, getTime (createdAt x.2) < T) l →
  from_option (λ y, getTime (createdAt y.2) < T) True (firstDesc createdAt l).
Proof.
  induction 1 as [|x l Hx _ IH]; simpl; [done|].
  destruct (firstDesc createdAt l) as [y|]; simpl in *; [|done].
  by destruct (before_desc createdAt y x).
Qed.

(** The first document is at least as late as every document. *)
Lemma firstDesc_latest {A} (createdAt : A → Date) (x : string * A)
    (l : list (string * A)) :
  x ∈ l →
  ∃ z, firstDesc createdAt l = Some z
       ∧ getTime (createdAt x.2) ≤ getTime (createdAt z.2).
Proof.
  induction l as [|y l IH]; intros Hin; [by apply elem_of_nil in Hin|].
  simpl. apply elem_of_cons in Hin as [->|Hin].
  - destruct (firstDesc createdAt l) as [z|]; [|eexists; split; [done|lia]].
    unfold before_desc.
    destruct (Z.ltb_spec (getTime (createdAt y.2)) (getTime (createdAt z.2)));
      simpl; [eexists; split; [done|lia]|].
    destruct (Z.eqb_spec (getTime (createdAt z.2)) (getTime (createdAt y.2)));
      simpl; [|eexists; split; [done|lia]].
    destruct (String.ltb y.1 z.1); eexists; (split; [done|lia]).
  - destruct (IH Hin) as (z & -> & Hz).
    unfold before_desc.
    destruct (Z.ltb_spec (getTime (createdAt y.2)) (getTime (createdAt z.2)));
      simpl; [eexists; split; [done|lia]|].
    destruct (Z.eqb_spec (getTime (createdAt z.2)) (getTime (createdAt y.2)));
      simpl; [|eexists; split; [done|lia]].
    destruct (String.ltb y.1 z.1); eexists; (split; [done|lia]).
Qed.

(** A document that is later than all the others comes first. *)
Lemma firstDesc_newest {A} (createdAt : A → Date) (x : string * A)
    (l : list (string * A)) :
  x ∈ l →
  Forall (λ y, y = x ∨ getTime (createdAt y.2) < getTime (createdAt x.2)) l →
  firstDesc createdAt l = Some x.
Proof.
  intros Hin Hall.
  assert (firstDesc createdAt l = Some x
          ∨ from_option
              (λ z, getTime (createdAt z.2) < getTime (createdAt x.2)) True
              (firstDesc createdAt l)) as [Hx|Hold]; [|exact Hx|].
  { clear Hin. induction Hall as [|y l Hy _ IH]; simpl; [by right|].
    unfold before_desc.
    destruct IH as [->|Hold].
    - left. destruct Hy as [->|Hy].
      + by rewrite Z.ltb_irrefl, Z.eqb_refl, ltb_irrefl.
      + apply Z.ltb_lt in Hy. by rewrite Hy.
    - destruct (firstDesc createdAt l) as [z|]; simpl in Hold.
      + destruct Hy as [->|Hy].
        * left.
          replace (getTime (createdAt x.2) <? getTime (createdAt z.2))
            with false by (symmetry; apply Z.ltb_ge; lia).
          replace (getTime (createdAt z.2) =? getTime (createdAt x.2))
            with false by (symmetry; apply Z.eqb_neq; lia).
          done.
        * right. by destruct (_ || _).
      + destruct Hy as [->|Hy]; [by left|by right]. }
  destruct (firstDesc_latest createdAt x l Hin) as (z & Hz & Hle).
  rewrite Hz in Hold. simpl in Hold. lia.
Qed.

(** After a document later than all the stored ones has been added, it is
    the latest document. *)
Lemma latestDoc_insert {A} (createdAt : A → Date) (c : gmap string A) id doc :
  map_Forall (λ _ d, getTime (createdAt d) < getTime (createdAt doc)) c →
  latestDoc createdAt (<[id := doc]> c) = Some (id, doc).
Proof.
  intros Hall. unfold latestDoc.
  apply firstDesc_newest.
  - apply FirebaseFacts.elem_of_getDocs, lookup_insert_eq.
  - apply Forall_forall. intros [k d] Hkd.
    apply FirebaseFacts.elem_of_getDocs in Hkd.
    destruct (decide (k = id)) as [->|Hne].
    + rewrite lookup_insert_eq in Hkd. left. congruence.
    + rewrite lookup_insert_ne in Hkd by done. right. simpl.
      exact (Hall k d Hkd).
Qed.

Lemma lastNumberOf_numericSuffix s : lastNumberOf s = numericSuffix s.
Proof.
  unfold lastNumberOf, numericSuffix, Js.match_digits_at_end.
  by destruct (Js.trailing_digits s).
Qed.

Lemma lastInvoiceNumber_nonneg db : 0 ≤ lastInvoiceNumber db.
Proof.
  unfold lastInvoiceNumber.
  destruct (latestDoc Sale.createdAt (sales db)) as [doc|]; [|done].
  rewrite lastNumberOf_numericSuffix. apply JsFacts.parseInt_nonneg.
Qed.

(** A call of [createSale] stamped later than every stored sale: the sale
    gets the next number, and becomes the latest sale. *)
Lemma createSale_next db call :
  later_than_stored db call →
  ∃ db',
    createSale db (newId call) (data call) (items call) (now call)
    = Some (db', newId call)
    ∧ from_option Sale.invoiceNumber EmptyString (sales db' !! newId call)
      = documentNumber "INV" (now call) (lastInvoiceNumber db + 1)
    ∧ lastInvoiceNumber db' = lastInvoiceNumber db + 1
    ∧ ∀ call', earlier call call' → later_than_stored db call' →
               later_than_stored db' call'.
Proof.
  intros Hlater.
  destruct (FirebaseSales.createSale_spec db (newId call) (data call)
              (items call) (now call))
    as (db' & doc & Hrun & Hsales & Hnum & Hat & _).
  exists db'. split; [exact Hrun|].
  pose proof (lastInvoiceNumber_nonneg db) as Hnonneg.
  split; [|split].
  - rewrite Hsales, lookup_insert_eq. exact Hnum.
  - unfold lastInvoiceNumber at 1. rewrite Hsales.
    rewrite latestDoc_insert.
    + simpl. rewrite Hnum, lastNumberOf_numericSuffix.
      apply JsFacts.numericSuffix_documentNumber. lia.
    + rewrite Hat. exact Hlater.
  - intros call' Hearlier Hlater'. unfold later_than_stored.
    rewrite Hsales. apply map_Forall_insert_2; [|exact Hlater'].
    rewrite Hat. exact Hearlier.
Qed.

(** Consecutive calls under a clock that moves forward number the sales
    consecutively. *)
Lemma createSales_numbers calls : ∀ db,
  clock_moves_forward db calls →
  ∃ db' numbers,
    createSales db calls = Some (db', numbers)
    ∧ numbers
      = imap (λ i call,
                documentNumber "INV" (now call)
                  (lastInvoiceNumber db + 1 + Z.of_nat i)) calls.
Proof.
  induction calls as [|call calls IH]; intros db [Hstored Hsorted].
  - by eexists _, _.
  - apply Forall_cons in Hstored as [Hcall Hstored].
    apply StronglySorted_inv in Hsorted as [Hsorted Hearlier].
    destruct (createSale_next db call Hcall)
      as (db1 & Hrun & Hnum & Hlast & Hkeep).
    destruct (IH db1) as (db' & numbers & Hrest & Hnumbers).
    { split; [|exact Hsorted].
      apply Forall_forall. intros call' Hin.
      rewrite Forall_forall in Hstored, Hearlier.
      apply Hkeep; [by apply Hearlier|by apply Hstored]. }
    cbn [createSales]. rewrite Hrun. simpl. rewrite Hrest. simpl.
    eexists _, _. split; [reflexivity|].
    rewrite Hnum, Hnumbers. f_equal.
    + f_equal. lia.
    + apply imap_ext. intros i c _. simpl. rewrite Hlast. f_equal. lia.
Qed.

End FirebaseNumbering.

(** ** Invoice numbers *)

(** C3, as amended.  An invoice number has the form [INV-YYYYMM-NNNN]:
    [YYYY] and [MM] are the year and the month of the creation time stamp
    and [NNNN] is the sequence number in decimal, padded with zeros to at
    least four digits (exactly four while the sequence number is at most
    9999).  In the in-process store the sequence numbers of consecutive
    [createSale] calls are the consecutive values of the sale counter, so
    the numeric suffixes are strictly increasing in creation order.  In the
    document-database client the same holds, every number being one more
    than the one before, provided each call is stamped later than the calls
    before it and than every sale already stored. *)
Theorem C3_invoice_numbers :
  (∀ now n,
     0 ≤ n →
     let suffix := Js.padStart (Js.String_ n) 4 "0"%char in
     documentNumber "INV" now n
     = "INV-" +:+ Js.String_ (getFullYear now)
         +:+ Js.padStart (Js.String_ (getMonth now + 1)) 2 "0"%char
         +:+ "-" +:+ suffix
     ∧ only_digits suffix = true
     ∧ (4 ≤ String.length suffix)%nat
     ∧ (n ≤ 9999 → INV_YYYYMM_NNNN now (documentNumber "INV" now n))
     ∧ numericSuffix (documentNumber "INV" now n) = n)
  ∧ (∀ st calls,
       MemLedger.invariant st →
       let sales := (MemLedger.createSales st calls).2 in
       List.length sales = List.length calls
       ∧ (∀ (i : nat) call,
          calls !! i = Some call →
          ∃ sale,
            sales !! i = Some sale
            ∧ MemStorage.Sale.invoiceNumber sale
              = documentNumber "INV" call.2
                  (MemStorage.saleIdCounter st + Z.of_nat i))
       ∧ (∀ (i j : nat) si sj,
            (i < j)%nat →
            sales !! i = Some si →
            sales !! j = Some sj →
            numericSuffix (MemStorage.Sale.invoiceNumber si)
            < numericSuffix (MemStorage.Sale.invoiceNumber sj)))
  ∧ (∀ db calls,
       FirebaseLedger.clock_moves_forward db calls →
       ∃ db' numbers,
         FirebaseLedger.createSales db calls = Some (db', numbers)
         ∧ List.length numbers = List.length calls
         ∧ (∀ (i : nat) call,
              calls !! i = Some call →
              numbers !! i
              = Some (documentNumber "INV" (FirebaseLedger.now call)
                        (Firebase.lastInvoiceNumber db + 1 + Z.of_nat i)))
         ∧ (∀ (i j : nat) ni nj,
              (i < j)%nat →
              numbers !! i = Some ni →
              numbers !! j = Some nj →
              numericSuffix ni < numericSuffix nj)).
Proof.
  split; [|split].
  - intros now n Hn suffix.
    assert (only_digits suffix = true) as Hdigits
      by (by apply JsFacts.only_digits_padStart).
    assert (String.length suffix = Nat.max 4 (String.length (Js.String_ n)))
      as Hlen by apply JsFacts.length_padStart.
    split; [reflexivity|]. split; [exact Hdigits|]. split; [lia|].
    split; [|by apply JsFacts.numericSuffix_documentNumber].
    intros Hle. exists suffix. split; [reflexivity|]. split; [|exact Hdigits].
    pose proof (JsFacts.length_String_9999 n (conj Hn Hle)). lia.
  - intros st calls Hinv sales.
    pose proof (MemLedger.saleIdCounter_pos _ Hinv) as Hpos.
    split; [apply MemNumbering.createSales_length|]. split.
    + intros i call Hi. by apply MemNumbering.createSales_lookup.
    + intros i j si sj Hij Hsi Hsj.
      apply MemNumbering.createSales_lookup_inv in Hsi as (ci & _ & ->).
      apply MemNumbering.createSales_lookup_inv in Hsj as (cj & _ & ->).
      rewrite !JsFacts.numericSuffix_documentNumber by lia. lia.
  - intros db calls Hclock.
    destruct (FirebaseNumbering.createSales_numbers calls db Hclock)
      as (db' & numbers & Hrun & ->).
    pose proof (FirebaseNumbering.lastInvoiceNumber_nonneg db) as Hpos.
    eexists _, _. split; [exact Hrun|].
    split; [apply length_imap|]. split.
    + intros i call Hi. by rewrite list_lookup_imap, Hi.
    + intros i j ni nj Hij Hni Hnj.
      apply list_lookup_imap_Some in Hni as (ci & _ & ->).
      apply list_lookup_imap_Some in Hnj as (cj & _ & ->).
      rewrite !JsFacts.numericSuffix_documentNumber by lia. lia.
Qed.

Lemma C3_witness :
  (MemLedger.invariant MemExample.st
   ∧ ∃ s1 s2,
       (MemLedger.createSales MemExample.st
          [(MemExample.aSale, MemExample.jan15);
           (MemExample.aSale, MemExample.jan15)]).2 = [s1; s2]
       ∧ MemStorage.Sale.invoiceNumber s1 = "INV-202401-0002"
       ∧ MemStorage.Sale.invoiceNumber s2 = "INV-202401-0003"
       ∧ numericSuffix (MemStorage.Sale.invoiceNumber s1)
         < numericSuffix (MemStorage.Sale.invoiceNumber s2))
  ∧ (FirebaseLedger.clock_moves_forward FirebaseExample.db
       [FirebaseExample.call "s2" FirebaseExample.jan16;
        FirebaseExample.call "s3" FirebaseExample.jan17]
     ∧ ∃ db',
         FirebaseLedger.createSales FirebaseExample.db
           [FirebaseExample.call "s2" FirebaseExample.jan16;
            FirebaseExample.call "s3" FirebaseExample.jan17]
         = Some (db', ["INV-202401-0002"; "INV-202401-0003"])).
Proof.
  assert (MemLedger.invariant MemExample.st) as Hinv.
  { apply (bool_decide_unpack _). vm_compute. exact I. }
  assert (FirebaseLedger.clock_moves_forward FirebaseExample.db
            [FirebaseExample.call "s2" FirebaseExample.jan16;
             FirebaseExample.call "s3" FirebaseExample.jan17]) as Hclock.
  { split.
    - repeat constructor; apply (bool_decide_unpack _); vm_compute; exact I.
    - repeat constructor. }
  split.
  - split; [exact Hinv|].
    destruct (proj1 (proj2 C3_invoice_numbers) MemExample.st
                [(MemExample.aSale, MemExample.jan15);
                 (MemExample.aSale, MemExample.jan15)] Hinv)
      as (_ & Hform & Hincr).
    eexists _, _. split; [reflexivity|].
    split; [reflexivity|]. split; [reflexivity|].
    exact (Hincr 0%nat 1%nat _ _ (Nat.lt_0_1) eq_refl eq_refl).
  - split; [exact Hclock|].
    destruct (proj2 (proj2 C3_invoice_numbers) FirebaseExample.db _ Hclock)
      as (db' & numbers & Hrun & Hlen & Hform & _).
    exists db'. rewrite Hrun. do 2 f_equal.
    pose proof (Hform 0%nat _ eq_refl) as H0.
    pose proof (Hform 1%nat _ eq_refl) as H1.
    destruct numbers as [|n0 [|n1 [|n2 numbers]]]; try discriminate Hlen.
    injection H0 as ->. injection H1 as ->. reflexivity.
Defined.

(** C3 as it is written fails in two ways.  The ten-thousandth sale of the
    in-process store gets a suffix of five digits, not four.  And in the
    document-database client three sales created one after the other while
    the clock runs backwards get the numbers 1, 2 and 2. *)
Lemma C3_counterexample :
  (∃ sale,
     (MemLedger.createSales MemStorage.constructor
        (replicate (Z.to_nat 10000) (MemExample.aSale, MemExample.jan15))).2
       !! Z.to_nat 9999 = Some sale
     ∧ MemStorage.Sale.invoiceNumber sale = "INV-202401-10000"
     ∧ ¬ INV_YYYYMM_NNNN MemExample.jan15 (MemStorage.Sale.invoiceNumber sale))
  ∧ (∃ db',
       FirebaseLedger.createSales FirebaseExample.empty
         [FirebaseExample.call "s1" FirebaseExample.jan17;
          FirebaseExample.call "s2" FirebaseExample.jan16;
          FirebaseExample.call "s3" FirebaseExample.jan15]
       = Some (db', ["INV-202401-0001"; "INV-202401-0002";
                     "INV-202401-0002"])).
Proof.
  split.
  - destruct (MemNumbering.createSales_lookup
                (replicate (Z.to_nat 10000)
                   (MemExample.aSale, MemExample.jan15))
                MemStorage.constructor (Z.to_nat 9999)
                (MemExample.aSale, MemExample.jan15))
      as (sale & Hsale & Hnum).
    { apply lookup_replicate_2. lia. }
    exists sale. split; [exact Hsale|].
    assert (MemStorage.Sale.invoiceNumber sale = "INV-202401-10000") as Heq.
    { rewrite Hnum. vm_compute. reflexivity. }
    split; [exact Heq|]. rewrite Heq.
    intros (nnnn & Hform & Hlen & _).
    vm_compute in Hform. injection Hform as <-. discriminate Hlen.
  - eexists. vm_compute. reflexivity.
Qed.

(** * Stores reachable from a new instance *)

Module MemReachFacts.
Import MemStorage MemLedger MemReach.

Lemma keyed_lookup {A} (id : A → Z) n (m : gmap Z A) k a :
  keyed id n m → m !! k = Some a → id a = k ∧ 1 ≤ k < n.
Proof. intros Hm Hk. exact (Hm k a Hk). Qed.

Lemma keyed_counter_free {A} (id : A → Z) n (m : gmap Z A) k :
  keyed id n m → n ≤ k → m !! k = None.
Proof.
  intros Hm Hk. destruct (m !! k) as [a|] eqn:Ha; [|done].
  destruct (Hm k a Ha). lia.
Qed.

Lemma keyed_fresh {A} (id : A → Z) n (m : gmap Z A) a :
  1 ≤ n → id a = n → keyed id n m → keyed id (n + 1) (<[n := a]> m).
Proof.
  intros Hn Ha Hm. apply map_Forall_insert_2; [lia|].
  eapply map_Forall_impl; [exact Hm|]. simpl. intros; lia.
Qed.

Lemma keyed_replace {A} (id : A → Z) n (m : gmap Z A) k a a' :
  m !! k = Some a → id a' = id a → keyed id n m → keyed id n (<[k := a']> m).
Proof.
  intros Hk Ha Hm. apply map_Forall_insert_2; [|done].
  rewrite Ha. exact (Hm k a Hk).
Qed.

Lemma keyed_delete {A} (id : A → Z) n (m : gmap Z A) k :
  keyed id n m → keyed id n (delete k m).
Proof. apply map_Forall_delete. Qed.

Lemma filed_new {A} (owner id : A → Z) n (m : gmap Z (list A)) k :
  filed owner id n m → filed owner id n (<[k := []]> m).
Proof. intros Hm. apply map_Forall_insert_2; [constructor|done]. Qed.

Lemma filed_append {A} (owner id : A → Z) n (m : gmap Z (list A)) k a :
  1 ≤ n → owner a = k → id a = n → filed owner id n m →
  filed owner id (n + 1) (<[k := default [] (m !! k) ++ [a]]> m).
Proof.
  intros Hn Ho Ha Hm.
  assert (filed owner id (n + 1) m) as Hm'.
  { eapply map_Forall_impl; [exact Hm|]. simpl. intros k' items Hitems.
    eapply Forall_impl; [exact Hitems|]. simpl. intros; lia. }
  apply map_Forall_insert_2; [|done].
  apply Forall_app. split.
  - destruct (m !! k) as [items|] eqn:Hk; simpl; [|constructor].
    exact (Hm' k items Hk).
  - repeat constructor; [done|lia|lia].
Qed.

Lemma have_items_insert_items {A B} (m : gmap Z A) (items : gmap Z B) k b :
  map_Forall (λ (j : Z) (_ : A), is_Some (items !! j)) m →
  map_Forall (λ (j : Z) (_ : A), is_Some (<[k := b]> items !! j)) m.
Proof.
  intros Hm. eapply map_Forall_impl; [exact Hm|]. simpl.
  intros k' _ Hk'. rewrite lookup_insert_is_Some. destruct (decide (k = k')); auto.
Qed.

Lemma have_items_create {A B} (m : gmap Z A) (items : gmap Z B) k a b :
  map_Forall (λ (j : Z) (_ : A), is_Some (items !! j)) m →
  map_Forall (λ (j : Z) (_ : A), is_Some (<[k := b]> items !! j)) (<[k := a]> m).
Proof.
  intros Hm. apply map_Forall_insert_2.
  - rewrite lookup_insert_eq. by eexists.
  - by apply have_items_insert_items.
Qed.

Lemma have_items_replace {A B} (m : gmap Z A) (items : gmap Z B) k a a' :
  m !! k = Some a →
  map_Forall (λ (j : Z) (_ : A), is_Some (items !! j)) m →
  map_Forall (λ (j : Z) (_ : A), is_Some (items !! j)) (<[k := a']> m).
Proof.
  intros Hk Hm. apply map_Forall_insert_2; [|done]. exact (Hm k a Hk).
Qed.

Lemma well_keyed_constructor : well_keyed constructor.
Proof.
  constructor; simpl; try apply map_Forall_empty. lia.
Qed.

Lemma well_keyed_with_customerBalancesMap st m :
  map_Forall (λ k b, CustomerBalance.id b = k
                     ∧ CustomerBalance.customerId b = k) m →
  well_keyed st → well_keyed (with_customerBalancesMap st m).
Proof. intros ? []. by constructor. Qed.

Lemma well_keyed_updateCustomerBalance st c now :
  well_keyed st → well_keyed (updateCustomerBalance st c now).1.
Proof.
  intros Hwk. apply well_keyed_with_customerBalancesMap; [|done].
  apply map_Forall_insert_2; [done|]. by destruct Hwk.
Qed.

Lemma well_keyed_createCustomer st ins now :
  well_keyed st → well_keyed (createCustomer st ins now).1.
Proof.
  intros []. constructor; simpl; try done; [|lia].
  apply keyed_fresh; [lia|done|done].
Qed.

Lemma well_keyed_updateCustomer st id data now :
  well_keyed st → well_keyed (updateCustomer st id data now).1.
Proof.
  intros Hwk. unfold updateCustomer.
  destruct (customersMap st !! id) as [customer|] eqn:Hc; [|done].
  destruct Hwk. constructor; simpl; try done.
  by eapply keyed_replace.
Qed.

Lemma well_keyed_deleteCustomer st id :
  well_keyed st → well_keyed (deleteCustomer st id).1.
Proof.
  intros Hwk. unfold deleteCustomer.
  destruct (bool_decide _); [|done]. destruct Hwk.
  constructor; simpl; try done. by apply keyed_delete.
Qed.

Lemma well_keyed_createProduct st ins now :
  well_keyed st → well_keyed (createProduct st ins now).1.
Proof.
  intros []. constructor; simpl; try done; [|lia].
  apply keyed_fresh; [lia|done|done].
Qed.

Lemma well_keyed_updateProduct st id data now :
  well_keyed st → well_keyed (updateProduct st id data now).1.
Proof.
  intros Hwk. unfold updateProduct.
  destruct (productsMap st !! id) as [product|] eqn:Hp; [|done].
  destruct Hwk. constructor; simpl; try done.
  by eapply keyed_replace.
Qed.

Lemma well_keyed_deleteProduct st id :
  well_keyed st → well_keyed (deleteProduct st id).1.
Proof.
  intros Hwk. unfold deleteProduct.
  destruct (bool_decide _); [|done]. destruct Hwk.
  constructor; simpl; try done. by apply keyed_delete.
Qed.

Lemma well_keyed_createSale st ins now :
  well_keyed st → well_keyed (createSale st ins now).1.
Proof.
  intros []. unfold createSale.
  apply well_keyed_updateCustomerBalance.
  constructor; simpl; try done.
  - apply keyed_fresh; [lia|done|done].
  - by apply filed_new.
  - by apply have_items_create.
  - lia.
Qed.

Lemma well_keyed_updateSale st id saleData now :
  well_keyed st → well_keyed (updateSale st id saleData now).1.
Proof.
  intros Hwk. unfold updateSale.
  destruct (salesMap st !! id) as [sale|] eqn:Hsale; [|done].
  apply well_keyed_updateCustomerBalance.
  destruct Hwk. constructor; simpl; try done.
  - by eapply keyed_replace.
  - by eapply have_items_replace.
Qed.

Lemma products_keyed_stock st productId (f : Product.t → Z) now :
  keyed Product.id (productIdCounter st) (productsMap st) →
  keyed Product.id (productIdCounter st)
    match productsMap st !! productId with
    | Some product =>
        <[Product.id product := Product_with_stock product (f product) now]>
          (productsMap st)
    | None => productsMap st
    end.
Proof.
  intros Hp. destruct (productsMap st !! productId) as [p|] eqn:Hl; [|done].
  destruct (keyed_lookup _ _ _ _ _ Hp Hl) as [-> _].
  by eapply keyed_replace.
Qed.

Lemma well_keyed_addSaleItem st ins now :
  well_keyed st → well_keyed (addSaleItem st ins now).1.
Proof.
  intros []. constructor; simpl; try done.
  - by apply (products_keyed_stock st _
                (λ p, Product.stock p - InsertSaleItem.quantity ins)).
  - apply filed_append; [lia|done|done|done].
  - by apply have_items_insert_items.
  - lia.
Qed.

Lemma well_keyed_createReturn st ins now :
  well_keyed st → well_keyed (createReturn st ins now).1.
Proof.
  intros []. unfold createReturn.
  apply well_keyed_updateCustomerBalance.
  constructor; simpl; try done.
  - apply keyed_fresh; [lia|done|done].
  - by apply filed_new.
  - by apply have_items_create.
  - lia.
Qed.

Lemma well_keyed_addReturnItem st ins now :
  well_keyed st → well_keyed (addReturnItem st ins now).1.
Proof.
  intros []. constructor; simpl; try done.
  - by apply (products_keyed_stock st _
                (λ p, Product.stock p + InsertReturnItem.quantity ins)).
  - apply filed_append; [lia|done|done|done].
  - by apply have_items_insert_items.
  - lia.
Qed.

Lemma well_keyed_createPayment st ins now :
  well_keyed st → well_keyed (createPayment st ins now).1.
Proof.
  intros [Hc Hp Hs Hr Hpay Hsi Hri Hb Hhs Hhr Hn]. unfold createPayment. simpl.
  destruct (salesMap st !! InsertPayment.saleId ins) as [sale|] eqn:Hsale.
  - apply well_keyed_with_customerBalancesMap.
    { by apply map_Forall_insert_2. }
    destruct (keyed_lookup _ _ _ _ _ Hs Hsale) as [Hid _].
    constructor; simpl; try done.
    + rewrite Hid. by eapply keyed_replace.
    + apply keyed_fresh; [lia|done|done].
    + rewrite Hid. by eapply have_items_replace.
    + lia.
  - constructor; simpl; try done; [|lia].
    apply keyed_fresh; [lia|done|done].
Qed.

Lemma well_keyed_step st op : well_keyed st → well_keyed (step st op).
Proof.
  destruct op; cbn [step].
  - apply well_keyed_createCustomer.
  - apply well_keyed_updateCustomer.
  - apply well_keyed_deleteCustomer.
  - apply well_keyed_createProduct.
  - apply well_keyed_updateProduct.
  - apply well_keyed_deleteProduct.
  - apply well_keyed_createSale.
  - apply well_keyed_updateSale.
  - apply well_keyed_addSaleItem.
  - apply well_keyed_createReturn.
  - apply well_keyed_addReturnItem.
  - apply well_keyed_createPayment.
  - apply well_keyed_updateCustomerBalance.
Qed.

Lemma well_keyed_foldl st ops :
  well_keyed st → well_keyed (foldl step st ops).
Proof.
  revert st. induction ops as [|op ops IH]; intros st Hwk; [done|].
  simpl. apply IH. by apply well_keyed_step.
Qed.

Lemma well_keyed_invariant st : well_keyed st → invariant st.
Proof.
  intros [Hc Hp Hs Hr Hpay Hsi Hri Hb Hhs Hhr Hn]. constructor.
  - eapply map_Forall_impl; [exact Hs|]. simpl. tauto.
  - eapply map_Forall_impl; [exact Hp|]. simpl. tauto.
  - eapply map_Forall_impl; [exact Hpay|]. simpl. intros; lia.
  - lia.
  - lia.
Qed.

Lemma well_keyed_run ops : well_keyed (run ops).
Proof. apply well_keyed_foldl, well_keyed_constructor. Qed.

End MemReachFacts.

(** X1. Whatever calls are made on a new [MemStorage], in whatever order,
    every stored customer, product, sale, return and payment carries the
    key it is stored under, that key is one of the values its counter has
    already taken (at least 1, below the counter), line items are filed
    under the document they name, a balance record sits under its
    customer, and every sale and return has a list of items. *)
Theorem X1_reachable_stores_are_well_keyed (ops : list MemReach.Op) :
  MemReach.well_keyed (MemReach.run ops)
  ∧ MemLedger.invariant (MemReach.run ops).
Proof.
  assert (MemReach.well_keyed (MemReach.run ops)) as Hwk.
  { apply MemReachFacts.well_keyed_run. }
  split; [done|]. by apply MemReachFacts.well_keyed_invariant.
Qed.

(** * The counters of the in-process store *)

Module MemCounters.
Import MemStorage MemLedger MemReach MemReachFacts.

(** No call lowers any of the five counters that number records. *)
Lemma counters_step st op :
  customerIdCounter st ≤ customerIdCounter (step st op)
  ∧ productIdCounter st ≤ productIdCounter (step st op)
  ∧ saleIdCounter st ≤ saleIdCounter (step st op)
  ∧ returnIdCounter st ≤ returnIdCounter (step st op)
  ∧ paymentIdCounter st ≤ paymentIdCounter (step st op).
Proof.
  destruct op; cbn [step];
    unfold updateCustomer, deleteCustomer, updateProduct, deleteProduct,
      createSale, updateSale, createReturn, createPayment;
    simpl; repeat case_match; simpl; lia.
Qed.

Lemma counters_foldl ops : ∀ st,
  customerIdCounter st ≤ customerIdCounter (foldl step st ops)
  ∧ productIdCounter st ≤ productIdCounter (foldl step st ops)
  ∧ saleIdCounter st ≤ saleIdCounter (foldl step st ops)
  ∧ returnIdCounter st ≤ returnIdCounter (foldl step st ops)
  ∧ paymentIdCounter st ≤ paymentIdCounter (foldl step st ops).
Proof.
  induction ops as [|op ops IH]; intros st; [simpl; lia|].
  simpl. pose proof (counters_step st op). pose proof (IH (step st op)). lia.
Qed.

Lemma returnIdCounter_step st op :
  returnIdCounter (step st op)
  = returnIdCounter st + (if is_CreateReturn op then 1 else 0).
Proof.
  destruct op; cbn [step is_CreateReturn];
    unfold updateCustomer, deleteCustomer, updateProduct, deleteProduct,
      createSale, updateSale, createReturn, createPayment;
    simpl; repeat case_match; simpl; lia.
Qed.

Lemma returnIdCounter_foldl ops : ∀ st,
  returnIdCounter (foldl step st ops) = returnIdCounter st + returnsCreated ops.
Proof.
  unfold returnsCreated.
  induction ops as [|op ops IH]; intros st; [simpl; lia|].
  cbn [foldl List.filter]. rewrite IH, returnIdCounter_step.
  destruct (is_CreateReturn op); cbn [List.length]; lia.
Qed.

End MemCounters.

(** X2. On a store reached from a new instance, [createCustomer],
    [createProduct], [createSale], [createReturn] and [createPayment] store
    the record they return under its own identifier, that identifier was
    free, and every record of the collection that was stored before is
    still there unchanged. *)
Theorem X2_create_stores_under_a_new_key (ops : list MemReach.Op) :
  let st := MemReach.run ops in
  (∀ ins now,
     let r := MemStorage.createCustomer st ins now in
     stored_under_new_key (MemStorage.customersMap st)
       (MemStorage.customersMap r.1) (MemStorage.Customer.id r.2) r.2)
  ∧ (∀ ins now,
       let r := MemStorage.createProduct st ins now in
       stored_under_new_key (MemStorage.productsMap st)
         (MemStorage.productsMap r.1) (MemStorage.Product.id r.2) r.2)
  ∧ (∀ ins now,
       let r := MemStorage.createSale st ins now in
       stored_under_new_key (MemStorage.salesMap st)
         (MemStorage.salesMap r.1) (MemStorage.Sale.id r.2) r.2)
  ∧ (∀ ins now,
       let r := MemStorage.createReturn st ins now in
       stored_under_new_key (MemStorage.returnsMap st)
         (MemStorage.returnsMap r.1) (MemStorage.Return.id r.2) r.2)
  ∧ (∀ ins now,
       let r := MemStorage.createPayment st ins now in
       stored_under_new_key (MemStorage.paymentsMap st)
         (MemStorage.paymentsMap r.1) (MemStorage.Payment.id r.2) r.2).
Proof.
  intros st.
  destruct (MemReachFacts.well_keyed_run ops)
    as [Hc Hp Hs Hr Hpay _ _ _ _ _ _]. fold st in Hc, Hp, Hs, Hr, Hpay.
  split; [|split; [|split; [|split]]]; intros ins now r; subst r.
  - split; [|reflexivity]. simpl.
    eapply MemReachFacts.keyed_counter_free; [exact Hc|lia].
  - split; [|reflexivity]. simpl.
    eapply MemReachFacts.keyed_counter_free; [exact Hp|lia].
  - split; [|reflexivity]. simpl.
    eapply MemReachFacts.keyed_counter_free; [exact Hs|lia].
  - split; [|reflexivity]. simpl.
    eapply MemReachFacts.keyed_counter_free; [exact Hr|lia].
  - rewrite MemPayment.createPayment_result. split; simpl.
    + eapply MemReachFacts.keyed_counter_free; [exact Hpay|lia].
    + rewrite MemPayment.createPayment_paymentsMap.
      by rewrite MemPayment.createPayment_result.
Qed.

(** X3. The store never hands out an identifier twice.  Whatever calls are
    made between two [createCustomer] calls, deletions included, the second
    customer gets a larger identifier than the first; the same holds for
    products, sales, returns and payments. *)
Theorem X3_identifiers_are_never_reused (st : MemStorage.t)
    (ops : list MemReach.Op) :
  (∀ ins now ins' now',
     let r := MemStorage.createCustomer st ins now in
     let r' := MemStorage.createCustomer (foldl MemReach.step r.1 ops)
                 ins' now' in
     MemStorage.Customer.id r.2 < MemStorage.Customer.id r'.2)
  ∧ (∀ ins now ins' now',
       let r := MemStorage.createProduct st ins now in
       let r' := MemStorage.createProduct (foldl MemReach.step r.1 ops)
                   ins' now' in
       MemStorage.Product.id r.2 < MemStorage.Product.id r'.2)
  ∧ (∀ ins now ins' now',
       let r := MemStorage.createSale st ins now in
       let r' := MemStorage.createSale (foldl MemReach.step r.1 ops)
                   ins' now' in
       MemStorage.Sale.id r.2 < MemStorage.Sale.id r'.2)
  ∧ (∀ ins now ins' now',
       let r := MemStorage.createReturn st ins now in
       let r' := MemStorage.createReturn (foldl MemReach.step r.1 ops)
                   ins' now' in
       MemStorage.Return.id r.2 < MemStorage.Return.id r'.2)
  ∧ (∀ ins now ins' now',
       let r := MemStorage.createPayment st ins now in
       let r' := MemStorage.createPayment (foldl MemReach.step r.1 ops)
                   ins' now' in
       MemStorage.Payment.id r.2 < MemStorage.Payment.id r'.2).
Proof.
  split; [|split; [|split; [|split]]]; intros ins now ins' now' r r'.
  - pose proof (MemCounters.counters_foldl ops r.1) as (H & _).
    subst r r'. simpl in *. lia.
  - pose proof (MemCounters.counters_foldl ops r.1) as (_ & H & _).
    subst r r'. simpl in *. lia.
  - pose proof (MemCounters.counters_foldl ops r.1) as (_ & _ & H & _).
    subst r r'. unfold MemStorage.createSale in *. simpl in *. lia.
  - pose proof (MemCounters.counters_foldl ops r.1) as (_ & _ & _ & H & _).
    subst r r'. unfold MemStorage.createReturn in *. simpl in *. lia.
  - pose proof (MemCounters.counters_foldl ops r.1) as (_ & _ & _ & _ & H).
    subst r r'. rewrite !MemPayment.createPayment_result. simpl.
    assert (MemStorage.paymentIdCounter (MemStorage.createPayment st ins now).1
            = MemStorage.paymentIdCounter st + 1) as Hn.
    { unfold MemStorage.createPayment. simpl. by repeat case_match. }
    lia.
Qed.

(** X4. Return numbers count the returns and nothing else.  After any
    sequence of calls on a new instance, [createReturn] gives the return
    the identifier [1 + ] the number of [createReturn] calls made so far,
    and the number [RET-YYYYMM-NNNN] built from that identifier and the
    time of the call; the [returnNumber] that the caller passes is not
    used. *)
Theorem X4_return_numbers_count_the_returns (ops : list MemReach.Op)
    (ins : MemStorage.InsertReturn.t) (now : Date) :
  let n := 1 + MemReach.returnsCreated ops in
  let r := MemStorage.createReturn (MemReach.run ops) ins now in
  MemStorage.Return.id r.2 = n
  ∧ MemStorage.Return.returnNumber r.2 = documentNumber "RET" now n
  ∧ numericSuffix (MemStorage.Return.returnNumber r.2) = n
  ∧ MemStorage.returnsMap r.1 !! n = Some r.2.
Proof.
  intros n r.
  assert (MemStorage.returnIdCounter (MemReach.run ops) = n) as Hn.
  { unfold MemReach.run. rewrite MemCounters.returnIdCounter_foldl. done. }
  assert (0 ≤ n).
  { subst n. unfold MemReach.returnsCreated. lia. }
  subst r. unfold MemStorage.createReturn. simpl. rewrite Hn.
  split; [done|]. split; [done|].
  split; [by apply JsFacts.numericSuffix_documentNumber|].
  apply lookup_insert_eq.
Qed.

(** * How the calls move the ledger of the in-process store *)

(** What is read off the selected entries of a collection does not change
    when an entry is rewritten to one that is selected alike and reads
    alike. *)
Lemma fmap_filter_rewritten `{EqDecision K} {A B} (g : K * A → B)
    (Q : K * A → Prop) `{!∀ e, Decision (Q e)} (k : K) (a a' : A)
    (l : list (K * A)) :
  Forall (λ e, e.1 = k → e.2 = a) l →
  (Q (k, a') ↔ Q (k, a)) →
  g (k, a') = g (k, a) →
  g <$> filter Q (rewritten k a' <$> l) = g <$> filter Q l.
Proof.
  intros Hl HQ Hg. induction Hl as [|[k1 a1] l Hk _ IH]; [done|].
  rewrite fmap_cons. simpl in Hk.
  destruct (decide (k1 = k)) as [->|Hne].
  - assert (rewritten k a' (k, a1) = (k, a')) as ->.
    { unfold rewritten. simpl. by rewrite decide_True. }
    rewrite (Hk eq_refl), !filter_cons.
    destruct (decide (Q (k, a'))), (decide (Q (k, a)));
      rewrite ?fmap_cons, ?Hg, ?IH; try done; tauto.
  - assert (rewritten k a' (k1, a1) = (k1, a1)) as ->.
    { unfold rewritten. simpl. by rewrite decide_False. }
    rewrite !filter_cons.
    destruct (decide (Q (k1, a1))); rewrite ?fmap_cons, ?IH; done.
Qed.

Lemma filter_fmap {A B} (f : A → B) (P : B → Prop)
    `{!∀ b, Decision (P b)} (l : list A) :
  filter P (f <$> l) = f <$> filter (λ a, P (f a)) l.
Proof.
  induction l as [|a l IH]; [done|].
  rewrite fmap_cons, !filter_cons.
  destruct (decide (P (f a))); by rewrite ?fmap_cons, IH.
Qed.

Module MemLedgerFacts.
Import MemStorage MemLedger MemFacts MemReach MemReachFacts.

Lemma keyed_below {A} (id : A → Z) n (m : gmap Z A) :
  keyed id n m → map_Forall (λ k _, k < n) m.
Proof. intros Hm k a Hk. destruct (Hm k a Hk) as [_ ?]. simpl. lia. Qed.

Lemma keyed_by_id {A} (id : A → Z) n (m : gmap Z A) :
  keyed id n m → map_Forall (λ k a, id a = k) m.
Proof. intros Hm k a Hk. by destruct (Hm k a Hk). Qed.

(** The totals of a customer read the sales, the returns and the payments
    only. *)
Lemma totalSalesOf_ext st st' c :
  salesMap st' = salesMap st → totalSalesOf st' c = totalSalesOf st c.
Proof. intros Hs. unfold totalSalesOf. by rewrite Hs. Qed.

Lemma totalReturnsOf_ext st st' c :
  returnsMap st' = returnsMap st → totalReturnsOf st' c = totalReturnsOf st c.
Proof. intros Hr. unfold totalReturnsOf. by rewrite Hr. Qed.

Lemma paidOn_ext st st' k :
  paymentsMap st' = paymentsMap st → paidOn st' k = paidOn st k.
Proof. intros Hp. unfold paidOn, paymentsOn. by rewrite Hp. Qed.

Lemma totalPaymentsOf_ext st st' c :
  salesMap st' = salesMap st →
  paymentsMap st' = paymentsMap st →
  totalPaymentsOf st' c = totalPaymentsOf st c.
Proof.
  intros Hs Hp. unfold totalPaymentsOf. rewrite Hs.
  apply Js_sum_ext. intros e _. by apply paidOn_ext.
Qed.

Lemma is_sale_of_ext st st' c k :
  salesMap st' = salesMap st → is_sale_of st' c k ↔ is_sale_of st c k.
Proof. intros Hs. unfold is_sale_of. by rewrite Hs. Qed.

(** The selected records when a record is set under a key above every key
    in use. *)
Lemma filter_values_insert_last {A} (P : A → Prop) `{!∀ a, Decision (P a)}
    (m : gmap Z A) (k : Z) (a : A) :
  map_Forall (λ k' _, k' < k) m →
  filter P (values (<[k := a]> m))
  = filter P (values m) ++ (if decide (P a) then [a] else []).
Proof.
  intros Hm. rewrite values_insert_last by done.
  rewrite filter_app. f_equal.
Qed.

(** The sum over the selected records when a record is set again under
    its key, selected alike and with the same amount. *)
Lemma Js_sum_values_rewrite {A} (f : A → number) (P : A → Prop)
    `{!∀ a, Decision (P a)} (m : gmap Z A) (k : Z) (a a' : A) :
  m !! k = Some a →
  (P a' ↔ P a) →
  f a' = f a →
  Js.sum f (filter P (values (<[k := a']> m)))
  = Js.sum f (filter P (values m)).
Proof.
  intros Hk HP Hf.
  rewrite <-(Js_sum_fmap f id), <-(Js_sum_fmap f id (filter P (values m))).
  f_equal. unfold values.
  rewrite (values_rewrite m k a a' Hk).
  rewrite !(filter_fmap snd P), <-!list_fmap_compose.
  apply (fmap_filter_rewritten (f ∘ snd) (λ e, P e.2) k a a'); [|done|done].
  apply Forall_forall. intros [k1 a1] H1 Hk1. simpl in *. subst k1.
  apply (elem_of_in_key_order Z.le) in H1. congruence.
Qed.

(** The sales of a customer, with their keys, when a sale is set again
    under its key and keeps its customer. *)
Lemma sales_of_rewrite {B} (g : Z → B) (m : gmap Z Sale.t) (k : Z)
    (sale sale' : Sale.t) (c : Z) :
  m !! k = Some sale →
  Sale.customerId sale' = Sale.customerId sale →
  (λ e : Z * Sale.t, g e.1)
    <$> filter (λ e, Sale.customerId e.2 = c)
               (in_key_order Z.le (<[k := sale']> m))
  = (λ e : Z * Sale.t, g e.1)
      <$> filter (λ e, Sale.customerId e.2 = c) (in_key_order Z.le m).
Proof.
  intros Hk Hc. rewrite (values_rewrite m k sale sale' Hk).
  apply (fmap_filter_rewritten (λ e : Z * Sale.t, g e.1)
           (λ e, Sale.customerId e.2 = c) k sale sale');
    [|simpl; by rewrite Hc|done].
  apply Forall_forall. intros [k1 a1] H1 Hk1. simpl in *. subst k1.
  apply (elem_of_in_key_order Z.le) in H1. congruence.
Qed.

Lemma createSale_unfold st ins now :
  ∃ st1,
    (createSale st ins now).1
    = (updateCustomerBalance st1 (InsertSale.customerId ins) now).1
    ∧ salesMap st1 = <[saleIdCounter st := (createSale st ins now).2]> (salesMap st)
    ∧ returnsMap st1 = returnsMap st
    ∧ paymentsMap st1 = paymentsMap st
    ∧ customersMap st1 = customersMap st
    ∧ productsMap st1 = productsMap st.
Proof. eexists. split; [reflexivity|]. done. Qed.

Lemma createReturn_unfold st ins now :
  ∃ st1,
    (createReturn st ins now).1
    = (updateCustomerBalance st1 (InsertReturn.customerId ins) now).1
    ∧ returnsMap st1
      = <[returnIdCounter st := (createReturn st ins now).2]> (returnsMap st)
    ∧ salesMap st1 = salesMap st
    ∧ paymentsMap st1 = paymentsMap st
    ∧ customersMap st1 = customersMap st
    ∧ productsMap st1 = productsMap st.
Proof. eexists. split; [reflexivity|]. done. Qed.

Lemma createPayment_unfold st ins now sale :
  invariant st →
  salesMap st !! InsertPayment.saleId ins = Some sale →
  ∃ st2 sale',
    (createPayment st ins now).1
    = (updateCustomerBalance st2 (Sale.customerId sale) now).1
    ∧ salesMap st2 = <[InsertPayment.saleId ins := sale']> (salesMap st)
    ∧ Sale.customerId sale' = Sale.customerId sale
    ∧ Sale.totalAmount sale' = Sale.totalAmount sale
    ∧ Sale.id sale' = Sale.id sale
    ∧ paymentsMap st2
      = <[paymentIdCounter st := (createPayment st ins now).2]> (paymentsMap st)
    ∧ returnsMap st2 = returnsMap st
    ∧ customersMap st2 = customersMap st
    ∧ productsMap st2 = productsMap st.
Proof.
  intros Hinv Hsale. rewrite MemPayment.createPayment_result.
  unfold createPayment. cbv zeta. cbn [salesMap Payment.saleId].
  rewrite Hsale. rewrite (sale_ids _ Hinv _ _ Hsale).
  eexists _, _. split; [reflexivity|].
  cbn [salesMap paymentsMap returnsMap customersMap productsMap
       with_salesMap].
  repeat split; try reflexivity. exact (sale_ids _ Hinv _ _ Hsale).
Qed.

Lemma payment_key_free st :
  invariant st → paymentsMap st !! paymentIdCounter st = None.
Proof.
  intros Hinv.
  destruct (paymentsMap st !! paymentIdCounter st) as [p|] eqn:Hp; [|done].
  pose proof (payment_keys _ Hinv _ _ Hp) as Hlt. simpl in Hlt. lia.
Qed.

Lemma sale_ids_insert (m : gmap Z Sale.t) k sale :
  Sale.id sale = k →
  map_Forall (λ k s, Sale.id s = k) m →
  map_Forall (λ k s, Sale.id s = k) (<[k := sale]> m).
Proof. intros. by apply map_Forall_insert_2. Qed.

(** A payment does not count for the sales it does not refer to. *)
Lemma paidOn_createPayment_other st ins now k :
  invariant st →
  k ≠ InsertPayment.saleId ins →
  paidOn (createPayment st ins now).1 k = paidOn st k.
Proof.
  intros Hinv Hne. unfold paidOn, paymentsOn.
  rewrite MemPayment.createPayment_paymentsMap.
  rewrite filter_values_insert_last by apply (payment_keys _ Hinv).
  rewrite MemPayment.createPayment_result. simpl.
  rewrite decide_False by (intros E; apply Hne; by rewrite E).
  by rewrite app_nil_r.
Qed.

End MemLedgerFacts.

(** X5. [createSale] on a store reached from a new instance leaves an
    up-to-date balance record for the customer of the sale, whether or not
    such a customer exists.  The new sale is the last of the sales, so the
    sales total of the record is the sales total of the store before plus
    the total of the new sale (one more addition of doubles); the returns
    total is that of the store before; and the payments total is that of
    the store before plus whatever payments had already been filed under
    the identifier that the new sale received. *)
Theorem X5_createSale_moves_the_ledger (ops : list MemReach.Op)
    (ins : MemStorage.InsertSale.t) (now : Date) :
  let st := MemReach.run ops in
  let c := MemStorage.InsertSale.customerId ins in
  let r := MemStorage.createSale st ins now in
  ∃ cb,
    MemStorage.getCustomerBalance r.1 c = Some cb
    ∧ MemStorage.CustomerBalance.totalSales cb
      = (MemLedger.totalSalesOf st c
         + MemStorage.InsertSale.totalAmount ins)%float
    ∧ MemStorage.CustomerBalance.totalReturns cb = MemLedger.totalReturnsOf st c
    ∧ MemStorage.CustomerBalance.totalPayments cb
      = (MemLedger.totalPaymentsOf st c
         + MemLedger.paidOn st (MemStorage.Sale.id r.2))%float
    ∧ MemStorage.CustomerBalance.balance cb
      = (MemStorage.CustomerBalance.totalSales cb
         - MemStorage.CustomerBalance.totalPayments cb
         - MemStorage.CustomerBalance.totalReturns cb)%float.
Proof.
  intros st c r.
  destruct (MemReachFacts.well_keyed_run ops)
    as [_ _ Hs _ _ _ _ _ _ _ Hn]. fold st in Hs, Hn.
  pose proof (MemLedgerFacts.keyed_below _ _ _ Hs) as Hbelow.
  destruct (MemLedgerFacts.createSale_unfold st ins now)
    as (st1 & Hrun & Hsales & Hreturns & Hpayments & _).
  fold r in Hrun, Hsales.
  exists (MemStorage.updateCustomerBalance st1 c now).2.
  split; [|split; [|split; [|split]]].
  - unfold MemStorage.getCustomerBalance. rewrite Hrun.
    apply MemFacts.updateCustomerBalance_lookup.
  - rewrite MemFacts.updateCustomerBalance_totalSales.
    unfold MemLedger.totalSalesOf. rewrite Hsales.
    rewrite MemLedgerFacts.filter_values_insert_last by exact Hbelow.
    rewrite decide_True by done. by rewrite Js_sum_snoc.
  - rewrite MemFacts.updateCustomerBalance_totalReturns.
    by apply MemLedgerFacts.totalReturnsOf_ext.
  - rewrite MemFacts.updateCustomerBalance_totalPayments.
    + unfold MemLedger.totalPaymentsOf. rewrite Hsales.
      rewrite (in_key_order_insert_last Z.le).
      2:{ intros k' a' Hk'. specialize (Hbelow k' a' Hk'). simpl in Hbelow.
          lia. }
      rewrite filter_app, filter_cons_True, filter_nil by done.
      rewrite Js_sum_snoc. simpl.
      rewrite (MemLedgerFacts.paidOn_ext st st1) by done.
      f_equal. apply Js_sum_ext. intros e _.
      by apply MemLedgerFacts.paidOn_ext.
    + rewrite Hsales. apply MemLedgerFacts.sale_ids_insert; [done|].
      by apply (MemLedgerFacts.keyed_by_id _ _ _ Hs).
  - reflexivity.
Qed.

(** X6. [createReturn] on a store reached from a new instance leaves an
    up-to-date balance record for the customer of the return.  The new
    return is the last of the returns, so the returns total of the record
    is the returns total of the store before plus the total of the new
    return (one more addition of doubles); the sales and payments totals
    are those of the store before. *)
Theorem X6_createReturn_moves_the_ledger (ops : list MemReach.Op)
    (ins : MemStorage.InsertReturn.t) (now : Date) :
  let st := MemReach.run ops in
  let c := MemStorage.InsertReturn.customerId ins in
  let r := MemStorage.createReturn st ins now in
  ∃ cb,
    MemStorage.getCustomerBalance r.1 c = Some cb
    ∧ MemStorage.CustomerBalance.totalSales cb = MemLedger.totalSalesOf st c
    ∧ MemStorage.CustomerBalance.totalPayments cb
      = MemLedger.totalPaymentsOf st c
    ∧ MemStorage.CustomerBalance.totalReturns cb
      = (MemLedger.totalReturnsOf st c
         + MemStorage.InsertReturn.totalAmount ins)%float
    ∧ MemStorage.CustomerBalance.balance cb
      = (MemLedger.totalSalesOf st c - MemLedger.totalPaymentsOf st c
         - (MemLedger.totalReturnsOf st c
            + MemStorage.InsertReturn.totalAmount ins))%float.
Proof.
  intros st c r.
  destruct (MemReachFacts.well_keyed_run ops)
    as [_ _ Hs Hr _ _ _ _ _ _ Hn]. fold st in Hs, Hr, Hn.
  destruct (MemLedgerFacts.createReturn_unfold st ins now)
    as (st1 & Hrun & Hreturns & Hsales & Hpayments & _).
  fold r in Hrun, Hreturns.
  set (cb := (MemStorage.updateCustomerBalance st1 c now).2).
  assert (MemStorage.CustomerBalance.totalSales cb
          = MemLedger.totalSalesOf st c) as Hts.
  { subst cb. rewrite MemFacts.updateCustomerBalance_totalSales.
    by apply MemLedgerFacts.totalSalesOf_ext. }
  assert (MemStorage.CustomerBalance.totalPayments cb
          = MemLedger.totalPaymentsOf st c) as Htp.
  { subst cb. rewrite MemFacts.updateCustomerBalance_totalPayments.
    - by apply MemLedgerFacts.totalPaymentsOf_ext.
    - rewrite Hsales. by apply (MemLedgerFacts.keyed_by_id _ _ _ Hs). }
  assert (MemStorage.CustomerBalance.totalReturns cb
          = (MemLedger.totalReturnsOf st c
             + MemStorage.InsertReturn.totalAmount ins)%float) as Htr.
  { subst cb. rewrite MemFacts.updateCustomerBalance_totalReturns.
    unfold MemLedger.totalReturnsOf. rewrite Hreturns.
    rewrite MemLedgerFacts.filter_values_insert_last
      by exact (MemLedgerFacts.keyed_below _ _ _ Hr).
    rewrite decide_True by done. by rewrite Js_sum_snoc. }
  exists cb. split; [|split; [|split; [|split]]]; try done.
  - unfold MemStorage.getCustomerBalance. rewrite Hrun.
    apply MemFacts.updateCustomerBalance_lookup.
  - assert (MemStorage.CustomerBalance.balance cb
            = (MemStorage.CustomerBalance.totalSales cb
               - MemStorage.CustomerBalance.totalPayments cb
               - MemStorage.CustomerBalance.totalReturns cb)%float) as Hb
      by reflexivity.
    by rewrite Hb, Hts, Htp, Htr.
Qed.

(** X7. [createPayment] on an existing sale leaves an up-to-date balance
    record for the customer of that sale: its totals are the totals of the
    store after the call.  The sales and returns totals are those of the
    store before; what was paid on the sale is what was paid before plus
    the new amount (one more addition of doubles), and what was paid on
    every other sale is unchanged. *)
Theorem X7_createPayment_moves_the_ledger (st : MemStorage.t)
    (ins : MemStorage.InsertPayment.t) (now : Date) (sale : MemStorage.Sale.t) :
  MemLedger.invariant st →
  MemStorage.salesMap st !! MemStorage.InsertPayment.saleId ins = Some sale →
  let saleId := MemStorage.InsertPayment.saleId ins in
  let c := MemStorage.Sale.customerId sale in
  let r := MemStorage.createPayment st ins now in
  ∃ cb,
    MemStorage.getCustomerBalance r.1 c = Some cb
    ∧ MemStorage.CustomerBalance.totalSales cb = MemLedger.totalSalesOf r.1 c
    ∧ MemLedger.totalSalesOf r.1 c = MemLedger.totalSalesOf st c
    ∧ MemStorage.CustomerBalance.totalReturns cb
      = MemLedger.totalReturnsOf r.1 c
    ∧ MemLedger.totalReturnsOf r.1 c = MemLedger.totalReturnsOf st c
    ∧ MemStorage.CustomerBalance.totalPayments cb
      = MemLedger.totalPaymentsOf r.1 c
    ∧ MemLedger.paidOn r.1 saleId
      = (MemLedger.paidOn st saleId
         + MemStorage.InsertPayment.amount ins)%float
    ∧ (∀ other, other ≠ saleId →
         MemLedger.paidOn r.1 other = MemLedger.paidOn st other)
    ∧ MemStorage.CustomerBalance.balance cb
      = (MemLedger.totalSalesOf r.1 c - MemLedger.totalPaymentsOf r.1 c
         - MemLedger.totalReturnsOf r.1 c)%float.
Proof.
  intros Hinv Hsale saleId c r.
  destruct (MemLedgerFacts.createPayment_unfold st ins now sale Hinv Hsale)
    as (st2 & sale' & Hrun & Hsales & Hc & Hamt & Hid & Hpayments & Hreturns
        & _).
  fold r in Hrun, Hpayments. fold c in Hrun.
  set (cb := (MemStorage.updateCustomerBalance st2 c now).2).
  assert (MemStorage.salesMap r.1 = MemStorage.salesMap st2
          ∧ MemStorage.returnsMap r.1 = MemStorage.returnsMap st2
          ∧ MemStorage.paymentsMap r.1 = MemStorage.paymentsMap st2)
    as (Hs' & Hr' & Hp').
  { rewrite Hrun. done. }
  assert (MemStorage.CustomerBalance.totalSales cb
          = MemLedger.totalSalesOf r.1 c) as Hts.
  { subst cb. rewrite MemFacts.updateCustomerBalance_totalSales.
    symmetry. by apply MemLedgerFacts.totalSalesOf_ext. }
  assert (MemStorage.CustomerBalance.totalReturns cb
          = MemLedger.totalReturnsOf r.1 c) as Htr.
  { subst cb. rewrite MemFacts.updateCustomerBalance_totalReturns.
    symmetry. by apply MemLedgerFacts.totalReturnsOf_ext. }
  assert (MemStorage.CustomerBalance.totalPayments cb
          = MemLedger.totalPaymentsOf r.1 c) as Htp.
  { subst cb. rewrite MemFacts.updateCustomerBalance_totalPayments.
    - symmetry. by apply MemLedgerFacts.totalPaymentsOf_ext.
    - rewrite Hsales. apply MemLedgerFacts.sale_ids_insert.
      + rewrite Hid. exact (MemLedger.sale_ids _ Hinv _ _ Hsale).
      + exact (MemLedger.sale_ids _ Hinv). }
  exists cb. split; [|split; [|split; [|split; [|split; [|split;
    [|split; [|split]]]]]]]; try done.
  - unfold MemStorage.getCustomerBalance. rewrite Hrun.
    apply MemFacts.updateCustomerBalance_lookup.
  - unfold MemLedger.totalSalesOf. rewrite Hs', Hsales.
    apply (MemLedgerFacts.Js_sum_values_rewrite _ _ _ _ sale sale' Hsale);
      [by rewrite Hc|done].
  - unfold MemLedger.totalReturnsOf. by rewrite Hr', Hreturns.
  - by apply MemPayment.paidOn_createPayment.
  - intros other Hother.
    by apply MemLedgerFacts.paidOn_createPayment_other.
  - assert (MemStorage.CustomerBalance.balance cb
            = (MemStorage.CustomerBalance.totalSales cb
               - MemStorage.CustomerBalance.totalPayments cb
               - MemStorage.CustomerBalance.totalReturns cb)%float) as Hb
      by reflexivity.
    by rewrite Hb, Hts, Htp, Htr.
Qed.

Lemma X7_witness :
  let st := MemRounding.two_paid in
  let r := MemStorage.createPayment st (MemRounding.pay 20)
             MemRounding.jan15 in
  MemLedger.invariant st
  ∧ MemStorage.salesMap st !! 1
    = Some (MemStorage.Sale.mk 1 "INV-202401-0001" 1 MemRounding.jan15
              (90 / 100) 0 (90 / 100) cash partially_paid "" "u1"
              MemRounding.jan15 MemRounding.jan15)
  ∧ ∃ cb,
      MemStorage.getCustomerBalance r.1 1 = Some cb
      ∧ MemStorage.CustomerBalance.totalSales cb = (90 / 100)%float
      ∧ MemStorage.CustomerBalance.totalPayments cb
        = (20 / 100 + 50 / 100 + 20 / 100)%float
      ∧ (0 <? MemStorage.CustomerBalance.balance cb)%float = true.
Proof.
  intros st r.
  assert (MemLedger.invariant st) as Hinv.
  { apply (bool_decide_unpack _). vm_compute. exact I. }
  split; [exact Hinv|]. split; [vm_compute; reflexivity|].
  destruct (X7_createPayment_moves_the_ledger st (MemRounding.pay 20)
              MemRounding.jan15
              (MemStorage.Sale.mk 1 "INV-202401-0001" 1 MemRounding.jan15
                 (90 / 100) 0 (90 / 100) cash partially_paid "" "u1"
                 MemRounding.jan15 MemRounding.jan15) Hinv)
    as (cb & Hcb & Hts & _ & _ & _ & Htp & _ & _ & Hb).
  { vm_compute. reflexivity. }
  exists cb. split; [exact Hcb|]. split; [|split].
  - rewrite Hts. vm_compute. reflexivity.
  - rewrite Htp. vm_compute. reflexivity.
  - rewrite Hb. vm_compute. reflexivity.
Defined.



(** * The dashboard of the in-process store *)

Module MemDashboard.
Import MemStorage MemLedger MemLedgerFacts.

Lemma filter_all {A} (l : list A) : filter (λ _, True) l = l.
Proof.
  induction l as [|x l IH]; [done|].
  rewrite filter_cons_True by done. by rewrite IH.
Qed.

Lemma totalSales_all (m : gmap Z Sale.t) :
  foldl (λ sum sale, sum + Sale.totalAmount sale)%float 0%float (values m)
  = Js.sum Sale.totalAmount (filter (λ _, True) (values m)).
Proof. by rewrite filter_all. Qed.

Lemma getDashboardStats_ext st st' :
  salesMap st' = salesMap st → customersMap st' = customersMap st →
  productsMap st' = productsMap st → returnsMap st' = returnsMap st →
  getDashboardStats st' = getDashboardStats st.
Proof. intros Hs Hc Hp Hr. unfold getDashboardStats. by rewrite Hs, Hc, Hp, Hr. Qed.

Lemma updateCustomerBalance_stats st c now :
  getDashboardStats (updateCustomerBalance st c now).1 = getDashboardStats st.
Proof. reflexivity. Qed.

End MemDashboard.

(** X9. The dashboard figures of the in-process store.  On a store reached
    from a new instance, the sales total of the dashboard after a
    [createSale] is the sales total before plus the total of the sale (the
    new sale is added last: one more addition of doubles), and a
    [createReturn] raises the count of returns by one, each leaving the
    other three figures as they were; a return never lowers the sales
    total, and [totalReturns] is a number of returns, not an amount.  A
    [createPayment] changes none of the four figures, also when it
    rewrites the payment status of its sale. *)
Theorem X9_dashboard_figures (ops : list MemReach.Op) :
  let st := MemReach.run ops in
  let stats := MemStorage.getDashboardStats st in
  (∀ ins now,
     MemStorage.getDashboardStats (MemStorage.createSale st ins now).1
     = {| MemStorage.DashboardStats.totalSales :=
            (MemStorage.DashboardStats.totalSales stats
             + MemStorage.InsertSale.totalAmount ins)%float;
          MemStorage.DashboardStats.totalCustomers :=
            MemStorage.DashboardStats.totalCustomers stats;
          MemStorage.DashboardStats.totalProducts :=
            MemStorage.DashboardStats.totalProducts stats;
          MemStorage.DashboardStats.totalReturns :=
            MemStorage.DashboardStats.totalReturns stats |})
  ∧ (∀ ins now,
       MemStorage.getDashboardStats (MemStorage.createReturn st ins now).1
       = {| MemStorage.DashboardStats.totalSales :=
              MemStorage.DashboardStats.totalSales stats;
            MemStorage.DashboardStats.totalCustomers :=
              MemStorage.DashboardStats.totalCustomers stats;
            MemStorage.DashboardStats.totalProducts :=
              MemStorage.DashboardStats.totalProducts stats;
            MemStorage.DashboardStats.totalReturns :=
              S (MemStorage.DashboardStats.totalReturns stats) |})
  ∧ (∀ ins now,
       MemStorage.getDashboardStats (MemStorage.createPayment st ins now).1
       = stats).
Proof.
  intros st stats.
  pose proof (MemReachFacts.well_keyed_run ops) as Hwk. fold st in Hwk.
  pose proof (MemReachFacts.well_keyed_invariant st Hwk) as Hinv.
  destruct Hwk as [_ _ Hs Hr _ _ _ _ _ _ Hn].
  split; [|split]; intros ins now.
  - destruct (MemLedgerFacts.createSale_unfold st ins now)
      as (st1 & -> & Hsales & Hreturns & _ & Hcustomers & Hproducts).
    rewrite MemDashboard.updateCustomerBalance_stats.
    subst stats. unfold MemStorage.getDashboardStats.
    rewrite Hsales, Hreturns, Hcustomers, Hproducts. f_equal.
    rewrite !MemDashboard.totalSales_all.
    rewrite MemLedgerFacts.filter_values_insert_last
      by exact (MemLedgerFacts.keyed_below _ _ _ Hs).
    rewrite decide_True by done. by rewrite Js_sum_snoc.
  - destruct (MemLedgerFacts.createReturn_unfold st ins now)
      as (st1 & -> & Hreturns & Hsales & _ & Hcustomers & Hproducts).
    rewrite MemDashboard.updateCustomerBalance_stats.
    subst stats. unfold MemStorage.getDashboardStats.
    rewrite Hsales, Hreturns, Hcustomers, Hproducts. f_equal.
    apply map_size_insert_None.
    eapply MemReachFacts.keyed_counter_free; [exact Hr|lia].
  - destruct (MemStorage.salesMap st !! MemStorage.InsertPayment.saleId ins)
      as [sale|] eqn:Hsale.
    + destruct (MemLedgerFacts.createPayment_unfold st ins now sale Hinv Hsale)
        as (st2 & sale' & -> & Hsales & _ & Hamt & _ & _ & Hreturns
            & Hcustomers & Hproducts).
      rewrite MemDashboard.updateCustomerBalance_stats.
      subst stats. unfold MemStorage.getDashboardStats.
      rewrite Hsales, Hreturns, Hcustomers, Hproducts. f_equal.
      rewrite !MemDashboard.totalSales_all.
      by apply (MemLedgerFacts.Js_sum_values_rewrite _ _ _ _ sale sale'
                  Hsale).
    + destruct (MemPayment.createPayment_no_sale st ins now Hsale)
        as (Hs' & _ & Hp' & Hc' & Hr').
      by apply MemDashboard.getDashboardStats_ext.
Qed.

(** * Stock of the in-process store, product by product *)

Module MemStockFacts.
Import MemStorage MemLedger.

Lemma addSaleItem_stockOf st ins now k :
  invariant st →
  stockOf (addSaleItem st ins now).1 k
  = (λ s, if decide (InsertSaleItem.productId ins = k)
          then s - InsertSaleItem.quantity ins else s) <$> stockOf st k.
Proof.
  intros Hinv. unfold stockOf. simpl.
  destruct (productsMap st !! InsertSaleItem.productId ins)
    as [product|] eqn:Hproduct.
  - rewrite (product_ids _ Hinv _ _ Hproduct).
    destruct (decide (InsertSaleItem.productId ins = k)) as [<-|Hne].
    + by rewrite lookup_insert_eq, Hproduct.
    + rewrite lookup_insert_ne by done.
      by destruct (productsMap st !! k).
  - destruct (decide (InsertSaleItem.productId ins = k)) as [<-|Hne].
    + by rewrite Hproduct.
    + by destruct (productsMap st !! k).
Qed.

Lemma addReturnItem_stockOf st ins now k :
  invariant st →
  stockOf (addReturnItem st ins now).1 k
  = (λ s, if decide (InsertReturnItem.productId ins = k)
          then s + InsertReturnItem.quantity ins else s) <$> stockOf st k.
Proof.
  intros Hinv. unfold stockOf. simpl.
  destruct (productsMap st !! InsertReturnItem.productId ins)
    as [product|] eqn:Hproduct.
  - rewrite (product_ids _ Hinv _ _ Hproduct).
    destruct (decide (InsertReturnItem.productId ins = k)) as [<-|Hne].
    + by rewrite lookup_insert_eq, Hproduct.
    + rewrite lookup_insert_ne by done.
      by destruct (productsMap st !! k).
  - destruct (decide (InsertReturnItem.productId ins = k)) as [<-|Hne].
    + by rewrite Hproduct.
    + by destruct (productsMap st !! k).
Qed.

End MemStockFacts.

(** X10. A sale line item followed by a return line item for the same
    product and the same quantity leaves the stock of every product as it
    was, whether or not the product exists. *)
Theorem X10_returned_item_restores_the_stock (st : MemStorage.t)
    (sold : MemStorage.InsertSaleItem.t)
    (returned : MemStorage.InsertReturnItem.t) (now now' : Date) :
  MemLedger.invariant st →
  MemStorage.InsertReturnItem.productId returned
    = MemStorage.InsertSaleItem.productId sold →
  MemStorage.InsertReturnItem.quantity returned
    = MemStorage.InsertSaleItem.quantity sold →
  let st1 := (MemStorage.addSaleItem st sold now).1 in
  let st2 := (MemStorage.addReturnItem st1 returned now').1 in
  ∀ productId, MemLedger.stockOf st2 productId = MemLedger.stockOf st productId.
Proof.
  intros Hinv Hp Hq st1 st2 productId.
  pose proof (MemInvariant.invariant_addSaleItem st sold now Hinv) as Hinv1.
  fold st1 in Hinv1. subst st2.
  rewrite (MemStockFacts.addReturnItem_stockOf st1 returned now' productId
             Hinv1).
  subst st1.
  rewrite (MemStockFacts.addSaleItem_stockOf st sold now productId Hinv).
  rewrite Hp, Hq.
  destruct (MemLedger.stockOf st productId) as [s|]; simpl; [|done].
  f_equal. destruct (decide _); lia.
Qed.

Lemma X10_witness :
  MemLedger.invariant MemExample.st
  ∧ MemLedger.stockOf
      (MemStorage.addReturnItem
         (MemStorage.addSaleItem MemExample.st MemExample.nineTins
            MemExample.jan15).1
         (MemStorage.InsertReturnItem.mk 1 1 9 10 90) MemExample.jan15).1 1
    = Some 7.
Proof.
  assert (MemLedger.invariant MemExample.st) as Hinv.
  { apply (bool_decide_unpack _). vm_compute. exact I. }
  split; [exact Hinv|].
  rewrite (X10_returned_item_restores_the_stock MemExample.st
             MemExample.nineTins (MemStorage.InsertReturnItem.mk 1 1 9 10 90)
             MemExample.jan15 MemExample.jan15 Hinv eq_refl eq_refl 1).
  reflexivity.
Defined.

(** * How the calls move the ledger of the document-database client *)

Module FirebaseLedgerFacts.
Import Firebase FirebaseLedger FirebaseFacts FirebaseStock FirebaseLoops
  FirebasePayment FirebaseSales.

(** The replacement of the items of a sale writes items and products
    only. *)
Lemma replaceItems_frame db id items now :
  ∃ items' products',
    replaceItems db id items now
    = Some (with_products (with_saleItems db items') products').
Proof.
  unfold replaceItems. destruct (getSale db id) as [sale|].
  - destruct (forEach_removeItemFromSale id now (getDocs (saleItemsOf db id)) db)
      as (items1 & products1 & Hrun1 & _).
    rewrite Hrun1. simpl.
    match goal with |- context [forEach _ ?d items] => set (db1 := d) end.
    destruct (forEach_addItemToSale id now items db1)
      as (items2 & products2 & Hrun2 & _).
    rewrite Hrun2. by eexists _, _.
  - exists (saleItems db), (products db). by destruct db.
Qed.

(** [updateSale] on a sale that exists: the sale is rewritten, the items may
    be replaced, and the balance of the customer that the rewritten sale
    names is recomputed. *)
Lemma updateSale_unfold db id data items now sale :
  sales db !! id = Some sale →
  ∃ db2,
    updateSale db id data items now
    = updateCustomerBalance db2
        (Sale.customerId (Sale_merge data now sale)) now
    ∧ sales db2 = <[id := Sale_merge data now sale]> (sales db)
    ∧ returns db2 = returns db
    ∧ payments db2 = payments db
    ∧ customerBalances db2 = customerBalances db
    ∧ customers db2 = customers db.
Proof.
  intros Hsale. unfold updateSale, updateDoc. rewrite Hsale. simpl.
  destruct items as [items|].
  - match goal with |- context [replaceItems ?d _ _ _] => set (db1 := d) end.
    destruct (replaceItems_frame db1 id items now)
      as (items' & products' & Hrun).
    rewrite Hrun. simpl. unfold getSale, getDoc. simpl.
    rewrite lookup_insert_eq. eexists. split; [reflexivity|]. done.
  - simpl. unfold getSale, getDoc. simpl.
    rewrite lookup_insert_eq. eexists. split; [reflexivity|]. done.
Qed.

Lemma totalSalesOf_same_sales db db' c :
  sales db' = sales db → totalSalesOf db' c = totalSalesOf db c.
Proof. intros Hs. unfold totalSalesOf. by rewrite Hs. Qed.

Lemma totalReturnsOf_same_returns db db' c :
  returns db' = returns db → totalReturnsOf db' c = totalReturnsOf db c.
Proof. intros Hr. unfold totalReturnsOf. by rewrite Hr. Qed.

Lemma is_sale_of_same_sales db db' c k :
  sales db' = sales db → is_sale_of db' c k ↔ is_sale_of db c k.
Proof. intros Hs. unfold is_sale_of. by rewrite Hs. Qed.

Lemma paidOn_same_payments db db' k :
  payments db' = payments db → paidOn db' k = paidOn db k.
Proof. intros Hp. unfold paidOn, getPaymentsBySale. by rewrite Hp. Qed.

Lemma totalPaymentsOf_same_sales db db' c :
  sales db' = sales db →
  payments db' = payments db →
  totalPaymentsOf db' c = totalPaymentsOf db c.
Proof.
  intros Hs Hp. unfold totalPaymentsOf. rewrite Hs.
  apply Js_sum_ext. intros e _. by apply paidOn_same_payments.
Qed.

(** The totals that [updateCustomerBalance] stores are the totals of the
    database it leaves. *)
Lemma updateCustomerBalance_up_to_date db c now :
  ∃ db' cb,
    updateCustomerBalance db c now = Some db'
    ∧ sales db' = sales db
    ∧ returns db' = returns db
    ∧ payments db' = payments db
    ∧ customers db' = customers db
    ∧ getCustomerBalance db' c = Some cb
    ∧ CustomerBalance.totalSales cb = totalSalesOf db' c
    ∧ CustomerBalance.totalReturns cb = totalReturnsOf db' c
    ∧ CustomerBalance.totalPayments cb = totalPaymentsOf db' c
    ∧ CustomerBalance.balance cb
      = (totalSalesOf db' c - totalPaymentsOf db' c
         - totalReturnsOf db' c)%float
    ∧ ∀ c', c' ≠ c →
        getCustomerBalance db' c' = getCustomerBalance db c'.
Proof.
  destruct (updateCustomerBalance_spec db c now)
    as (cb & Hrun & Hs & Hr & Hp & Hb).
  eexists _, cb. split; [exact Hrun|].
  repeat (split; [done|]).
  split; [apply lookup_insert_eq|].
  split; [exact Hs|]. split; [exact Hr|]. split; [exact Hp|].
  split; [by rewrite Hb, Hs, Hr, Hp|].
  intros c' Hne. unfold getCustomerBalance, getDoc. simpl.
  by rewrite lookup_insert_ne.
Qed.

(** What [createSale] stores under [newId], and what else changes. *)
Lemma createSale_written db newId data items now :
  ∃ db2 doc,
    createSale db newId data items now
    = (db3 ← updateCustomerBalance db2 (SaleData.customerId data) now;
       Some (db3, newId))
    ∧ sales db2 = <[newId := doc]> (sales db)
    ∧ Sale.customerId doc = SaleData.customerId data
    ∧ Sale.totalAmount doc = SaleData.totalAmount data
    ∧ returns db2 = returns db
    ∧ payments db2 = payments db
    ∧ customers db2 = customers db
    ∧ customerBalances db2 = customerBalances db.
Proof.
  unfold createSale, addDoc.
  match goal with |- context [forEach _ ?d _] => set (db1 := d) end.
  destruct (forEach_addItemToSale newId now items db1)
    as (items' & products' & Hrun & _).
  rewrite Hrun. simpl. eexists _, _. split; [reflexivity|]. done.
Qed.

(** What [createReturn] stores under [newId], and what else changes. *)
Lemma createReturn_written db newId data items now :
  ∃ db2 doc,
    createReturn db newId data items now
    = (db3 ← updateCustomerBalance db2 (ReturnData.customerId data) now;
       Some (db3, newId))
    ∧ returns db2 = <[newId := doc]> (returns db)
    ∧ Return.customerId doc = ReturnData.customerId data
    ∧ Return.totalAmount doc = ReturnData.totalAmount data
    ∧ Return.returnNumber doc
      = documentNumber "RET" now (lastReturnNumber db + 1)
    ∧ Return.createdAt doc = now
    ∧ sales db2 = sales db
    ∧ payments db2 = payments db
    ∧ customers db2 = customers db
    ∧ customerBalances db2 = customerBalances db.
Proof.
  unfold createReturn, addDoc.
  match goal with |- context [forEach _ ?d _] => set (db1 := d) end.
  destruct (forEach_addItemToReturn newId now items db1)
    as (items' & products' & Hrun & _).
  rewrite Hrun. simpl. eexists _, _. split; [reflexivity|]. done.
Qed.

End FirebaseLedgerFacts.

(** X11. In the document-database client, [updateSale] that moves a sale to
    another customer (one with a non-empty identifier) recomputes the
    balance record of the customer that the sale names after the update,
    and of nobody else: the record of the new customer holds the totals of
    the database after the call, and the record of the previous customer
    is the one stored before the call, although the sale is no longer one
    of the sales of that customer.  (The in-process store does the
    opposite.) *)
Theorem X11_Firebase_updateSale_recomputes_the_new_customer (db : Firebase.t)
    (id : string) (data : Firebase.SalePatch.t)
    (items : option (list (string * Firebase.SaleItem.t))) (now : Date)
    (sale : Firebase.Sale.t) (c' : string) :
  Firebase.sales db !! id = Some sale →
  Firebase.SalePatch.customerId data = Some c' →
  c' ≠ Firebase.Sale.customerId sale →
  Firebase.truthy c' = true →
  let c := Firebase.Sale.customerId sale in
  let updated := Firebase.Sale_merge data now sale in
  ∃ db' cb,
    Firebase.updateSale db id data items now = Some db'
    ∧ Firebase.getSale db' id = Some updated
    ∧ Firebase.Sale.customerId updated = c'
    ∧ FirebaseLedger.is_sale_of db c id
    ∧ ¬ FirebaseLedger.is_sale_of db' c id
    ∧ FirebaseLedger.is_sale_of db' c' id
    ∧ (∀ other, other ≠ id →
         Firebase.getSale db' other = Firebase.getSale db other)
    ∧ Firebase.getCustomerBalance db' c = Firebase.getCustomerBalance db c
    ∧ Firebase.getCustomerBalance db' c' = Some cb
    ∧ Firebase.CustomerBalance.totalSales cb
      = FirebaseLedger.totalSalesOf db' c'
    ∧ Firebase.CustomerBalance.totalReturns cb
      = FirebaseLedger.totalReturnsOf db' c'
    ∧ Firebase.CustomerBalance.totalPayments cb
      = FirebaseLedger.totalPaymentsOf db' c'.
Proof.
  intros Hsale Hc' Hne _ c updated. subst c.
  destruct (FirebaseLedgerFacts.updateSale_unfold db id data items now sale
              Hsale)
    as (db2 & Hrun & Hsales & Hreturns & Hpayments & Hbalances & _).
  fold updated in Hrun, Hsales.
  assert (Firebase.Sale.customerId updated = c') as Hcu.
  { subst updated. simpl. by rewrite Hc'. }
  rewrite Hcu in Hrun.
  destruct (FirebaseLedgerFacts.updateCustomerBalance_up_to_date db2 c' now)
    as (db' & cb & Hupd & Hs' & _ & _ & _ & Hcb & Hts & Htr & Htp & _
        & Hothers).
  rewrite Hupd in Hrun.
  assert (Firebase.sales db' !! id = Some updated) as Hlk.
  { rewrite Hs', Hsales. apply lookup_insert_eq. }
  exists db', cb. split; [exact Hrun|].
  split; [exact Hlk|].
  split; [exact Hcu|].
  split.
  { unfold FirebaseLedger.is_sale_of, selected. by rewrite Hsale. }
  split.
  { unfold FirebaseLedger.is_sale_of, selected. rewrite Hlk.
    cbn [from_option]. rewrite Hcu. exact Hne. }
  split.
  { unfold FirebaseLedger.is_sale_of, selected. rewrite Hlk.
    cbn [from_option]. exact Hcu. }
  split.
  { intros other Hother. unfold Firebase.getSale, Firebase.getDoc.
    rewrite Hs', Hsales. by rewrite lookup_insert_ne. }
  split.
  { rewrite Hothers by (intros E; apply Hne; symmetry; exact E).
    unfold Firebase.getCustomerBalance, Firebase.getDoc.
    by rewrite Hbalances. }
  split; [exact Hcb|]. split; [exact Hts|]. split; [exact Htr|exact Htp].
Qed.

Lemma X11_witness :
  let patch :=
    Firebase.SalePatch.mk None (Some "c2") None None None None None None None
      None None in
  Firebase.sales FirebaseExample.db !! "s1"
  = Some (Firebase.Sale.mk "INV-202401-0001" "c1" FirebaseExample.jan15
            30 0 30 cash partially_paid "" "u1" FirebaseExample.jan15
            FirebaseExample.jan15)
  ∧ Firebase.truthy "c2" = true
  ∧ ∃ db',
      Firebase.updateSale FirebaseExample.db "s1" patch None
        FirebaseExample.jan16 = Some db'
      ∧ FirebaseLedger.is_sale_of db' "c2" "s1"
      ∧ Firebase.getCustomerBalance db' "c1"
        = Some (Firebase.CustomerBalance.mk "c1" 30 10 0 20
                  FirebaseExample.jan15).
Proof.
  intros patch. split; [reflexivity|]. split; [reflexivity|].
  destruct (X11_Firebase_updateSale_recomputes_the_new_customer
              FirebaseExample.db "s1" patch None FirebaseExample.jan16 _ "c2"
              eq_refl eq_refl)
    as (db' & cb & Hrun & _ & _ & _ & _ & Hnew & _ & Hstale & _).
  { discriminate. }
  { reflexivity. }
  exists db'. split; [exact Hrun|]. split.
  - exact Hnew.
  - etrans; [exact Hstale|]. reflexivity.
Defined.

Module FirebasePaymentFacts.
Import Firebase FirebaseLedger FirebaseFacts FirebasePayment
  FirebaseLedgerFacts.

(** The sum over a selection of the documents does not change when a
    document is rewritten and keeps what is selected and what is added. *)
Lemma Js_sum_getDocs_rewrite {A} (f : string * A → number)
    (P : string * A → Prop) `{!∀ e, Decision (P e)} (m : gmap string A)
    (k : string) (a a' : A) :
  m !! k = Some a →
  (P (k, a') ↔ P (k, a)) →
  f (k, a') = f (k, a) →
  Js.sum f (filter P (getDocs (<[k := a']> m)))
  = Js.sum f (filter P (getDocs m)).
Proof.
  intros Hk HP Hf.
  etrans; [symmetry; apply (Js_sum_fmap f id)|].
  etrans; [|apply (Js_sum_fmap f id)].
  f_equal. rewrite (FirebaseFacts.getDocs_rewrite m k a a' Hk).
  apply (fmap_filter_rewritten f P k a a'); [|done|done].
  apply Forall_forall. intros [k1 a1] H1 Hk1. simpl in *. subst k1.
  apply FirebaseFacts.elem_of_getDocs in H1. congruence.
Qed.

(** [createPayment] on a sale that exists: the payment is stored, the
    payment status of the sale is rewritten, and the balance of the
    customer of the sale is recomputed last. *)
Lemma createPayment_written db newId data now sale :
  sales db !! PaymentData.saleId data = Some sale →
  ∃ db3 sale',
    createPayment db newId data now
    = (db4 ← updateCustomerBalance db3 (Sale.customerId sale) now;
       Some (db4, newId))
    ∧ sales db3 = <[PaymentData.saleId data := sale']> (sales db)
    ∧ Sale.customerId sale' = Sale.customerId sale
    ∧ Sale.totalAmount sale' = Sale.totalAmount sale
    ∧ payments db3 = <[newId := paymentOf data now]> (payments db)
    ∧ returns db3 = returns db
    ∧ customers db3 = customers db.
Proof.
  intros Hsale. unfold createPayment, addDoc.
  match goal with |- context [getSale ?d _] => set (db1 := d) end.
  assert (sales db1 !! PaymentData.saleId data = Some sale) as Hsale1
    by exact Hsale.
  unfold getSale at 1, getDoc. rewrite Hsale1.
  match goal with
  | |- context [updateSale db1 _ ?p None now] => set (patch := p)
  end.
  destruct (updateSale_unfold db1 (PaymentData.saleId data) patch None now
              sale Hsale1)
    as (db2 & Hrun & Hsales & Hreturns & Hpayments & _ & Hcustomers).
  destruct (updateCustomerBalance_frame db2
              (Sale.customerId (Sale_merge patch now sale)) now)
    as (balances & Hbal).
  rewrite Hrun, Hbal. simpl.
  eexists _, _. split; [reflexivity|]. simpl.
  split; [exact Hsales|]. split; [reflexivity|]. split; [reflexivity|].
  split; [exact Hpayments|]. split; [exact Hreturns|exact Hcustomers].
Qed.

End FirebasePaymentFacts.

(** X12. [createSale] of the document-database client, for a customer with
    a non-empty identifier, stores the sale under the generated identifier
    and leaves an up-to-date balance record for the customer of the sale,
    whatever the line items are and whether or not such a customer exists:
    the record holds the totals of the database after the call, and the
    returns total is that of the database before. *)
Theorem X12_Firebase_createSale_moves_the_ledger (db : Firebase.t)
    (newId : string) (data : Firebase.SaleData.t)
    (items : list (string * Firebase.SaleItem.t)) (now : Date) :
  Firebase.truthy (Firebase.SaleData.customerId data) = true →
  let c := Firebase.SaleData.customerId data in
  ∃ db' cb doc,
    Firebase.createSale db newId data items now = Some (db', newId)
    ∧ Firebase.sales db' = <[newId := doc]> (Firebase.sales db)
    ∧ Firebase.Sale.customerId doc = c
    ∧ Firebase.Sale.totalAmount doc = Firebase.SaleData.totalAmount data
    ∧ FirebaseLedger.is_sale_of db' c newId
    ∧ Firebase.getCustomerBalance db' c = Some cb
    ∧ Firebase.CustomerBalance.totalSales cb
      = FirebaseLedger.totalSalesOf db' c
    ∧ Firebase.CustomerBalance.totalReturns cb
      = FirebaseLedger.totalReturnsOf db' c
    ∧ FirebaseLedger.totalReturnsOf db' c = FirebaseLedger.totalReturnsOf db c
    ∧ Firebase.CustomerBalance.totalPayments cb
      = FirebaseLedger.totalPaymentsOf db' c
    ∧ Firebase.CustomerBalance.balance cb
      = (FirebaseLedger.totalSalesOf db' c
         - FirebaseLedger.totalPaymentsOf db' c
         - FirebaseLedger.totalReturnsOf db' c)%float.
Proof.
  intros _ c.
  destruct (FirebaseLedgerFacts.createSale_written db newId data items now)
    as (db2 & doc & Hrun & Hsales & Hc & Hamt & Hreturns & Hpayments & _).
  fold c in Hrun, Hc.
  destruct (FirebaseLedgerFacts.updateCustomerBalance_up_to_date db2 c now)
    as (db' & cb & Hupd & Hs' & Hr' & _ & _ & Hcb & Hts & Htr & Htp & Hb & _).
  rewrite Hupd in Hrun. simpl in Hrun.
  exists db', cb, doc. split; [exact Hrun|].
  split; [by rewrite Hs'|]. split; [exact Hc|]. split; [exact Hamt|].
  split.
  { unfold FirebaseLedger.is_sale_of, selected.
    rewrite Hs', Hsales, lookup_insert_eq. exact Hc. }
  split; [exact Hcb|]. split; [exact Hts|]. split; [exact Htr|].
  split.
  { apply FirebaseLedgerFacts.totalReturnsOf_same_returns.
    by rewrite Hr'. }
  split; [exact Htp|exact Hb].
Qed.

Lemma X12_witness :
  Firebase.truthy "c1" = true
  ∧ ∃ db' cb,
      Firebase.createSale FirebaseExample.db "s2" FirebaseExample.aSale []
        FirebaseExample.jan16 = Some (db', "s2")
      ∧ Firebase.getCustomerBalance db' "c1" = Some cb
      ∧ Firebase.CustomerBalance.totalSales cb = 80%float.
Proof.
  split; [reflexivity|].
  destruct (X12_Firebase_createSale_moves_the_ledger FirebaseExample.db "s2"
              FirebaseExample.aSale [] FirebaseExample.jan16 eq_refl)
    as (db' & cb & doc & Hrun & _ & _ & _ & _ & Hcb & Hts & _).
  exists db', cb. split; [exact Hrun|]. split; [exact Hcb|].
  rewrite Hts.
  assert (db' = (default (FirebaseExample.db, "")
                   (Firebase.createSale FirebaseExample.db "s2"
                      FirebaseExample.aSale [] FirebaseExample.jan16)).1)
    as -> by (by rewrite Hrun).
  vm_compute. reflexivity.
Defined.

(** X13. [createReturn] of the document-database client, for a customer
    with a non-empty identifier, stores the return under the generated
    identifier and leaves an up-to-date balance record for the customer of
    the return: the record holds the totals of the database after the
    call, and the sales and payments totals are those of the database
    before. *)
Theorem X13_Firebase_createReturn_moves_the_ledger (db : Firebase.t)
    (newId : string) (data : Firebase.ReturnData.t)
    (items : list (string * Firebase.ReturnItem.t)) (now : Date) :
  Firebase.truthy (Firebase.ReturnData.customerId data) = true →
  let c := Firebase.ReturnData.customerId data in
  ∃ db' cb doc,
    Firebase.createReturn db newId data items now = Some (db', newId)
    ∧ Firebase.returns db' = <[newId := doc]> (Firebase.returns db)
    ∧ Firebase.Return.customerId doc = c
    ∧ Firebase.Return.totalAmount doc = Firebase.ReturnData.totalAmount data
    ∧ Firebase.getCustomerBalance db' c = Some cb
    ∧ Firebase.CustomerBalance.totalSales cb
      = FirebaseLedger.totalSalesOf db' c
    ∧ FirebaseLedger.totalSalesOf db' c = FirebaseLedger.totalSalesOf db c
    ∧ Firebase.CustomerBalance.totalPayments cb
      = FirebaseLedger.totalPaymentsOf db' c
    ∧ FirebaseLedger.totalPaymentsOf db' c
      = FirebaseLedger.totalPaymentsOf db c
    ∧ Firebase.CustomerBalance.totalReturns cb
      = FirebaseLedger.totalReturnsOf db' c
    ∧ Firebase.CustomerBalance.balance cb
      = (FirebaseLedger.totalSalesOf db' c
         - FirebaseLedger.totalPaymentsOf db' c
         - FirebaseLedger.totalReturnsOf db' c)%float.
Proof.
  intros _ c.
  destruct (FirebaseLedgerFacts.createReturn_written db newId data items now)
    as (db2 & doc & Hrun & Hreturns & Hc & Hamt & _ & _ & Hsales & Hpayments
        & _).
  fold c in Hrun, Hc.
  destruct (FirebaseLedgerFacts.updateCustomerBalance_up_to_date db2 c now)
    as (db' & cb & Hupd & Hs' & Hr' & Hp' & _ & Hcb & Hts & Htr & Htp & Hb
        & _).
  rewrite Hupd in Hrun. simpl in Hrun.
  exists db', cb, doc. split; [exact Hrun|].
  split; [by rewrite Hr'|]. split; [exact Hc|]. split; [exact Hamt|].
  split; [exact Hcb|]. split; [exact Hts|].
  split.
  { apply FirebaseLedgerFacts.totalSalesOf_same_sales. by rewrite Hs'. }
  split; [exact Htp|].
  split.
  { apply FirebaseLedgerFacts.totalPaymentsOf_same_sales.
    - by rewrite Hs'.
    - by rewrite Hp'. }
  split; [exact Htr|exact Hb].
Qed.

Lemma X13_witness :
  Firebase.truthy "c1" = true
  ∧ ∃ db' cb,
      Firebase.createReturn FirebaseExample.db "r1"
        (Firebase.ReturnData.mk "" "s1" "c1" FirebaseExample.jan16 10
           "dented" "u1")
        [] FirebaseExample.jan16 = Some (db', "r1")
      ∧ Firebase.getCustomerBalance db' "c1" = Some cb
      ∧ Firebase.CustomerBalance.balance cb = 10%float.
Proof.
  split; [reflexivity|].
  destruct (X13_Firebase_createReturn_moves_the_ledger FirebaseExample.db
              "r1"
              (Firebase.ReturnData.mk "" "s1" "c1" FirebaseExample.jan16 10
                 "dented" "u1")
              [] FirebaseExample.jan16 eq_refl)
    as (db' & cb & doc & Hrun & _ & _ & _ & Hcb & _ & _ & _ & _ & _ & Hb).
  exists db', cb. split; [exact Hrun|]. split; [exact Hcb|].
  rewrite Hb.
  assert (db' = (default (FirebaseExample.db, "")
                   (Firebase.createReturn FirebaseExample.db "r1"
                      (Firebase.ReturnData.mk "" "s1" "c1"
                         FirebaseExample.jan16 10 "dented" "u1")
                      [] FirebaseExample.jan16)).1)
    as -> by (by rewrite Hrun).
  vm_compute. reflexivity.
Defined.

(** X14. [createPayment] of the document-database client on an existing
    sale, whose customer has a non-empty identifier, stores the payment
    under the generated identifier and leaves an up-to-date balance record
    for the customer of that sale: the record holds the totals of the
    database after the call, and the sales and returns totals are those of
    the database before, although the sale is rewritten. *)
Theorem X14_Firebase_createPayment_moves_the_ledger (db : Firebase.t)
    (newId : string) (data : Firebase.PaymentData.t) (now : Date)
    (sale : Firebase.Sale.t) :
  Firebase.sales db !! Firebase.PaymentData.saleId data = Some sale →
  Firebase.truthy (Firebase.Sale.customerId sale) = true →
  let c := Firebase.Sale.customerId sale in
  ∃ db' cb,
    Firebase.createPayment db newId data now = Some (db', newId)
    ∧ Firebase.payments db'
      = <[newId := FirebaseLedger.paymentOf data now]> (Firebase.payments db)
    ∧ FirebaseLedger.is_sale_of db' c (Firebase.PaymentData.saleId data)
    ∧ Firebase.getCustomerBalance db' c = Some cb
    ∧ Firebase.CustomerBalance.totalSales cb
      = FirebaseLedger.totalSalesOf db' c
    ∧ FirebaseLedger.totalSalesOf db' c = FirebaseLedger.totalSalesOf db c
    ∧ Firebase.CustomerBalance.totalReturns cb
      = FirebaseLedger.totalReturnsOf db' c
    ∧ FirebaseLedger.totalReturnsOf db' c = FirebaseLedger.totalReturnsOf db c
    ∧ Firebase.CustomerBalance.totalPayments cb
      = FirebaseLedger.totalPaymentsOf db' c
    ∧ Firebase.CustomerBalance.balance cb
      = (FirebaseLedger.totalSalesOf db' c
         - FirebaseLedger.totalPaymentsOf db' c
         - FirebaseLedger.totalReturnsOf db' c)%float.
Proof.
  intros Hsale _ c.
  destruct (FirebasePaymentFacts.createPayment_written db newId data now sale
              Hsale)
    as (db3 & sale' & Hrun & Hsales & Hc & Hamt & Hpayments & Hreturns & _).
  fold c in Hrun.
  destruct (FirebaseLedgerFacts.updateCustomerBalance_up_to_date db3 c now)
    as (db' & cb & Hupd & Hs' & Hr' & Hp' & _ & Hcb & Hts & Htr & Htp & Hb
        & _).
  rewrite Hupd in Hrun. simpl in Hrun.
  exists db', cb. split; [exact Hrun|].
  split; [by rewrite Hp'|].
  split.
  { unfold FirebaseLedger.is_sale_of, selected.
    rewrite Hs', Hsales, lookup_insert_eq. exact Hc. }
  split; [exact Hcb|]. split; [exact Hts|].
  split.
  { unfold FirebaseLedger.totalSalesOf. rewrite Hs', Hsales.
    apply (FirebasePaymentFacts.Js_sum_getDocs_rewrite _ _ _ _ sale sale'
             Hsale); simpl; [by rewrite Hc|by rewrite Hamt]. }
  split; [exact Htr|].
  split.
  { apply FirebaseLedgerFacts.totalReturnsOf_same_returns.
    by rewrite Hr'. }
  split; [exact Htp|exact Hb].
Qed.

Lemma X14_witness :
  let db := FirebaseRounding.two_paid in
  Firebase.sales db !! "s1"
  = Some (Firebase.Sale.mk "INV-202401-0001" "c1" FirebaseRounding.jan15
            (90 / 100) 0 (90 / 100) cash partially_paid "" "u1"
            FirebaseRounding.jan15 FirebaseRounding.jan15)
  ∧ Firebase.truthy "c1" = true
  ∧ ∃ db' cb,
      Firebase.createPayment db "y3" (FirebaseRounding.pay 20)
        FirebaseRounding.jan15 = Some (db', "y3")
      ∧ Firebase.getCustomerBalance db' "c1" = Some cb
      ∧ Firebase.CustomerBalance.totalSales cb = (90 / 100)%float
      ∧ (0 <? Firebase.CustomerBalance.balance cb)%float = true.
Proof.
  intros db. split; [reflexivity|]. split; [reflexivity|].
  destruct (X14_Firebase_createPayment_moves_the_ledger db "y3"
              (FirebaseRounding.pay 20) FirebaseRounding.jan15 _ eq_refl
              eq_refl)
    as (db' & cb & Hrun & _ & _ & Hcb & Hts & Hsame & _ & _ & _ & Hb).
  exists db', cb. split; [exact Hrun|]. split; [exact Hcb|]. split.
  - rewrite Hts, Hsame. vm_compute. reflexivity.
  - rewrite Hb.
    assert (db' = (default (db, "")
                     (Firebase.createPayment db "y3" (FirebaseRounding.pay 20)
                        FirebaseRounding.jan15)).1)
      as -> by (by rewrite Hrun).
    vm_compute. reflexivity.
Defined.

(** X15. A sale followed by a return that gives back, product by product,
    the quantities that the sale took leaves the stock of every product as
    it was; both calls succeed whatever the items are. *)
Theorem X15_Firebase_full_return_restores_the_stock (db : Firebase.t)
    (saleId : string) (saleData : Firebase.SaleData.t)
    (items : list (string * Firebase.SaleItem.t)) (now : Date)
    (returnId : string) (returnData : Firebase.ReturnData.t)
    (returned : list (string * Firebase.ReturnItem.t)) (now' : Date) :
  (∀ productId,
     FirebaseLedger.returnedQuantityOf productId returned
     = FirebaseLedger.quantityOf productId items) →
  ∃ db1 db2,
    Firebase.createSale db saleId saleData items now = Some (db1, saleId)
    ∧ Firebase.createReturn db1 returnId returnData returned now'
      = Some (db2, returnId)
    ∧ ∀ productId,
        FirebaseLedger.stockOf db2 productId
        = FirebaseLedger.stockOf db productId.
Proof.
  intros Hsame.
  destruct (FirebaseSales.createSale_spec db saleId saleData items now)
    as (db1 & doc & Hrun1 & _ & _ & _ & Hstock1 & _).
  destruct (FirebaseSales.createReturn_spec db1 returnId returnData returned
              now')
    as (db2 & Hrun2 & Hstock2 & _).
  exists db1, db2. split; [exact Hrun1|]. split; [exact Hrun2|].
  intros k. rewrite Hstock2, Hstock1, Hsame.
  destruct (FirebaseLedger.stockOf db k) as [s|]; simpl; [|done].
  f_equal. lia.
Qed.

Lemma X15_witness :
  (∀ productId,
     FirebaseLedger.returnedQuantityOf productId
       [("j1", Firebase.ReturnItem.mk "p1" 3 10 30)]
     = FirebaseLedger.quantityOf productId [("i1", FirebaseExample.tins "p1" 3)])
  ∧ ∃ db1 db2,
      Firebase.createSale FirebaseExample.db "s2" FirebaseExample.aSale
        [("i1", FirebaseExample.tins "p1" 3)] FirebaseExample.jan16
      = Some (db1, "s2")
      ∧ Firebase.createReturn db1 "r1"
          (Firebase.ReturnData.mk "" "s2" "c1" FirebaseExample.jan17 30 ""
             "u1")
          [("j1", Firebase.ReturnItem.mk "p1" 3 10 30)] FirebaseExample.jan17
        = Some (db2, "r1")
      ∧ FirebaseLedger.stockOf db2 "p1" = Some 7.
Proof.
  assert (∀ productId,
     FirebaseLedger.returnedQuantityOf productId
       [("j1", Firebase.ReturnItem.mk "p1" 3 10 30)]
     = FirebaseLedger.quantityOf productId [("i1", FirebaseExample.tins "p1" 3)])
    as Hsame.
  { intros productId. unfold FirebaseLedger.returnedQuantityOf,
      FirebaseLedger.quantityOf.
    rewrite !sumZ_filter_cons. simpl. reflexivity. }
  split; [exact Hsame|].
  destruct (X15_Firebase_full_return_restores_the_stock FirebaseExample.db
              "s2" FirebaseExample.aSale [("i1", FirebaseExample.tins "p1" 3)]
              FirebaseExample.jan16 "r1"
              (Firebase.ReturnData.mk "" "s2" "c1" FirebaseExample.jan17 30 ""
                 "u1")
              [("j1", Firebase.ReturnItem.mk "p1" 3 10 30)]
              FirebaseExample.jan17 Hsame)
    as (db1 & db2 & Hrun1 & Hrun2 & Hstock).
  exists db1, db2. split; [exact Hrun1|]. split; [exact Hrun2|].
  rewrite Hstock. reflexivity.
Defined.

(** X16. Deleting a customer removes the customer document and nothing
    else.  A sale of the deleted customer is still read by [getSale], with
    its document and items as before and [null] for its customer; the
    balance record of the customer and the sales it is computed from stay
    in the database. *)
Theorem X16_Firebase_deleteCustomer_does_not_cascade (db : Firebase.t)
    (id : string) (sale : Firebase.Sale.t) :
  Firebase.sales db !! id = Some sale →
  Firebase.truthy (Firebase.Sale.customerId sale) = true →
  let c := Firebase.Sale.customerId sale in
  let db' := (Firebase.deleteCustomer db c).1 in
  ∃ before after,
    Firebase.getSaleJoined db id = Some before
    ∧ Firebase.getSaleJoined db' id = Some after
    ∧ Firebase.SaleView.customer before = Firebase.join (Firebase.getCustomer db c)
    ∧ Firebase.SaleView.customer after = Firebase.missing
    ∧ Firebase.SaleView.doc after = sale
    ∧ Firebase.SaleView.items after = Firebase.SaleView.items before
    ∧ Firebase.getCustomerBalance db' c = Firebase.getCustomerBalance db c
    ∧ FirebaseLedger.totalSalesOf db' c = FirebaseLedger.totalSalesOf db c
    ∧ FirebaseLedger.totalPaymentsOf db' c
      = FirebaseLedger.totalPaymentsOf db c.
Proof.
  intros Hsale Htruthy c db'.
  unfold Firebase.getSaleJoined, Firebase.getDoc.
  assert (Firebase.sales db' = Firebase.sales db) as Hs by reflexivity.
  rewrite Hs, Hsale, Htruthy.
  eexists _, _. split; [reflexivity|]. split; [reflexivity|].
  cbn [Firebase.SaleView.customer Firebase.SaleView.doc
       Firebase.SaleView.items].
  split; [reflexivity|]. split.
  { unfold Firebase.getCustomer, Firebase.getDoc. subst db'. simpl.
    unfold Firebase.deleteDoc. by rewrite lookup_delete_eq. }
  split; [reflexivity|]. split; [reflexivity|].
  split; [reflexivity|]. split; [reflexivity|]. reflexivity.
Qed.

Lemma X16_witness :
  let db' := (Firebase.deleteCustomer FirebaseExample.db "c1").1 in
  Firebase.sales FirebaseExample.db !! "s1"
  = Some (Firebase.Sale.mk "INV-202401-0001" "c1" FirebaseExample.jan15
            30 0 30 cash partially_paid "" "u1" FirebaseExample.jan15
            FirebaseExample.jan15)
  ∧ Firebase.truthy "c1" = true
  ∧ ∃ after,
      Firebase.getSaleJoined db' "s1" = Some after
      ∧ Firebase.SaleView.customer after = Firebase.missing.
Proof.
  intros db'. split; [reflexivity|]. split; [reflexivity|].
  destruct (X16_Firebase_deleteCustomer_does_not_cascade FirebaseExample.db
              "s1" _ eq_refl eq_refl)
    as (before & after & _ & Hafter & _ & Hmissing & _).
  exists after. split; [exact Hafter|exact Hmissing].
Defined.

(** X18. The updates of the document-database client reject exactly when
    the document they name does not exist: [updateCustomer],
    [updateProduct] and [updateSale] (with or without replacement items)
    never create a document, and never fail on one that exists. *)
Theorem X18_Firebase_updates_reject_missing_documents (db : Firebase.t) :
  (∀ id data now,
     Firebase.updateCustomer db id data now = None
     ↔ Firebase.getCustomer db id = None)
  ∧ (∀ id data now,
       Firebase.updateProduct db id data now = None
       ↔ Firebase.getProduct db id = None)
  ∧ (∀ id data items now,
       Firebase.updateSale db id data items now = None
       ↔ Firebase.getSale db id = None).
Proof.
  split; [|split].
  - intros id data now.
    unfold Firebase.updateCustomer, Firebase.updateDoc, Firebase.getCustomer,
      Firebase.getDoc.
    by destruct (Firebase.customers db !! id).
  - intros id data now.
    unfold Firebase.updateProduct, Firebase.updateDoc, Firebase.getProduct,
      Firebase.getDoc.
    by destruct (Firebase.products db !! id).
  - intros id data items now. unfold Firebase.getSale, Firebase.getDoc.
    destruct (Firebase.sales db !! id) as [sale|] eqn:Hsale.
    + destruct (FirebaseLedgerFacts.updateSale_unfold db id data items now
                  sale Hsale) as (db2 & Hrun & _).
      destruct (FirebasePayment.updateCustomerBalance_frame db2
                  (Firebase.Sale.customerId (Firebase.Sale_merge data now sale))
                  now) as (balances & Hbal).
      rewrite Hrun, Hbal. done.
    + unfold Firebase.updateSale, Firebase.updateDoc. by rewrite Hsale.
Qed.

Module FirebaseReturnNumbering.
Import Firebase FirebaseLedger FirebaseNumbering FirebaseLedgerFacts.

Lemma lastReturnNumber_nonneg db : 0 ≤ lastReturnNumber db.
Proof.
  unfold lastReturnNumber.
  destruct (latestDoc Return.createdAt (returns db)) as [doc|]; [|done].
  rewrite lastNumberOf_numericSuffix. apply JsFacts.parseInt_nonneg.
Qed.

Lemma lastReturnNumber_empty db : returns db = ∅ → lastReturnNumber db = 0.
Proof.
  intros Hempty. unfold lastReturnNumber, latestDoc.
  by rewrite Hempty, FirebaseFacts.getDocs_empty.
Qed.

End FirebaseReturnNumbering.

(** X19. Return numbers of the document-database client.  [createReturn]
    stamped later than every stored return stores its return under the
    number [RET-YYYYMM-NNNN] that follows the number of the latest stored
    return, whatever number the caller passed, and that return becomes the
    latest; the sales play no part, and when no return is stored the number
    is 1. *)
Theorem X19_Firebase_return_numbers (db : Firebase.t) (newId : string)
    (data : Firebase.ReturnData.t)
    (items : list (string * Firebase.ReturnItem.t)) (now : Date) :
  map_Forall (λ _ doc, getTime (Firebase.Return.createdAt doc) < getTime now)
             (Firebase.returns db) →
  let n := Firebase.lastReturnNumber db + 1 in
  ∃ db' doc,
    Firebase.createReturn db newId data items now = Some (db', newId)
    ∧ Firebase.returns db' !! newId = Some doc
    ∧ Firebase.Return.returnNumber doc = documentNumber "RET" now n
    ∧ numericSuffix (Firebase.Return.returnNumber doc) = n
    ∧ Firebase.lastReturnNumber db' = n
    ∧ (Firebase.returns db = ∅ → n = 1).
Proof.
  intros Hlater n.
  destruct (FirebaseLedgerFacts.createReturn_written db newId data items now)
    as (db2 & doc & Hrun & Hreturns & _ & _ & Hnum & Hat & _).
  destruct (FirebasePayment.updateCustomerBalance_frame db2
              (Firebase.ReturnData.customerId data) now) as (balances & Hbal).
  rewrite Hbal in Hrun. simpl in Hrun.
  pose proof (FirebaseReturnNumbering.lastReturnNumber_nonneg db) as Hnonneg.
  assert (numericSuffix (Firebase.Return.returnNumber doc) = n) as Hsuffix.
  { rewrite Hnum. apply JsFacts.numericSuffix_documentNumber. lia. }
  eexists _, doc. split; [exact Hrun|].
  split.
  { cbn [Firebase.returns Firebase.with_customerBalances].
    rewrite Hreturns. apply lookup_insert_eq. }
  split; [exact Hnum|]. split; [exact Hsuffix|]. split.
  - unfold Firebase.lastReturnNumber at 1.
    cbn [Firebase.returns Firebase.with_customerBalances].
    rewrite Hreturns, FirebaseNumbering.latestDoc_insert.
    + simpl. by rewrite FirebaseNumbering.lastNumberOf_numericSuffix.
    + rewrite Hat. exact Hlater.
  - intros Hempty. subst n.
    by rewrite FirebaseReturnNumbering.lastReturnNumber_empty.
Qed.

Lemma X19_witness :
  let db :=
    Firebase.with_returns FirebaseExample.db
      {[ "r1" := Firebase.Return.mk "RET-202401-0007" "s1" "c1"
                   FirebaseExample.jan15 10 "" "u1" FirebaseExample.jan15
                   FirebaseExample.jan15 ]} in
  map_Forall (λ _ doc, getTime (Firebase.Return.createdAt doc)
                       < getTime FirebaseExample.jan16)
             (Firebase.returns db)
  ∧ ∃ db' doc,
      Firebase.createReturn db "r2"
        (Firebase.ReturnData.mk "anything" "s1" "c1" FirebaseExample.jan16 5
           "" "u1") [] FirebaseExample.jan16 = Some (db', "r2")
      ∧ Firebase.returns db' !! "r2" = Some doc
      ∧ Firebase.Return.returnNumber doc = "RET-202401-0008".
Proof.
  intros db.
  assert (map_Forall (λ _ doc, getTime (Firebase.Return.createdAt doc)
                               < getTime FirebaseExample.jan16)
                     (Firebase.returns db)) as Hlater.
  { apply (bool_decide_unpack _). vm_compute. exact I. }
  split; [exact Hlater|].
  destruct (X19_Firebase_return_numbers db "r2"
              (Firebase.ReturnData.mk "anything" "s1" "c1"
                 FirebaseExample.jan16 5 "" "u1") [] FirebaseExample.jan16
              Hlater)
    as (db' & doc & Hrun & Hdoc & Hnum & _).
  exists db', doc. split; [exact Hrun|]. split; [exact Hdoc|].
  etrans; [exact Hnum|]. vm_compute. reflexivity.
Defined.

Module FirebaseReadFacts.
Import Firebase FirebaseLedger FirebaseLoops FirebasePayment FirebaseRead.

(** The whole of what [createSale] writes. *)
Lemma createSale_state db newId data items now :
  ∃ items' products' balances,
    createSale db newId data items now
    = Some (with_customerBalances
              (with_products
                 (with_saleItems
                    (with_sales db
                       (<[newId := saleOf data
                                     (documentNumber "INV" now
                                        (lastInvoiceNumber db + 1)) now]>
                          (sales db)))
                    items')
                 products')
              balances, newId)
    ∧ default ∅ (items' !! newId)
      = list_to_map (reverse items) ∪ saleItemsOf db newId.
Proof.
  unfold createSale, addDoc.
  match goal with |- context [forEach _ ?d _] => set (db1 := d) end.
  destruct (forEach_addItemToSale newId now items db1)
    as (items' & products' & Hrun & _ & Hitems & _).
  rewrite Hrun. simpl.
  edestruct updateCustomerBalance_frame as (balances & Hbal).
  rewrite Hbal. simpl.
  exists items', products', balances. split; [reflexivity|].
  rewrite Hitems. apply foldl_insert_list_to_map.
Qed.

Lemma itemsOf_docs (product : string * SaleItem.t → joined Product.t)
    (docs : list (string * SaleItem.t)) :
  (λ item, (SaleItemView.id item, SaleItemView.item item))
    <$> ((λ doc : string * SaleItem.t,
            {| SaleItemView.id := doc.1; SaleItemView.item := doc.2;
               SaleItemView.product := product doc |}) <$> docs)
  = docs.
Proof.
  induction docs as [|[k it] docs IH]; [done|]. csimpl. by rewrite IH.
Qed.

End FirebaseReadFacts.

(** X17. A sale that [createSale] has written for a customer with a
    non-empty identifier is read back by [getSale] as it was given: the
    fields of the call with the generated invoice number and the time of
    the call, the customer that the database holds under [customerId]
    ([null] when there is none), and exactly the items of the call,
    provided their identifiers are distinct and no items were filed under
    the new identifier before. *)
Theorem X17_Firebase_created_sale_is_read_back (db : Firebase.t)
    (newId : string) (data : Firebase.SaleData.t)
    (items : list (string * Firebase.SaleItem.t)) (now : Date) :
  Firebase.truthy (Firebase.SaleData.customerId data) = true →
  Firebase.saleItems db !! newId = None →
  NoDup items.*1 →
  ∃ db' sale,
    Firebase.createSale db newId data items now = Some (db', newId)
    ∧ Firebase.getSaleJoined db' newId = Some sale
    ∧ Firebase.SaleView.id sale = newId
    ∧ Firebase.SaleView.doc sale
      = FirebaseRead.saleOf data
          (documentNumber "INV" now (Firebase.lastInvoiceNumber db + 1)) now
    ∧ Firebase.SaleView.customer sale
      = Firebase.join
          (Firebase.getCustomer db (Firebase.SaleData.customerId data))
    ∧ FirebaseRead.itemsOf sale ≡ₚ items.
Proof.
  intros Hcustomer Hnone Hnodup.
  destruct (FirebaseReadFacts.createSale_state db newId data items now)
    as (items' & products' & balances & Hrun & Hitems).
  rewrite Hrun. eexists _, _. split; [reflexivity|].
  unfold Firebase.getSaleJoined, Firebase.getDoc.
  cbn [Firebase.sales Firebase.with_customerBalances Firebase.with_products
       Firebase.with_saleItems Firebase.with_sales].
  rewrite lookup_insert_eq.
  split; [reflexivity|]. split; [reflexivity|]. split; [reflexivity|].
  split.
  { cbn [Firebase.SaleView.customer FirebaseRead.saleOf
         Firebase.Sale.customerId]. by rewrite Hcustomer. }
  unfold FirebaseRead.itemsOf. cbn [Firebase.SaleView.items].
  rewrite FirebaseReadFacts.itemsOf_docs.
  unfold Firebase.saleItemsOf at 1.
  cbn [Firebase.saleItems Firebase.with_customerBalances
       Firebase.with_products Firebase.with_saleItems].
  rewrite Hitems. unfold Firebase.saleItemsOf. rewrite Hnone. simpl.
  rewrite (right_id_L ∅ (∪)).
  rewrite FirebaseFacts.getDocs_perm.
  rewrite map_to_list_to_map.
  - apply reverse_Permutation.
  - rewrite fmap_reverse. by rewrite reverse_Permutation.
Qed.

Lemma X17_witness :
  Firebase.truthy (Firebase.SaleData.customerId FirebaseExample.aSale) = true
  ∧ Firebase.saleItems FirebaseExample.db !! "s2" = None
  ∧ NoDup [("i1", FirebaseExample.tins "p1" 2);
           ("i2", FirebaseExample.tins "p9" 1)].*1
  ∧ ∃ db' sale,
      Firebase.createSale FirebaseExample.db "s2" FirebaseExample.aSale
        [("i1", FirebaseExample.tins "p1" 2);
         ("i2", FirebaseExample.tins "p9" 1)] FirebaseExample.jan16
      = Some (db', "s2")
      ∧ Firebase.getSaleJoined db' "s2" = Some sale
      ∧ FirebaseRead.itemsOf sale
        ≡ₚ [("i1", FirebaseExample.tins "p1" 2);
            ("i2", FirebaseExample.tins "p9" 1)].
Proof.
  assert (NoDup [("i1", FirebaseExample.tins "p1" 2);
                 ("i2", FirebaseExample.tins "p9" 1)].*1) as Hnodup.
  { apply (bool_decide_unpack _). vm_compute. exact I. }
  split; [reflexivity|]. split; [reflexivity|]. split; [exact Hnodup|].
  destruct (X17_Firebase_created_sale_is_read_back FirebaseExample.db "s2"
              FirebaseExample.aSale
              [("i1", FirebaseExample.tins "p1" 2);
               ("i2", FirebaseExample.tins "p9" 1)] FirebaseExample.jan16
              eq_refl eq_refl Hnodup)
    as (db' & sale & Hrun & Hread & _ & _ & _ & Hitems).
  exists db', sale. split; [exact Hrun|]. split; [exact Hread|exact Hitems].
Defined.

(** * The pages *)

Module ViewSaleFacts.
Import Firebase FirebaseLedger FirebasePayment ViewSale.

Lemma fetchSaleData_found db id sale_ :
  sales db !! id = Some sale_ →
  ∃ view,
    getSaleJoined db id = Some view
    ∧ SaleView.id view = id
    ∧ SaleView.doc view = sale_
    ∧ fetchSaleData db id
      = {| sale := Some view; payments := getPaymentsBySale db id |}.
Proof.
  intros Hsale. unfold fetchSaleData, getSaleJoined, getDoc. rewrite Hsale.
  eexists. split; [reflexivity|]. done.
Qed.

Lemma totalPaid_fetched db id view :
  totalPaid {| sale := Some view; payments := getPaymentsBySale db id |}
  = paidOn db id.
Proof. reflexivity. Qed.

End ViewSaleFacts.

(** X20. The page of a sale checks the amount of a payment against the
    balance due that it computes in doubles.  On a page that shows the
    sale and its payments as the database holds them, the balance due is
    the total of the sale minus the sum of the payments shown;
    [handleAddPayment] refuses an amount that is not above [0], or that is
    above the balance due, and writes nothing.  Any other amount is stored
    as a payment of the sale: the payments of the sale are then those
    that were there and the new one, the payment status of the sale
    follows from their sum as in [createPayment], and the page again
    shows what the database holds.  The call does not fail. *)
Theorem X20_handleAddPayment_checks_the_amount (db : Firebase.t)
    (id : string) (sale : Firebase.Sale.t) (currentUser : option string)
    (data : ViewSale.PaymentFormValues) (newId : string) (now : Date) :
  Firebase.sales db !! id = Some sale →
  Firebase.payments db !! newId = None →
  Firebase.truthy (Firebase.Sale.customerId sale) = true →
  let due :=
    (Firebase.Sale.totalAmount sale - FirebaseLedger.paidOn db id)%float in
  match ViewSale.handleAddPayment db id (ViewSale.fetchSaleData db id)
          currentUser data newId now with
  | ViewSale.payment_added db' s' =>
      (ViewSale.amount data <=? 0)%float = false
      ∧ (due <? ViewSale.amount data)%float = false
      ∧ (∃ payment,
           Firebase.payments db'
           = <[newId := payment]> (Firebase.payments db)
           ∧ Firebase.Payment.saleId payment = id
           ∧ Firebase.Payment.amount payment = ViewSale.amount data
           ∧ Firebase.getPaymentsBySale db' id
             ≡ₚ (newId, payment) :: Firebase.getPaymentsBySale db id)
      ∧ s' = ViewSale.fetchSaleData db' id
      ∧ ∃ sale',
          Firebase.sales db' !! id = Some sale'
          ∧ Firebase.Sale.totalAmount sale' = Firebase.Sale.totalAmount sale
          ∧ status_rule_on_doubles (FirebaseLedger.paidOn db' id)
              (Firebase.Sale.totalAmount sale)
              (Firebase.Sale.paymentStatus sale')
  | ViewSale.invalid_amount ViewSale.must_be_greater_than_zero =>
      (ViewSale.amount data <=? 0)%float = true
  | ViewSale.invalid_amount ViewSale.cannot_exceed_the_balance_due =>
      (ViewSale.amount data <=? 0)%float = false
      ∧ (due <? ViewSale.amount data)%float = true
  | ViewSale.no_sale | ViewSale.failed_to_add_payment => False
  end.
Proof.
  intros Hsale Hfree _ due.
  destruct (ViewSaleFacts.fetchSaleData_found db id sale Hsale)
    as (view & Hview & Hid & Hdoc & ->).
  unfold ViewSale.handleAddPayment. cbn [ViewSale.sale].
  assert (ViewSale.balanceDue
            {| ViewSale.sale := Some view;
               ViewSale.payments := Firebase.getPaymentsBySale db id |}
          = due) as ->.
  { unfold ViewSale.balanceDue. cbn [ViewSale.sale].
    by rewrite ViewSaleFacts.totalPaid_fetched, Hdoc. }
  destruct (ViewSale.amount data <=? 0)%float eqn:Hle; [reflexivity|].
  destruct (due <? ViewSale.amount data)%float eqn:Hgt; [done|].
  rewrite Hid.
  match goal with
  | |- context [Firebase.createPayment db newId ?d now] => set (call := d)
  end.
  assert (Firebase.PaymentData.saleId call = id) as Hcall by reflexivity.
  destruct (Firebase_createPayment_on_sale db newId call now sale)
    as (db' & Hrun & Hpayments & Hperm & sale' & Hsale' & Hamt & Hrule);
    [by rewrite Hcall|done|].
  rewrite Hcall in Hperm, Hsale', Hrule. rewrite Hrun.
  split; [done|]. split; [done|].
  split.
  { exists (FirebaseLedger.paymentOf call now). by repeat split. }
  split.
  { unfold ViewSale.fetchSaleData.
    assert (is_Some (Firebase.getSaleJoined db' id)) as [view' Hview'].
    { unfold Firebase.getSaleJoined, Firebase.getDoc.
      rewrite Hsale'. by eexists. }
    by rewrite Hview'. }
  by exists sale'.
Qed.

Lemma X20_witness :
  Firebase.sales FirebaseExample.db !! "s1"
  = Some (Firebase.Sale.mk "INV-202401-0001" "c1" FirebaseExample.jan15
            30 0 30 cash partially_paid "" "u1" FirebaseExample.jan15
            FirebaseExample.jan15)
  ∧ Firebase.payments FirebaseExample.db !! "y2" = None
  ∧ Firebase.truthy "c1" = true
  ∧ ∃ db' s' sale',
      ViewSale.handleAddPayment FirebaseExample.db "s1"
        (ViewSale.fetchSaleData FirebaseExample.db "s1") (Some "u1")
        {| ViewSale.amount := 20; ViewSale.paymentMethod := cash;
           ViewSale.reference := None |} "y2" FirebaseExample.jan16
      = ViewSale.payment_added db' s'
      ∧ Firebase.sales db' !! "s1" = Some sale'
      ∧ Firebase.Sale.totalAmount sale' = 30%float.
Proof.
  split; [reflexivity|]. split; [reflexivity|]. split; [reflexivity|].
  pose proof (X20_handleAddPayment_checks_the_amount FirebaseExample.db "s1"
                _ (Some "u1")
                {| ViewSale.amount := 20; ViewSale.paymentMethod := cash;
                   ViewSale.reference := None |} "y2" FirebaseExample.jan16
                eq_refl eq_refl eq_refl) as H.
  cbv zeta in H.
  destruct (ViewSale.handleAddPayment _ _ _ _ _ _ _)
    as [|[|]|db' s'|].
  - destruct H.
  - exfalso. vm_compute in H. discriminate H.
  - exfalso. destruct H as (_ & Hdue).
    vm_compute in Hdue. discriminate Hdue.
  - destruct H as (_ & _ & _ & _ & sale' & Hsale' & Hamt & _).
    exists db', s', sale'. split; [reflexivity|]. split; [exact Hsale'|].
    exact Hamt.
  - destruct H.
Defined.

(** The balance due is a difference of doubles: on the invoice of 0.90 on
    which 0.20 and 0.50 have been paid it is 0.9 - 0.7 =
    0.20000000000000007, and on an invoice of 0.30 on which 0.20 has been
    paid it is 0.09999999999999998, so that the page refuses the last
    instalment of 0.10. *)
Example ViewSale_refuses_the_last_instalment :
  match
    Firebase.createSale FirebaseExample.empty "s1"
      (Firebase.SaleData.mk "" "c1" FirebaseExample.jan15 (30 / 100) 0
         (30 / 100) cash pending "" "u1") [] FirebaseExample.jan15
    ≫= λ r, Firebase.createPayment r.1 "y1"
               (Firebase.PaymentData.mk "s1" (20 / 100) cash
                  FirebaseExample.jan15 "" "u1") FirebaseExample.jan15
  with
  | Some (db, _) =>
      (ViewSale.balanceDue (ViewSale.fetchSaleData db "s1") <? 10 / 100)%float
      = true
      ∧ ViewSale.handleAddPayment db "s1" (ViewSale.fetchSaleData db "s1")
          (Some "u1")
          {| ViewSale.amount := 10 / 100; ViewSale.paymentMethod := cash;
             ViewSale.reference := None |} "y2" FirebaseExample.jan16
        = ViewSale.invalid_amount ViewSale.cannot_exceed_the_balance_due
  | None => False
  end.
Proof. vm_compute. split; reflexivity. Qed.

Module FinancesFacts.
Import Firebase Finances FinancesReport.

(** The amounts of the payments made by [method], added to [z] in the
    order of the payments. *)
Lemma foldl_add_to payments : ∀ methods,
  let by_method (method : PaymentMethod) (z : number) :=
    foldl (λ sum (payment : string * Payment.t),
             (sum + Payment.amount payment.2)%float) z
          (filter (λ payment, Payment.paymentMethod payment.2 = method)
                  payments) in
  foldl (λ methods payment,
           add_to methods (Payment.paymentMethod payment.2)
                  (Payment.amount payment.2))
        methods payments
  = {| methods_cash := by_method cash (methods_cash methods);
       methods_credit_card :=
         by_method credit_card (methods_credit_card methods);
       methods_bank_transfer :=
         by_method bank_transfer (methods_bank_transfer methods);
       methods_check := by_method check (methods_check methods) |}.
Proof.
  induction payments as [|[k p] payments IH]; intros methods by_method.
  - by destruct methods.
  - subst by_method. cbn [foldl]. rewrite IH. rewrite !filter_cons. simpl.
    destruct (Payment.paymentMethod p); simpl; f_equal;
      repeat case_decide; try discriminate; try congruence; done.
Qed.




End FinancesFacts.

(** X21. The pie chart of payment methods has the four slices Cash, Credit
    Card, Bank Transfer and Check, in that order, and each slice is the
    sum of the payments made by that method: their amounts added up in
    double precision, in the order of the payments. *)
Theorem X21_payment_methods_by_slice
    (payments : list (string * Firebase.Payment.t)) :
  let chart := Finances.calculatePaymentMethods payments in
  Finances.name <$> chart = ["Cash"; "Credit Card"; "Bank Transfer"; "Check"]
  ∧ Finances.value <$> chart
    = [FinancesReport.paidBy cash payments;
       FinancesReport.paidBy credit_card payments;
       FinancesReport.paidBy bank_transfer payments;
       FinancesReport.paidBy check payments]
  ∧ Finances.color <$> chart = ["#1976d2"; "#f50057"; "#4caf50"; "#ff9800"].
Proof.
  intros chart. subst chart. unfold Finances.calculatePaymentMethods.
  rewrite FinancesFacts.foldl_add_to. cbn.
  split; [reflexivity|]. split; reflexivity.
Qed.

(** The slices need not add up to the total of payments that
    [calculateFinancials] shows: for a cash payment of 0.10 and card
    payments of 0.20 and 0.30 the slices are 0.1 and 0.5, which add up to
    0.6, and the total is (0.1 + 0.2) + 0.3 = 0.6000000000000001. *)
Example Finances_slices_and_total :
  let paid method hundredths :=
    Firebase.Payment.mk "s1" (hundredths / 100) method FirebaseExample.jan15
      "" "u1" FirebaseExample.jan15 in
  let payments :=
    [("y1", paid cash 10%float); ("y2", paid credit_card 20%float);
     ("y3", paid credit_card 30%float)] in
  let chart := Finances.calculatePaymentMethods payments in
  Finances.value <$> chart = [10 / 100; 50 / 100; 0; 0]%float
  ∧ (Js.sum Finances.value chart <? Finances.totalPaid payments)%float = true.
Proof. vm_compute. split; reflexivity. Qed.


(** X23. The updates of the in-process store never create a record and
    never move one.  On a store reached from a new instance,
    [updateCustomer], [updateProduct] and [updateSale] return [undefined]
    and leave the store as it is when nothing is stored under the
    identifier; otherwise they return the record that is now stored under
    that identifier, which still carries it, and every other record of the
    collection is as before. *)
Theorem X23_updates_keep_the_identifiers (ops : list MemReach.Op) :
  let st := MemReach.run ops in
  (∀ id data now,
     let r := MemStorage.updateCustomer st id data now in
     match MemStorage.getCustomer st id with
     | None => r = (st, None)
     | Some _ =>
         ∃ updated,
           r.2 = Some updated
           ∧ MemStorage.getCustomer r.1 id = Some updated
           ∧ MemStorage.Customer.id updated = id
           ∧ ∀ other, other ≠ id →
               MemStorage.getCustomer r.1 other
               = MemStorage.getCustomer st other
     end)
  ∧ (∀ id data now,
       let r := MemStorage.updateProduct st id data now in
       match MemStorage.getProduct st id with
       | None => r = (st, None)
       | Some _ =>
           ∃ updated,
             r.2 = Some updated
             ∧ MemStorage.getProduct r.1 id = Some updated
             ∧ MemStorage.Product.id updated = id
             ∧ ∀ other, other ≠ id →
                 MemStorage.getProduct r.1 other
                 = MemStorage.getProduct st other
       end)
  ∧ (∀ id data now,
       let r := MemStorage.updateSale st id data now in
       match MemStorage.getSale st id with
       | None => r = (st, None)
       | Some _ =>
           ∃ updated,
             r.2 = Some updated
             ∧ MemStorage.getSale r.1 id = Some updated
             ∧ MemStorage.Sale.id updated = id
             ∧ ∀ other, other ≠ id →
                 MemStorage.getSale r.1 other = MemStorage.getSale st other
       end).
Proof.
  intros st.
  destruct (MemReachFacts.well_keyed_run ops)
    as [Hc Hp Hs _ _ _ _ _ _ _ _]. fold st in Hc, Hp, Hs.
  split; [|split]; intros id data now r; subst r.
  - unfold MemStorage.getCustomer, MemStorage.updateCustomer.
    destruct (MemStorage.customersMap st !! id) as [old|] eqn:Hold; [|done].
    eexists. split; [reflexivity|]. simpl.
    split; [apply lookup_insert_eq|].
    split; [exact (proj1 (MemReachFacts.keyed_lookup _ _ _ _ _ Hc Hold))|].
    intros other Hne. by apply lookup_insert_ne.
  - unfold MemStorage.getProduct, MemStorage.updateProduct.
    destruct (MemStorage.productsMap st !! id) as [old|] eqn:Hold; [|done].
    eexists. split; [reflexivity|]. simpl.
    split; [apply lookup_insert_eq|].
    split; [exact (proj1 (MemReachFacts.keyed_lookup _ _ _ _ _ Hp Hold))|].
    intros other Hne. by apply lookup_insert_ne.
  - unfold MemStorage.getSale, MemStorage.updateSale.
    destruct (MemStorage.salesMap st !! id) as [old|] eqn:Hold; [|done].
    eexists. split; [reflexivity|]. simpl.
    split; [apply lookup_insert_eq|].
    split; [exact (proj1 (MemReachFacts.keyed_lookup _ _ _ _ _ Hs Hold))|].
    intros other Hne. by apply lookup_insert_ne.
Qed.

(** X24. [createSale] always starts the sale with an empty list of items.
    Line items that were added under the identifier before the sale
    existed are dropped from the sale, while the stock they took stays
    taken. *)
Theorem X24_createSale_drops_earlier_items (st : MemStorage.t)
    (item : MemStorage.InsertSaleItem.t) (now : Date)
    (ins : MemStorage.InsertSale.t) (now' : Date) :
  MemStorage.InsertSaleItem.saleId item = MemStorage.saleIdCounter st →
  let added := MemStorage.addSaleItem st item now in
  let r := MemStorage.createSale added.1 ins now' in
  MemStorage.Sale.id r.2 = MemStorage.InsertSaleItem.saleId item
  ∧ added.2 ∈ MemStorage.getSaleItems added.1 (MemStorage.Sale.id r.2)
  ∧ MemStorage.getSaleItems r.1 (MemStorage.Sale.id r.2) = []
  ∧ ∀ productId,
      MemLedger.stockOf r.1 productId = MemLedger.stockOf added.1 productId.
Proof.
  intros Hid added r.
  assert (MemStorage.Sale.id r.2 = MemStorage.InsertSaleItem.saleId item)
    as Hsale.
  { subst r added. unfold MemStorage.createSale. simpl. by rewrite Hid. }
  split; [exact Hsale|]. split.
  { rewrite Hsale. subst added.
    rewrite MemStock.addSaleItem_recorded.
    apply elem_of_app. right. apply list_elem_of_singleton. reflexivity. }
  split; [|reflexivity].
  subst r added. unfold MemStorage.getSaleItems, MemStorage.createSale.
  simpl. by rewrite lookup_insert_eq.
Qed.

Lemma X24_witness :
  let added :=
    MemStorage.addSaleItem MemExample.st
      (MemStorage.InsertSaleItem.mk 2 1 3 10 30) MemExample.jan15 in
  let r := MemStorage.createSale added.1 MemExample.aSale MemExample.jan15 in
  MemStorage.InsertSaleItem.saleId (MemStorage.InsertSaleItem.mk 2 1 3 10 30)
  = MemStorage.saleIdCounter MemExample.st
  ∧ MemStorage.getSaleItems r.1 2 = []
  ∧ MemLedger.stockOf r.1 1 = Some 4.
Proof.
  intros added r. split; [reflexivity|].
  destruct (X24_createSale_drops_earlier_items MemExample.st
              (MemStorage.InsertSaleItem.mk 2 1 3 10 30) MemExample.jan15
              MemExample.aSale MemExample.jan15 eq_refl)
    as (_ & _ & Hitems & Hstock).
  split; [exact Hitems|]. etrans; [apply Hstock|]. reflexivity.
Defined.

(** * The dashboard of the document-database client *)

Module FirebaseDashboard.
Import Firebase FirebaseLedger FirebaseLedgerFacts.

Lemma size_same_keys {A B} (m' : gmap string A) (m : gmap string B) :
  (∀ k, is_Some (m' !! k) ↔ is_Some (m !! k)) → size m' = size m.
Proof.
  intros Hkeys. rewrite <-!size_dom. f_equal.
  apply set_eq. intros k. rewrite !elem_of_dom. apply Hkeys.
Qed.

Lemma size_same_stock db db' :
  (∀ k, ∃ f : Z → Z, stockOf db' k = f <$> stockOf db k) →
  size (products db') = size (products db).
Proof.
  intros Hstock. apply size_same_keys. intros k.
  destruct (Hstock k) as (f & Hk). unfold stockOf in Hk.
  rewrite <-(fmap_is_Some Product.stock (products db' !! k)), Hk.
  by rewrite !fmap_is_Some.
Qed.

(** The sales total of the dashboard does not change when a sale is
    rewritten with the same total. *)
Lemma totalSales_rewrite (m : gmap string Sale.t) key sale sale' :
  m !! key = Some sale →
  Sale.totalAmount sale' = Sale.totalAmount sale →
  Js.sum (λ doc : string * Sale.t, Js.or_zero (Sale.totalAmount doc.2))
         (getDocs (<[key := sale']> m))
  = Js.sum (λ doc : string * Sale.t, Js.or_zero (Sale.totalAmount doc.2))
           (getDocs m).
Proof.
  intros Hid Hamt.
  pose (amount := λ doc : string * Sale.t,
                    Js.or_zero (Sale.totalAmount doc.2)).
  etrans; [symmetry; apply (Js_sum_fmap amount id)|].
  etrans; [|apply (Js_sum_fmap amount id)].
  f_equal. rewrite (FirebaseFacts.getDocs_rewrite m key sale sale' Hid).
  rewrite <-(MemDashboard.filter_all (rewritten key sale' <$> getDocs m)).
  rewrite <-(MemDashboard.filter_all (getDocs m)) at 2.
  apply (fmap_filter_rewritten
           (λ doc : string * Sale.t, Js.or_zero (Sale.totalAmount doc.2))
           (λ _, True) key sale sale'); [|done|simpl; by rewrite Hamt].
  apply Forall_forall. intros [k1 a1] H1 Hk1. simpl in *. subst k1.
  apply FirebaseFacts.elem_of_getDocs in H1. congruence.
Qed.

End FirebaseDashboard.

(** X25. The dashboard figures of the document-database client, for calls
    that name customers with non-empty identifiers.  A [createSale] leaves
    the counts of customers, products and returns as they were, although
    it rewrites the stock of products; a [createReturn] under a new
    identifier raises the count of returns by one and leaves the sales
    total and the other counts as they were: a return does not lower the
    sales total.  A [createPayment] changes none of the four figures, also
    when it rewrites the payment status of its sale. *)
Theorem X25_Firebase_dashboard_figures (db : Firebase.t) :
  let stats := Firebase.getDashboardStats db in
  (∀ newId data items now,
     Firebase.truthy (Firebase.SaleData.customerId data) = true →
     ∃ db',
       Firebase.createSale db newId data items now = Some (db', newId)
       ∧ Firebase.DashboardStats.totalCustomers
           (Firebase.getDashboardStats db')
         = Firebase.DashboardStats.totalCustomers stats
       ∧ Firebase.DashboardStats.totalProducts
           (Firebase.getDashboardStats db')
         = Firebase.DashboardStats.totalProducts stats
       ∧ Firebase.DashboardStats.totalReturns
           (Firebase.getDashboardStats db')
         = Firebase.DashboardStats.totalReturns stats)
  ∧ (∀ newId data items now,
       Firebase.returns db !! newId = None →
       Firebase.truthy (Firebase.ReturnData.customerId data) = true →
       ∃ db',
         Firebase.createReturn db newId data items now = Some (db', newId)
         ∧ Firebase.getDashboardStats db'
           = {| Firebase.DashboardStats.totalSales :=
                  Firebase.DashboardStats.totalSales stats;
                Firebase.DashboardStats.totalCustomers :=
                  Firebase.DashboardStats.totalCustomers stats;
                Firebase.DashboardStats.totalProducts :=
                  Firebase.DashboardStats.totalProducts stats;
                Firebase.DashboardStats.totalReturns :=
                  S (Firebase.DashboardStats.totalReturns stats) |})
  ∧ (∀ newId data now,
       (∀ sale,
          Firebase.sales db !! Firebase.PaymentData.saleId data = Some sale →
          Firebase.truthy (Firebase.Sale.customerId sale) = true) →
       ∃ db',
         Firebase.createPayment db newId data now = Some (db', newId)
         ∧ Firebase.getDashboardStats db' = stats).
Proof.
  intros stats. split; [|split].
  - intros newId data items now _.
    destruct (FirebaseSales.createSale_spec db newId data items now)
      as (db' & doc & Hrun & _ & _ & _ & Hstock & _).
    destruct (FirebaseLedgerFacts.createSale_written db newId data items now)
      as (db2 & doc2 & Hrun2 & Hsales & _ & Hamt & Hreturns & _ & Hcustomers
          & _).
    destruct (FirebasePayment.updateCustomerBalance_frame db2
                (Firebase.SaleData.customerId data) now) as (balances & Hbal).
    rewrite Hbal, Hrun in Hrun2. simpl in Hrun2. injection Hrun2 as Hdb'.
    exists db'. split; [exact Hrun|].
    assert (size (Firebase.products db') = size (Firebase.products db)) as Hp.
    { apply FirebaseDashboard.size_same_stock. intros k. eexists.
      apply Hstock. }
    subst stats. unfold Firebase.getDashboardStats.
    cbn [Firebase.DashboardStats.totalCustomers
         Firebase.DashboardStats.totalProducts
         Firebase.DashboardStats.totalReturns].
    rewrite Hp. rewrite Hdb'.
    cbn [Firebase.customers Firebase.returns Firebase.with_customerBalances].
    by rewrite Hreturns, Hcustomers.
  - intros newId data items now Hfree _.
    destruct (FirebaseSales.createReturn_spec db newId data items now)
      as (db' & Hrun & Hstock & _).
    destruct (FirebaseLedgerFacts.createReturn_written db newId data items now)
      as (db2 & doc2 & Hrun2 & Hreturns & _ & _ & _ & _ & Hsales & _
          & Hcustomers & _).
    destruct (FirebasePayment.updateCustomerBalance_frame db2
                (Firebase.ReturnData.customerId data) now)
      as (balances & Hbal).
    rewrite Hbal, Hrun in Hrun2. simpl in Hrun2. injection Hrun2 as Hdb'.
    exists db'. split; [exact Hrun|].
    assert (size (Firebase.products db') = size (Firebase.products db)) as Hp.
    { apply FirebaseDashboard.size_same_stock. intros k. eexists.
      apply Hstock. }
    subst stats. unfold Firebase.getDashboardStats. rewrite Hp.
    rewrite Hdb'.
    cbn [Firebase.sales Firebase.customers Firebase.returns
         Firebase.with_customerBalances Firebase.DashboardStats.totalSales
         Firebase.DashboardStats.totalCustomers
         Firebase.DashboardStats.totalProducts
         Firebase.DashboardStats.totalReturns].
    rewrite Hsales, Hreturns, Hcustomers. f_equal.
    by apply map_size_insert_None.
  - intros newId data now _.
    destruct (Firebase.sales db !! Firebase.PaymentData.saleId data)
      as [sale|] eqn:Hsale.
    + unfold Firebase.createPayment, Firebase.addDoc.
      match goal with |- context [Firebase.getSale ?d _] => set (db1 := d) end.
      assert (Firebase.sales db1 !! Firebase.PaymentData.saleId data
              = Some sale) as Hsale1 by exact Hsale.
      unfold Firebase.getSale at 1, Firebase.getDoc. rewrite Hsale1.
      match goal with
      | |- context [Firebase.updateSale db1 _ ?p None now] => set (patch := p)
      end.
      destruct (FirebasePayment.updateSale_fields db1
                  (Firebase.PaymentData.saleId data) patch now sale Hsale1)
        as (balances & Hrun).
      rewrite Hrun. simpl.
      match goal with
      | |- context [Firebase.updateCustomerBalance ?d ?c now] =>
          destruct (FirebasePayment.updateCustomerBalance_frame d c now)
            as (balances' & Hbal)
      end.
      rewrite Hbal. simpl. eexists. split; [reflexivity|].
      subst stats. unfold Firebase.getDashboardStats. simpl. f_equal.
      exact (FirebaseDashboard.totalSales_rewrite (Firebase.sales db)
               (Firebase.PaymentData.saleId data) sale
               (Firebase.Sale_merge patch now sale) Hsale eq_refl).
    + rewrite (FirebasePayment.createPayment_unknown_sale db newId data now
                 Hsale).
      eexists. split; [reflexivity|]. reflexivity.
Qed.

Lemma X25_witness :
  Firebase.truthy (Firebase.SaleData.customerId FirebaseExample.aSale) = true
  ∧ ∃ db',
      Firebase.createSale FirebaseExample.db "s2" FirebaseExample.aSale
        [("i1", FirebaseExample.tins "p1" 3)] FirebaseExample.jan16
      = Some (db', "s2")
      ∧ Firebase.DashboardStats.totalProducts (Firebase.getDashboardStats db')
        = 1%nat.
Proof.
  split; [reflexivity|].
  destruct (proj1 (X25_Firebase_dashboard_figures FirebaseExample.db) "s2"
              FirebaseExample.aSale [("i1", FirebaseExample.tins "p1" 3)]
              FirebaseExample.jan16 eq_refl)
    as (db' & Hrun & _ & Hproducts & _).
  exists db'. split; [exact Hrun|]. rewrite Hproducts. reflexivity.
Defined.

(** * Lists and single reads *)

Module MemLists.
Import MemStorage MemReach MemReachFacts.

Lemma values_keyed {A} (id : A → Z) n (m : gmap Z A) :
  keyed id n m →
  NoDup (id <$> values m) ∧ ∀ a, a ∈ values m ↔ m !! id a = Some a.
Proof.
  intros Hm. unfold values. split.
  - assert (id <$> (in_key_order Z.le m).*2 = (in_key_order Z.le m).*1)
      as ->.
    { rewrite <-list_fmap_compose. apply list_fmap_ext.
      intros i [k a] Hka. simpl.
      apply list_elem_of_lookup_2, (elem_of_in_key_order Z.le) in Hka.
      exact (proj1 (Hm k a Hka)). }
    apply NoDup_fst_in_key_order.
  - intros a. rewrite list_elem_of_fmap. split.
    + intros ([k a'] & -> & Hka). simpl.
      apply (elem_of_in_key_order Z.le) in Hka.
      by rewrite (proj1 (Hm k a' Hka)).
    + intros Ha. exists (id a, a). split; [done|].
      by apply (elem_of_in_key_order Z.le).
Qed.

End MemLists.

(** X26. On a store reached from a new instance the lists agree with the
    single reads: [getAllCustomers], [getAllProducts], [getAllSales],
    [getAllReturns] and [getAllPayments] hold no two records with the same
    identifier, and a record is in the list exactly when the single read
    of its identifier returns it. *)
Theorem X26_lists_agree_with_single_reads (ops : list MemReach.Op) :
  let st := MemReach.run ops in
  (NoDup (MemStorage.Customer.id <$> MemStorage.getAllCustomers st)
   ∧ ∀ customer,
       customer ∈ MemStorage.getAllCustomers st
       ↔ MemStorage.getCustomer st (MemStorage.Customer.id customer)
         = Some customer)
  ∧ (NoDup (MemStorage.Product.id <$> MemStorage.getAllProducts st)
     ∧ ∀ product,
         product ∈ MemStorage.getAllProducts st
         ↔ MemStorage.getProduct st (MemStorage.Product.id product)
           = Some product)
  ∧ (NoDup (MemStorage.Sale.id <$> MemStorage.getAllSales st)
     ∧ ∀ sale,
         sale ∈ MemStorage.getAllSales st
         ↔ MemStorage.getSale st (MemStorage.Sale.id sale) = Some sale)
  ∧ (NoDup (MemStorage.Return.id <$> MemStorage.getAllReturns st)
     ∧ ∀ returnItem,
         returnItem ∈ MemStorage.getAllReturns st
         ↔ MemStorage.getReturn st (MemStorage.Return.id returnItem)
           = Some returnItem)
  ∧ (NoDup (MemStorage.Payment.id <$> MemStorage.getAllPayments st)
     ∧ ∀ payment,
         payment ∈ MemStorage.getAllPayments st
         ↔ MemStorage.getPayment st (MemStorage.Payment.id payment)
           = Some payment).
Proof.
  intros st.
  destruct (MemReachFacts.well_keyed_run ops)
    as [Hc Hp Hs Hr Hpay _ _ _ _ _ _]. fold st in Hc, Hp, Hs, Hr, Hpay.
  split; [exact (MemLists.values_keyed _ _ _ Hc)|].
  split; [exact (MemLists.values_keyed _ _ _ Hp)|].
  split; [exact (MemLists.values_keyed _ _ _ Hs)|].
  split; [exact (MemLists.values_keyed _ _ _ Hr)|].
  exact (MemLists.values_keyed _ _ _ Hpay).
Qed.

(** X27. In the document-database client the list of sales agrees with the
    single read.  [getSales] holds no two sales with the same identifier;
    every sale in it is one that [getSale] returns, with the same document
    and the same items, except that the list joins neither the customer
    nor the products of the items; and every sale that [getSale] returns is
    in the list. *)
Theorem X27_Firebase_getSales_agrees_with_getSale (db : Firebase.t) :
  NoDup (Firebase.SaleView.id <$> Firebase.getSales db)
  ∧ (∀ listed,
       listed ∈ Firebase.getSales db →
       ∃ read,
         Firebase.getSaleJoined db (Firebase.SaleView.id listed) = Some read
         ∧ Firebase.SaleView.doc read = Firebase.SaleView.doc listed
         ∧ FirebaseRead.itemsOf read = FirebaseRead.itemsOf listed
         ∧ Firebase.SaleView.customer listed = Firebase.not_joined
         ∧ Forall (λ item, Firebase.SaleItemView.product item
                           = Firebase.not_joined)
                  (Firebase.SaleView.items listed))
  ∧ (∀ id read,
       Firebase.getSaleJoined db id = Some read →
       ∃ listed,
         listed ∈ Firebase.getSales db ∧ Firebase.SaleView.id listed = id).
Proof.
  unfold Firebase.getSales. split; [|split].
  - rewrite <-list_fmap_compose.
    assert (∀ l : list (string * Firebase.Sale.t),
              (Firebase.SaleView.id
                 ∘ (λ doc : string * Firebase.Sale.t,
                      {| Firebase.SaleView.id := doc.1;
                         Firebase.SaleView.doc := doc.2;
                         Firebase.SaleView.customer := Firebase.not_joined;
                         Firebase.SaleView.items :=
                           (λ item : string * Firebase.SaleItem.t,
                              {| Firebase.SaleItemView.id := item.1;
                                 Firebase.SaleItemView.item := item.2;
                                 Firebase.SaleItemView.product :=
                                   Firebase.not_joined |})
                             <$> Firebase.getDocs
                                   (Firebase.saleItemsOf db doc.1) |}))
              <$> l = l.*1) as ->.
    { intros l. by apply list_fmap_ext. }
    apply FirebaseFacts.NoDup_fst_getDocs.
  - intros listed Hin. apply list_elem_of_fmap in Hin as ([k sale] & -> & Hk).
    apply FirebaseFacts.elem_of_getDocs in Hk. simpl.
    unfold Firebase.getSaleJoined, Firebase.getDoc. rewrite Hk.
    eexists. split; [reflexivity|]. split; [reflexivity|].
    split.
    { unfold FirebaseRead.itemsOf. simpl.
      by rewrite !FirebaseReadFacts.itemsOf_docs. }
    split; [reflexivity|].
    apply Forall_fmap, Forall_forall. by intros.
  - intros id read Hread. unfold Firebase.getSaleJoined, Firebase.getDoc in Hread.
    destruct (Firebase.sales db !! id) as [sale|] eqn:Hsale; [|done].
    eexists. split.
    { apply list_elem_of_fmap. exists (id, sale). split; [reflexivity|].
      by apply FirebaseFacts.elem_of_getDocs. }
    reflexivity.
Qed.

Lemma X27_witness :
  ∃ read,
    Firebase.getSaleJoined FirebaseExample.db "s1" = Some read
    ∧ ∃ listed,
        listed ∈ Firebase.getSales FirebaseExample.db
        ∧ Firebase.SaleView.id listed = "s1".
Proof.
  eexists. split; [reflexivity|].
  exact (proj2 (proj2 (X27_Firebase_getSales_agrees_with_getSale
                         FirebaseExample.db)) "s1" _ eq_refl).
Defined.

